(** * Waiwera Docker launcher ([waiwera-dkr.py]): model and properties

    A shallow embedding of the launcher script: the [DockerEnv] health
    check and Docker Toolbox repair, the shared-folder parser, the path
    translation, the container run with its two marker files, and the
    interrupt handler.

    Strings are byte strings ([string] of the Standard Library), as in
    the Python 2 interpreter the script is written for ([raw_input]).
    The process environment and the working directory's files are finite
    maps; every command the script issues, every prompt and every pause
    is recorded in a trace.  A child process may change the files;
    [os.system] and a prompt change nothing the script can see but their
    result.  What is printed is left out, and creating a marker file
    always succeeds. *)

From Stdlib Require Import String Ascii ZArith List Bool Lia.
From stdpp Require Import gmap strings.
Import ListNotations.

Local Open Scope string_scope.
Set Warnings "-register-all".

(** ** Python string operations *)

(** [s[n:]] *)
Fixpoint py_drop (n : nat) (s : string) : string :=
  match n, s with
  | O, _ => s
  | S _, EmptyString => EmptyString
  | S k, String _ s' => py_drop k s'
  end.

(** [s[:n]] *)
Fixpoint py_take (n : nat) (s : string) : string :=
  match n, s with
  | O, _ => EmptyString
  | S _, EmptyString => EmptyString
  | S k, String c s' => String c (py_take k s')
  end.

(** [s.startswith(p)] *)
Definition startswith (s p : string) : bool := String.prefix p s.

(** [sub in s] *)
Fixpoint contains (sub s : string) : bool :=
  String.prefix sub s ||
  match s with
  | EmptyString => false
  | String _ s' => contains sub s'
  end.

(** [s.replace(old, new)] for a non-empty [old]: occurrences are found
    from left to right and do not overlap.  [skip] counts the characters
    of a matched occurrence that are still to be passed over. *)
Fixpoint replace_from (old new : string) (skip : nat) (s : string) : string :=
  match s with
  | EmptyString => EmptyString
  | String c s' =>
      match skip with
      | S k => replace_from old new k s'
      | O =>
          if String.prefix old s
          then String.append new (replace_from old new (String.length old - 1) s')
          else String c (replace_from old new 0 s')
      end
  end.

Definition replace (old new s : string) : string := replace_from old new 0 s.

(** [s.lower()] on a byte string: only [A]..[Z] change. *)
Definition lower_ascii (c : ascii) : ascii :=
  let n := nat_of_ascii c in
  if (65 <=? n)%nat && (n <=? 90)%nat then ascii_of_nat (n + 32) else c.

Fixpoint lower (s : string) : string :=
  match s with
  | EmptyString => EmptyString
  | String c s' => String (lower_ascii c) (lower s')
  end.

(** The characters [str.strip()] removes: space, tab, newline, carriage
    return, vertical tab and form feed. *)
Definition is_space (c : ascii) : bool :=
  let n := nat_of_ascii c in
  (n =? 32)%nat || ((9 <=? n)%nat && (n <=? 13)%nat).

Fixpoint lstrip (s : string) : string :=
  match s with
  | EmptyString => EmptyString
  | String c s' => if is_space c then lstrip s' else s
  end.

Fixpoint rstrip (s : string) : string :=
  match s with
  | EmptyString => EmptyString
  | String c s' =>
      match rstrip s' with
      | EmptyString => if is_space c then EmptyString else String c EmptyString
      | r => String c r
      end
  end.

Definition strip (s : string) : string := rstrip (lstrip s).

(** [s.split(sep)] for a one-character separator: never an empty list. *)
Fixpoint split_on (p : ascii -> bool) (s : string) : list string :=
  match s with
  | EmptyString => [EmptyString]
  | String c s' =>
      if p c then EmptyString :: split_on p s'
      else match split_on p s' with
           | [] => [String c EmptyString]
           | w :: ws => String c w :: ws
           end
  end.

Definition split_char (sep : ascii) (s : string) : list string :=
  split_on (Ascii.eqb sep) s.

Definition newline : ascii := "010"%char.
Definition backslash : string := String "092"%char EmptyString.
Definition dquote : string := String "034"%char EmptyString.

(** ** The two Windows-to-POSIX rewrites *)

(** [DockerEnv.convert_path_nt_to_posix]:
    ['/{0}'.format(path.replace("\\","/").replace(":","").replace('//','/'))] *)
Definition method_convert_path_nt_to_posix (path : string) : string :=
  String.append "/" (replace "//" "/" (replace ":" "" (replace backslash "/" path))).

(** The module-level [convert_path_nt_to_posix]:
    ['/{0}'.format(path.replace("\\","/").replace(":",""))] *)
Definition convert_path_nt_to_posix (path : string) : string :=
  String.append "/" (replace ":" "" (replace backslash "/" path)).

(** ** The shared-folder parser ([get_vbox_share.parse_vminfo]) *)

(** One lazy group [(.+?)] followed by the literal [lit] and the rest of
    the pattern [k]: the shortest non-empty run of characters other than
    a newline after which the rest matches.  [acc] holds the characters
    already taken into the group. *)
Fixpoint lazy_group {A : Type} (lit : string) (k : string -> option A)
    (acc s : string) : option (string * A) :=
  match s with
  | EmptyString => None
  | String c s' =>
      if Ascii.eqb c newline then None
      else
        let g := String.append acc (String c EmptyString) in
        let next := lazy_group lit k g s' in
        if String.prefix lit s'
        then match k (py_drop (String.length lit) s') with
             | Some r => Some (g, r)
             | None => next
             end
        else next
  end.

(** The final greedy group [(.+)]: the longest non-empty run of
    characters other than a newline. *)
Fixpoint dot_run (s : string) : string :=
  match s with
  | EmptyString => EmptyString
  | String c s' => if Ascii.eqb c newline then EmptyString else String c (dot_run s')
  end.

Definition greedy_group (s : string) : option string :=
  match dot_run s with
  | EmptyString => None
  | r => Some r
  end.

Record share_line := { sl_name : string; sl_host : string; sl_comment : string }.

(** A match of
    [Name: '(?P<name>.+?)', Host path: '(?P<host>.+?)' (?P<comment>.+)]
    that starts at the first character of [s]. *)
Definition pat_match_here (s : string) : option share_line :=
  if String.prefix "Name: '" s
  then
    match lazy_group "', Host path: '"
            (lazy_group "' " greedy_group EmptyString)
            EmptyString (py_drop 7 s) with
    | Some (n, (h, c)) => Some {| sl_name := n; sl_host := h; sl_comment := c |}
    | None => None
    end
  else None.

(** [pat.search(line)]: the leftmost position with a match. *)
Fixpoint pat_search (s : string) : option share_line :=
  match pat_match_here s with
  | Some m => Some m
  | None =>
      match s with
      | EmptyString => None
      | String _ s' => pat_search s'
      end
  end.

Definition is_header (line : string) : bool := startswith line "Shared folders:".

Definition is_blank (line : string) : bool :=
  match strip line with EmptyString => true | _ => false end.

(** The [for line in vminfo.split('\n')] loop, with the loop variables
    [maps], [found] and [empty].  [None] is the [AttributeError] of
    [ms.groupdict()] when a non-blank line of the section does not match
    the pattern. *)
Fixpoint parse_lines (lines : list string) (maps : list (string * string))
    (found : bool) (empty : nat) : option (list (string * string)) :=
  match lines with
  | [] => Some maps
  | line :: rest =>
      if is_header line then
        if contains "<none>" line then Some maps
        else parse_lines rest maps true empty
      else if found then
        if is_blank line then
          parse_lines rest maps (negb (S empty =? 2)%nat) (S empty)
        else
          match pat_search (strip line) with
          | None => None
          | Some m =>
              parse_lines rest (maps ++ [(sl_host m, sl_name m)])
                (negb (empty =? 2)%nat) empty
          end
      else parse_lines rest maps found empty
  end.

Definition parse_vminfo (vminfo : string) : option (list (string * string)) :=
  parse_lines (split_char newline vminfo) [] false 0.

(** The parser as the specification words it, for comparison: the section
    ends when two _consecutive_ blank lines have been seen, so [empty] is
    reset by every entry. *)
Fixpoint spec_parse_lines (lines : list string) (maps : list (string * string))
    (found : bool) (empty : nat) : option (list (string * string)) :=
  match lines with
  | [] => Some maps
  | line :: rest =>
      if is_header line then
        if contains "<none>" line then Some maps
        else spec_parse_lines rest maps true 0
      else if found then
        if is_blank line then
          spec_parse_lines rest maps (negb (S empty =? 2)%nat) (S empty)
        else
          match pat_search (strip line) with
          | None => None
          | Some m => spec_parse_lines rest (maps ++ [(sl_host m, sl_name m)]) true 0
          end
      else spec_parse_lines rest maps found empty
  end.

Definition spec_parse_vminfo (vminfo : string) : option (list (string * string)) :=
  spec_parse_lines (split_char newline vminfo) [] false 0.

(** ** Values, exceptions and the outside world *)

(** What [json.loads] returns. *)
Inductive json :=
| JNull
| JBool (b : bool)
| JNum (repr : string)
| JStr (s : string)
| JList (l : list json)
| JDict (d : list (string * json)).

Inductive exn :=
| OSError
| IOError
| EOFError
| KeyError (key : string)
| NameError (name : string)
| TypeError
| AttributeError
| ValueError
| CalledProcessError
| Exception_ (msg : string).

(** How a computation ends: it returns, raises, or leaves through
    [exit]/[sys.exit]. *)
Inductive outcome (A : Type) :=
| Ret (a : A)
| Raise (e : exn)
| SysExit (code : Z).
Arguments Ret {A} a.
Arguments Raise {A} e.
Arguments SysExit {A} code.

(** The exit status of the interpreter for a top-level outcome: [0] when
    the script runs to its end, [1] for an uncaught exception, the
    argument of [exit] otherwise. *)
Definition exit_status {A : Type} (o : outcome A) : Z :=
  match o with
  | Ret _ => 0
  | Raise _ => 1
  | SysExit c => c
  end.

(** Every action of the script on the outside world, in order. *)
Inductive event :=
| EvSpawn (cmds : list string) (input : option string)
| EvSystem (cmd : string)
| EvRmtree (path : string)
| EvSleep (secs : Z)
| EvRawInput (prompt : string).

(** [os.environ], the files the script can see (path to contents) and the
    trace of actions so far. *)
Record world := {
  environ : gmap string string;
  files : gmap string string;
  trace : list event
}.

(** A child process either cannot be started, or exits with a status,
    its two output streams, and the files as it leaves them. *)
Inductive spawn_reply :=
| SpawnError (msg : string)
| Exited (ret : Z) (out err : string) (files' : gmap string string).

(** The platform's library: [sys.platform], [os.path], [json.loads] and
    the text of a value in a format string. *)
Class Platform := {
  sys_platform : string;
  os_path_join : string -> string -> string;
  os_pathsep : string;
  os_path_splitdrive : string -> string * string;
  json_loads : string -> option json;
  py_str : json -> string
}.

(** The surroundings of one execution: the working directory, the child
    processes, and the user at the terminal.  Replies may depend on
    everything that happened before. *)
Class Environment := {
  os_getcwd : string;
  spawn : world -> list string -> option string -> spawn_reply;
  os_system : world -> string -> Z;
  shutil_rmtree : world -> string -> gmap string string;
  raw_input : world -> string -> option string
}.

(** ** A state and exception monad *)

Definition Eff (S A : Type) : Type := S -> outcome A * S.

Definition ret {S A : Type} (a : A) : Eff S A := fun s => (Ret a, s).
Definition raise {S A : Type} (e : exn) : Eff S A := fun s => (Raise e, s).
Definition sys_exit {S A : Type} (c : Z) : Eff S A := fun s => (SysExit c, s).

Definition bind {S A B : Type} (m : Eff S A) (k : A -> Eff S B) : Eff S B :=
  fun s =>
    match m s with
    | (Ret a, s') => k a s'
    | (Raise e, s') => (Raise e, s')
    | (SysExit c, s') => (SysExit c, s')
    end.

Notation "x <- m ;; k" := (bind m (fun x => k))
  (at level 63, m at next level, right associativity).
Notation "m ;;; k" := (bind m (fun _ => k))
  (at level 63, right associativity).

(** The fields of a [DockerEnv] object; [None] is Python's [None]. *)
Record DockerEnv := {
  exists_ : option bool;
  running : option bool;
  info : option json;
  is_toolbox : option bool;
  folder_map : list (string * string)
}.

(** Truth value of an optional flag ([None] and [False] are false). *)
Definition truthy (b : option bool) : bool :=
  match b with Some true => true | _ => false end.

Definition W (A : Type) : Type := Eff world A.
Definition M (A : Type) : Type := Eff (DockerEnv * world) A.

(** A computation that only reads the object. *)
Definition lift {A : Type} (m : W A) : M A :=
  fun s => let (r, w') := m (snd s) in (r, (fst s, w')).

Definition get_self : M DockerEnv := fun s => (Ret (fst s), s).
Definition put_self (d : DockerEnv) : M unit := fun s => (Ret tt, (d, snd s)).

Definition set_exists (v : option bool) : M unit :=
  d <- get_self ;;
  put_self {| exists_ := v; running := running d; info := info d;
              is_toolbox := is_toolbox d; folder_map := folder_map d |}.
Definition set_running (v : option bool) : M unit :=
  d <- get_self ;;
  put_self {| exists_ := exists_ d; running := v; info := info d;
              is_toolbox := is_toolbox d; folder_map := folder_map d |}.
Definition set_info (v : option json) : M unit :=
  d <- get_self ;;
  put_self {| exists_ := exists_ d; running := running d; info := v;
              is_toolbox := is_toolbox d; folder_map := folder_map d |}.
Definition set_is_toolbox (v : option bool) : M unit :=
  d <- get_self ;;
  put_self {| exists_ := exists_ d; running := running d; info := info d;
              is_toolbox := v; folder_map := folder_map d |}.
Definition set_folder_map (v : list (string * string)) : M unit :=
  d <- get_self ;;
  put_self {| exists_ := exists_ d; running := running d; info := info d;
              is_toolbox := is_toolbox d; folder_map := v |}.

(** ** Primitive actions on the world *)

Definition log (e : event) : W unit :=
  fun w => (Ret tt, {| environ := environ w; files := files w; trace := trace w ++ [e] |}).

Definition set_files (f : gmap string string) : W unit :=
  fun w => (Ret tt, {| environ := environ w; files := f; trace := trace w |}).

Definition get_world : W world := fun w => (Ret w, w).

(** [key in os.environ] *)
Definition env_has (key : string) : W bool :=
  fun w => (Ret (bool_decide (is_Some (environ w !! key))), w).

(** [os.environ[key]] *)
Definition env_get (key : string) : W string :=
  fun w => match environ w !! key with
           | Some v => (Ret v, w)
           | None => (Raise (KeyError key), w)
           end.

(** [os.environ[key] = v] *)
Definition env_set (key v : string) : W unit :=
  fun w => (Ret tt, {| environ := <[key := v]> (environ w); files := files w; trace := trace w |}).

(** [os.path.isfile(path)] *)
Definition isfile (path : string) : W bool :=
  fun w => (Ret (bool_decide (is_Some (files w !! path))), w).

(** [open(path, "wb").close()]: the file exists and is empty afterwards. *)
Definition create_file (path : string) : W unit :=
  fun w => (Ret tt, {| environ := environ w; files := <[path := EmptyString]> (files w); trace := trace w |}).

(** [open(path, 'r')] followed by reading the contents. *)
Definition read_file (path : string) : W string :=
  fun w => match files w !! path with
           | Some c => (Ret c, w)
           | None => (Raise IOError, w)
           end.

(** [os.remove(path)] *)
Definition os_remove (path : string) : W unit :=
  fun w => match files w !! path with
           | Some _ => (Ret tt, {| environ := environ w; files := delete path (files w); trace := trace w |})
           | None => (Raise OSError, w)
           end.

(** [f.readline()] on a fresh handle: up to and including the first
    newline. *)
Fixpoint readline (s : string) : string :=
  match s with
  | EmptyString => EmptyString
  | String c s' => if Ascii.eqb c newline then String c EmptyString else String c (readline s')
  end.

Definition CID_LEN : nat := 12.
Definition REPO : string := "waiwera/waiwera".
Definition TAG : string := "latest".
Definition WAIWERA_PATH : string := "/opt/waiwera/build/waiwera".

Definition nl : string := String newline EmptyString.

(** ** The launcher *)

Section Launcher.
Context {P : Platform} {E : Environment}.

(** Start a child process and wait for it, as [subprocess.Popen] then
    [communicate]/[wait] do: [OSError] when it cannot be started. *)
Definition popen_wait (cmds : list string) (input : option string)
  : W (Z * string * string) :=
  w <- get_world ;;
  log (EvSpawn cmds input) ;;;
  match spawn w cmds input with
  | SpawnError _ => raise OSError
  | Exited rc out err f => set_files f ;;; ret (rc, out, err)
  end.

(** [call(cmds, input)]: a failure to start is caught and reported as
    [(False, '', str(e))]. *)
Definition call (cmds : list string) (input : option string)
  : W (bool * string * string) :=
  w <- get_world ;;
  log (EvSpawn cmds input) ;;;
  match spawn w cmds input with
  | SpawnError msg => ret (false, EmptyString, msg)
  | Exited rc out err f => set_files f ;;; ret ((rc =? 0)%Z, out, err)
  end.

(** [subprocess.check_output(cmds)] *)
Definition check_output (cmds : list string) : W string :=
  r <- popen_wait cmds None ;;
  let '(rc, out, _) := r in
  if (rc =? 0)%Z then ret out else raise CalledProcessError.

(** [subprocess.call(cmds)] *)
Definition subprocess_call (cmds : list string) : W Z :=
  r <- popen_wait cmds None ;;
  let '(rc, _, _) := r in ret rc.

(** A value used as an element of a command line must be a string. *)
Definition as_arg (v : json) : option string :=
  match v with JStr s => Some s | _ => None end.

(** The same test where the element is handed to [subprocess] directly. *)
Definition need_arg (v : json) : W string :=
  match as_arg v with Some s => ret s | None => raise TypeError end.

(** [call] with the machine name as last argument: the [TypeError] of a
    non-string element is caught by [call] like any other exception. *)
Definition call_vm (cmds : list string) (vm : json) (input : option string)
  : W (bool * string * string) :=
  match as_arg vm with
  | Some s => call (cmds ++ [s]) input
  | None => ret (false, EmptyString, "TypeError")
  end.

(** [os.environ['PATH'] += os.pathsep + d] *)
Definition add_to_path (d : string) : W unit :=
  p <- env_get "PATH" ;;
  env_set "PATH" (p ++ os_pathsep ++ d).

(** [check_tool(name, pth_env, exe_name, cmds, fmt, default_pth, verbose)] *)
Definition check_tool (name pth_env exe_name : string) (cmds : list string)
    (default_pth : string) : W bool :=
  has <- env_has pth_env ;;
  (if has then
     env_dir <- env_get pth_env ;;
     ok <- isfile (os_path_join env_dir exe_name) ;;
     if ok then add_to_path env_dir
     else raise (Exception_ ("Failed to find " ++ name))
   else
     ok <- isfile (os_path_join default_pth exe_name) ;;
     if ok then add_to_path default_pth
     else raise (Exception_ ("Failed to find " ++ name))) ;;;
  check_output cmds ;;;
  ret true.

(** [DockerEnv._find_vboxmanage]; [check_tool] returns [True] or raises,
    so the second search is never made. *)
Definition _find_vboxmanage : W unit :=
  if String.eqb sys_platform "win32" then
    pf <- env_get "ProgramFiles" ;;
    vb <- check_tool "VirtualBox: VBoxManage" "VBOX_MSI_INSTALL_PATH"
            "VBoxManage.exe" ["VBoxManage"; "--version"]
            (os_path_join (os_path_join pf "Oracle") "VirtualBox") ;;
    if negb vb then
      pf' <- env_get "ProgramFiles" ;;
      check_tool "VirtualBox: VBoxManage" "VBOX_INSTALL_PATH"
        "VBoxManage.exe" ["VBoxManage"; "--version"]
        (os_path_join (os_path_join pf' "Oracle") "VirtualBox") ;;;
      ret tt
    else ret tt
  else ret tt.

(** [key in v] for a value [v] of the object *)
Definition py_in {S : Type} (key : string) (v : option json) : Eff S bool :=
  match v with
  | Some (JDict d) => ret (existsb (fun kv => String.eqb (fst kv) key) d)
  | Some (JList l) =>
      ret (existsb (fun x => match x with JStr s => String.eqb s key | _ => false end) l)
  | Some (JStr s) => ret (contains key s)
  | _ => raise TypeError
  end.

(** The value of a key of a dictionary. *)
Fixpoint dict_get (key : string) (d : list (string * json)) : option json :=
  match d with
  | [] => None
  | (k, v) :: d' => if String.eqb k key then Some v else dict_get key d'
  end.

(** [v[key]] for a string [key] *)
Definition py_getitem {S : Type} (key : string) (v : option json) : Eff S json :=
  match v with
  | Some (JDict d) =>
      match dict_get key d with
      | Some x => ret x
      | None => raise (KeyError key)
      end
  | _ => raise TypeError
  end.

(** [v.lower()] *)
Definition py_lower {S : Type} (v : json) : Eff S string :=
  match v with
  | JStr s => ret (lower s)
  | _ => raise AttributeError
  end.

(** [DockerEnv.toolbox_vm]: the machine name, from [self.info], the
    environment, or [docker-machine active]. *)
Definition toolbox_vm (self : DockerEnv) : W json :=
  match info self with
  | Some i =>
      has <- py_in "Name" (Some i) ;;
      if has then py_getitem "Name" (Some i) else ret (JStr "default")
  | None =>
      has <- env_has "DOCKER_MACHINE_NAME" ;;
      if has then
        n <- env_get "DOCKER_MACHINE_NAME" ;;
        match n with
        | EmptyString => ret (JStr "default")
        | _ => ret (JStr n)
        end
      else
        r <- call ["docker-machine"; "active"; "--timeout"; "1"] None ;;
        let '(ok, out, _) := r in
        if ok then ret (JStr out) else ret (JStr "default")
  end.

(** The body of the [for line in out.split('\n')] loop of [update_env]:
    [vn, vv = re.split(' |=', line)[1:]] needs exactly two fields. *)
Fixpoint update_env_lines (lines : list string) : W unit :=
  match lines with
  | [] => ret tt
  | line :: rest =>
      (if startswith line "SET" then
         match tl (split_on (fun c => Ascii.eqb c " "%char || Ascii.eqb c "="%char) line) with
         | [vn; vv] => env_set vn vv
         | _ => raise ValueError
         end
       else ret tt) ;;;
      update_env_lines rest
  end.

(** [DockerEnv.update_env] *)
Definition update_env : W unit :=
  r <- call ["docker-machine"; "env"; "--shell=cmd"] None ;;
  let '(ok, out, _) := r in
  if negb ok then ret tt
  else
    update_env_lines (split_char newline out) ;;;
    call ["docker-machine"; "env"] None ;;;
    ret tt.

(** [os.system(cmd)]: the status is all the script can see of it. *)
Definition system (cmd : string) : W Z :=
  w <- get_world ;;
  log (EvSystem cmd) ;;;
  ret (os_system w cmd).

(** [shutil.rmtree(path, ignore_errors=True)] *)
Definition rmtree (path : string) : W unit :=
  w <- get_world ;;
  log (EvRmtree path) ;;;
  set_files (shutil_rmtree w path).

(** [if key in os.environ: os.environ['PROXY_ENV'] += text] *)
Definition add_proxy (key text : string) : W unit :=
  has <- env_has key ;;
  if has then
    p <- env_get "PROXY_ENV" ;;
    env_set "PROXY_ENV" (p ++ text)
  else ret tt.

(** [DockerEnv.repair_win_toolbox]; it reads [self] and assigns to none
    of its fields. *)
Definition repair_win_toolbox (self : DockerEnv) : W unit :=
  _find_vboxmanage ;;;
  vm <- toolbox_vm self ;;
  vms <- check_output ["VBoxManage"; "list"; "vms"] ;;
  (if negb (contains (dquote ++ py_str vm ++ dquote)
              (strip vms))
   then
     (a <- need_arg vm ;; subprocess_call ["docker-machine"; "rm"; "-f"; a]) ;;;
     hd <- env_get "HOMEDRIVE" ;;
     hp <- env_get "HOMEPATH" ;;
     rmtree (hd ++ hp ++ "/.docker/machine/machines/" ++ py_str vm) ;;;
     env_set "PROXY_ENV" EmptyString ;;;
     add_proxy "HTTP_PROXY" "--engine-env HTTP_PROXY=%HTTP_PROXY%" ;;;
     add_proxy "HTTPS_PROXY" "--engine-env HTTPS_PROXY=%HTTPS_PROXY%" ;;;
     add_proxy "NO_PROXY" "--engine-env NO_PROXY=%NO_PROXY%" ;;;
     has <- env_has "PROXY_ENV" ;;
     (if has then
        pe <- env_get "PROXY_ENV" ;;
        a <- need_arg vm ;;
        subprocess_call (["docker-machine"; "create"; "-d"; "virtualbox"]
                           ++ split_char " "%char pe ++ [a])
      else
        a <- need_arg vm ;;
        subprocess_call ["docker-machine"; "create"; "-d"; "virtualbox"; a]) ;;;
     ret tt
   else ret tt) ;;;
  vmstatus <- (a <- need_arg vm ;; check_output ["docker-machine"; "status"; a]) ;;
  (if negb (String.eqb (strip vmstatus) "Running") then
     r <- call ["docker-machine"; "start"] None ;;
     (if negb (fst (fst r)) then sys_exit 1 else ret tt) ;;;
     r' <- call_vm ["docker-machine"; "regenerate-certs"] vm (Some ("y" ++ String newline EmptyString)) ;;
     (if negb (fst (fst r')) then sys_exit 1 else ret tt) ;;;
     log (EvSleep 5)
   else ret tt) ;;;
  (a <- need_arg vm ;; check_output ["docker-machine"; "status"; a]) ;;;
  (a <- need_arg vm ;; check_output ["docker-machine"; "ip"; a]) ;;;
  update_env.

(** [DockerEnv.get_vbox_share] *)
Definition get_vbox_share (self : DockerEnv) : W (list (string * string)) :=
  vm <- toolbox_vm self ;;
  _find_vboxmanage ;;;
  vminfo <- (a <- need_arg vm ;; check_output ["vboxmanage"; "showvminfo"; a]) ;;
  match parse_vminfo vminfo with
  | Some maps => ret maps
  | None => raise AttributeError
  end.

(** The loop of [convert_path_vbox_share] over [reversed(self.folder_map)];
    [None] is the implicit [return None] after the loop. *)
Fixpoint vbox_share_search (path : string) (l : list (string * string))
  : option string :=
  match l with
  | [] => None
  | (m, share) :: rest =>
      let pp := os_path_join path EmptyString in
      let mm := os_path_join m EmptyString in
      let win := String.eqb sys_platform "win32" in
      if startswith (if win then lower pp else pp) (if win then lower mm else mm)
      then Some (share ++ "/" ++ py_drop (String.length m) path)
      else vbox_share_search path rest
  end.

(** [DockerEnv.convert_path_vbox_share] *)
Definition convert_path_vbox_share (self : DockerEnv) (path : string)
  : option string :=
  vbox_share_search path (rev (folder_map self)).

(** [DockerEnv.check_exists] *)
Definition check_exists : M bool :=
  r <- lift (call ["docker"; "--version"] None) ;;
  set_exists (Some (fst (fst r))) ;;;
  ret (fst (fst r)).

(** [DockerEnv.check_running] *)
Definition check_running (verbose : bool) : M (option bool) :=
  d0 <- get_self ;;
  refuse <- match exists_ d0 with
            | None => e <- check_exists ;; ret (negb e)
            | Some _ => ret false
            end ;;
  if refuse : bool then ret None
  else
    r <- lift (call ["docker"; "info"; "--format"; "{{json .}}"] None) ;;
    let '(ok, out, err) := r in
    set_running (Some ok) ;;;
    match json_loads out with
    | Some j => set_info (Some j)
    | None =>
        set_info (Some (JDict [("STDOUT", JStr out); ("STDERR", JStr err)])) ;;;
        set_is_toolbox (Some true)
    end ;;;
    d <- get_self ;;
    (if truthy (running d) then
       has <- py_in "ServerErrors" (info d) ;;
       if has then
         (if verbose then py_getitem "ServerErrors" (info d) ;;; ret tt else ret tt) ;;;
         set_running (Some false)
       else
         (if verbose then py_getitem "OperatingSystem" (info d) ;;; ret tt else ret tt) ;;;
         os <- py_getitem "OperatingSystem" (info d) ;;
         l <- py_lower os ;;
         if contains "boot2docker" l then set_is_toolbox (Some true)
         else set_is_toolbox (Some false)
     else ret tt) ;;;
    d' <- get_self ;;
    ret (running d').

(** The body of the inner [if not self.running:] of [__init__]: the more
    aggressive repair for Docker Toolbox on Windows, then the last test
    of [self.running]. *)
Definition aggressive_repair : M unit :=
  d1 <- get_self ;;
  (if String.eqb sys_platform "win32"
   then lift (repair_win_toolbox d1) else ret tt) ;;;
  d2 <- get_self ;;
  if negb (truthy (running d2))
  then raise (Exception_ "Error, unable to repair Docker Toolbox!")
  else ret tt.

(** [DockerEnv.__init__(check, verbose, toolbox, toolbox_folder_map)] *)
Definition DockerEnv_init (check : bool) (toolbox : option bool)
    (toolbox_folder_map : list (string * string)) : M unit :=
  put_self {| exists_ := None; running := None; info := None;
              is_toolbox := match toolbox_folder_map with
                            | [] => toolbox
                            | _ => Some true
                            end;
              folder_map := toolbox_folder_map |} ;;;
  (if check then
     check_exists ;;;
     check_running true ;;;
     d <- get_self ;;
     if negb (truthy (running d)) then
       if truthy (is_toolbox d) then
         lift update_env ;;;
         check_running true ;;;
         d1 <- get_self ;;
         if negb (truthy (running d1)) then aggressive_repair
         else ret tt
       else
         e <- py_getitem "ServerErrors" (info d) ;;
         raise (Exception_ ("Error, Docker is not running: " ++ py_str e))
     else ret tt
   else ret tt) ;;;
  d <- get_self ;;
  if truthy (is_toolbox d) && (Nat.eqb (List.length (folder_map d)) 0)
  then fm <- lift (get_vbox_share d) ;; set_folder_map fm
  else ret tt.

(** ['{}'.format(v)] for a path that may be [None] *)
Definition format_path (v : option string) : string :=
  match v with Some s => s | None => "None" end.

(** [self.convert_path_nt_to_posix(_cwd)]: [None] has no [replace]. *)
Definition nt_to_posix_opt {S : Type} (v : option string) : Eff S (option string) :=
  match v with
  | Some s => ret (Some (method_convert_path_nt_to_posix s))
  | None => raise AttributeError
  end.

(** [DockerEnv.volume_path(path)]; [toolbox_conf_share_win] is defined
    nowhere, so calling it is a [NameError]. *)
Definition volume_path (path_arg : option string) : M (option string) :=
  let path := match path_arg with Some p => p | None => os_getcwd end in
  d <- get_self ;;
  let win := String.eqb sys_platform "win32" in
  r <- (if truthy (is_toolbox d) then
          match convert_path_vbox_share d path with
          | None =>
              if win then
                let drv := fst (os_path_splitdrive path) in
                w <- lift get_world ;;
                let prompt := "    Do you want drive " ++ drv ++ " to be shared (Y/[N])?" in
                lift (log (EvRawInput prompt)) ;;;
                match raw_input w prompt with
                | None => raise EOFError
                | Some ymnt =>
                    if contains "y" (lower ymnt) then
                      (raise (NameError "toolbox_conf_share_win") : M unit) ;;;
                      fm <- lift (get_vbox_share d) ;;
                      set_folder_map fm ;;;
                      d' <- get_self ;;
                      ret (inr (convert_path_vbox_share d' path))
                    else ret (inl tt)
                end
              else ret (inr (convert_path_vbox_share d path))
          | Some _ => ret (inr (convert_path_vbox_share d path))
          end
        else ret (inr (Some path))) ;;
  match r with
  | inl _ => ret None
  | inr _cwd => if win then nt_to_posix_opt _cwd else ret _cwd
  end.

(** The arguments of a run, as [argparse] delivers them. *)
Record run_args := {
  waiwera_args : list string;
  image : option string;
  repo : string;
  tag : string;
  num_processors : option string;
  interactive : bool;
  noupdate : bool
}.

(** The truth value of a string. *)
Definition nonempty (s : string) : bool :=
  match s with EmptyString => false | _ => true end.

(** The [image] list of [run_waiwera]. *)
Definition image_ref (a : run_args) : list string :=
  match image a with
  | None => [repo a ++ ":" ++ tag a]
  | Some i => [i]
  end.

(** The [np] list of [run_waiwera]. *)
Definition np_args (a : run_args) : list string :=
  match num_processors a with
  | Some n => if nonempty n then ["-np"; n] else [EmptyString]
  | None => [EmptyString]
  end.

(** The command line of [run_waiwera], empty strings removed. *)
Definition run_cmd (current_path : option string) (a : run_args) : list string :=
  let data_path := "/data" in
  let it := if interactive a then ["--interactive"; "--tty"] else [EmptyString] in
  let work_dir := if interactive a then [EmptyString] else ["--workdir"; data_path] in
  let mpiexec := if interactive a then ["/bin/bash"]
                 else (["mpiexec"] ++ np_args a ++ [WAIWERA_PATH])%list in
  filter (fun c => nonempty c = true)
    (["docker"; "run"; "--cidfile"; ".cid"; "--rm"; "--volume";
      (format_path current_path ++ ":" ++ data_path)%string]
       ++ it ++ work_dir ++ image_ref a ++ mpiexec ++ waiwera_args a)%list.

(** [f.readline().strip()[:CID_LEN]] *)
Definition cid_of (contents : string) : string :=
  py_take CID_LEN (strip (readline contents)).

(** From [fo = open(".idcheck", "wb")] to the end of the function, the
    same lines in [run_waiwera] and in [waiwera_docker]. *)
Definition launch (cmd : list string) : W unit :=
  create_file ".idcheck" ;;;
  popen_wait cmd None ;;;
  c <- read_file ".cid" ;;
  let cid := cid_of c in
  os_remove ".idcheck" ;;;
  os_remove ".cid".

(** [DockerEnv.run_waiwera] *)
Definition run_waiwera (a : run_args) : M unit :=
  current_path <- volume_path None ;;
  (if negb (noupdate a)
   then lift (popen_wait (["docker"; "pull"] ++ image_ref a)%list None) ;;; ret tt
   else ret tt) ;;;
  lift (launch (run_cmd current_path a)).

(** [signal_handler(sig, frame)], installed for [SIGINT]. *)
Definition signal_handler : W unit :=
  present <- isfile ".cid" ;;
  (if present then
     c <- read_file ".cid" ;;
     system ("docker kill " ++ cid_of c) ;;;
     os_remove ".cid"
   else ret tt) ;;;
  sys_exit 1.

(** The command line of the module-level [waiwera_docker]. *)
Definition docker_cmd (current_path : string) (a : run_args) : list string :=
  let data_path := "/data" in
  let it := if interactive a then ["--interactive"; "--tty"] else [EmptyString] in
  let work_dir := if interactive a then [EmptyString] else ["--workdir"; data_path] in
  let mpiexec := if interactive a then [EmptyString]
                 else (["mpiexec"] ++ np_args a ++ [(WAIWERA_PATH ++ "/build/waiwera")%string])%list in
  filter (fun c => nonempty c = true)
    (["docker"; "run"; "--cidfile"; ".cid"; "--rm"; "--volume";
      (current_path ++ ":" ++ data_path)%string]
       ++ it ++ work_dir ++ image_ref a ++ mpiexec ++ waiwera_args a)%list.

(** The module-level [waiwera_docker(args)]. *)
Definition waiwera_docker (a : run_args) : W unit :=
  let current_path :=
    if String.eqb sys_platform "win32" then convert_path_nt_to_posix os_getcwd
    else os_getcwd in
  (if negb (noupdate a)
   then system ("docker pull " ++ hd EmptyString (image_ref a)) ;;; ret tt
   else ret tt) ;;;
  launch (docker_cmd current_path a).

(** The object before [__init__] has run. *)
Definition blank : DockerEnv :=
  {| exists_ := None; running := None; info := None; is_toolbox := None;
     folder_map := [] |}.

(** The [__main__] block after argument parsing:
    [dkr = DockerEnv(check=True)], then [run_waiwera] on the parsed
    arguments. *)
Definition main (a : run_args) : W unit :=
  fun w =>
    let (r, s) := (DockerEnv_init true None [] ;;; run_waiwera a) (blank, w) in
    (r, snd s).
End Launcher.

(** ** Concrete platforms and environments for the examples *)

(** [posixpath.join(a, b)] *)
Definition posix_join (a b : string) : string :=
  if String.prefix "/" b then b
  else if String.eqb a EmptyString || String.eqb (py_drop (String.length a - 1) a) "/"
       then a ++ b
       else a ++ "/" ++ b.

Definition is_sep (c : ascii) : bool := Ascii.eqb c "/"%char || Ascii.eqb c "092"%char.

Definition last_is_sep (s : string) : bool :=
  match py_drop (String.length s - 1) s with
  | String c _ => is_sep c
  | EmptyString => false
  end.

Definition first_is_sep (s : string) : bool :=
  match s with
  | String c _ => is_sep c
  | EmptyString => false
  end.

(** [ntpath.splitdrive(p)] for paths with a drive letter or none; UNC
    paths are not used in the examples. *)
Definition nt_splitdrive (p : string) : string * string :=
  match p with
  | String d (String ":" rest) => (String d ":", rest)
  | _ => (EmptyString, p)
  end.

(** [ntpath.join(a, b)] for a relative or empty [b] without a drive. *)
Definition nt_join (a b : string) : string :=
  let (drive, path) := nt_splitdrive a in
  if first_is_sep b then drive ++ b
  else if nonempty path && negb (last_is_sep path)
       then drive ++ path ++ backslash ++ b
       else drive ++ path ++ b.

(** The text of a string, [None], a boolean or a number; containers are
    abbreviated. *)
Definition fixture_str (v : json) : string :=
  match v with
  | JNull => "None"
  | JBool true => "True"
  | JBool false => "False"
  | JNum r => r
  | JStr s => s
  | JList _ => "[...]"
  | JDict _ => "{...}"
  end.

Definition doc_toolbox : string :=
  "{" ++ dquote ++ "OperatingSystem" ++ dquote ++ ": " ++ dquote
      ++ "Boot2Docker 19.03.12 (TCL 10.1)" ++ dquote ++ "}".

Definition doc_native : string :=
  "{" ++ dquote ++ "OperatingSystem" ++ dquote ++ ": " ++ dquote
      ++ "Ubuntu 20.04.6 LTS" ++ dquote ++ "}".

(** A decoder that knows the two documents above and rejects any other
    text, as [json.loads] rejects the error messages of Docker Toolbox. *)
Definition fixture_loads (s : string) : option json :=
  if String.eqb s doc_toolbox
  then Some (JDict [("OperatingSystem", JStr "Boot2Docker 19.03.12 (TCL 10.1)")])
  else if String.eqb s doc_native
  then Some (JDict [("OperatingSystem", JStr "Ubuntu 20.04.6 LTS")])
  else None.

Definition posix_platform (name : string) : Platform :=
  {| sys_platform := name;
     os_path_join := posix_join;
     os_pathsep := ":";
     os_path_splitdrive := fun p => (EmptyString, p);
     json_loads := fixture_loads;
     py_str := fixture_str |}.

Definition nt_platform : Platform :=
  {| sys_platform := "win32";
     os_path_join := nt_join;
     os_pathsep := ";";
     os_path_splitdrive := nt_splitdrive;
     json_loads := fixture_loads;
     py_str := fixture_str |}.

(** An environment given by the replies of its child processes and the
    answer typed at a prompt; [os.system] succeeds and [rmtree] finds
    nothing to delete. *)
Definition scripted (cwd : string)
    (reply : world -> list string -> option string -> spawn_reply)
    (answer : option string) : Environment :=
  {| os_getcwd := cwd;
     spawn := reply;
     os_system := fun _ _ => 0%Z;
     shutil_rmtree := fun w _ => files w;
     raw_input := fun _ _ => answer |}.

(** Does the command line start with these words? *)
Definition cmd_is (pre cmds : list string) : bool :=
  bool_decide (firstn (List.length pre) cmds = pre).

Definition empty_world : world :=
  {| environ := ∅; files := ∅; trace := [] |}.

Definition a_container_id : string :=
  "3f4e8c1d2a9b7c6d5e4f3a2b1c0d9e8f7a6b5c4d3e2f1a0b9c8d7e6f5a4b3c2d".

(** Docker on Linux, daemon up; the containerized process exits with
    [rc] and the engine has written the container id. *)
Definition spawn_native (rc : Z) (w : world) (cmds : list string)
    (input : option string) : spawn_reply :=
  if cmd_is ["docker"; "--version"] cmds
  then Exited 0 "Docker version 19.03.12, build 48a66213fe" EmptyString (files w)
  else if cmd_is ["docker"; "info"] cmds
  then Exited 0 doc_native EmptyString (files w)
  else if cmd_is ["docker"; "run"] cmds
  then Exited rc EmptyString EmptyString (<[".cid" := a_container_id]> (files w))
  else Exited 0 EmptyString EmptyString (files w).

Definition env_native (rc : Z) : Environment :=
  scripted "/home/user/model" (spawn_native rc) None.

(** The same, but the engine refuses the run before it creates a
    container, so no container id is written. *)
Definition spawn_refused (w : world) (cmds : list string)
    (input : option string) : spawn_reply :=
  if cmd_is ["docker"; "run"] cmds
  then Exited 125 EmptyString "docker: Error response from daemon." (files w)
  else spawn_native 0 w cmds input.

Definition env_refused : Environment :=
  scripted "/home/user/model" spawn_refused None.

Definition native_env : DockerEnv :=
  {| exists_ := Some true; running := Some true;
     info := Some (JDict [("OperatingSystem", JStr "Ubuntu 20.04.6 LTS")]);
     is_toolbox := Some false; folder_map := [] |}.

Definition batch_args : run_args :=
  {| waiwera_args := ["model.json"]; image := None; repo := REPO; tag := TAG;
     num_processors := Some "2"; interactive := false; noupdate := true |}.

(** Docker Toolbox on Windows with its machine stopped.  Until
    [docker-machine start] has been issued the engine cannot be reached;
    from then on every query succeeds. *)
Definition machine_started (w : world) : bool :=
  existsb (fun e => match e with
                    | EvSpawn cmds _ => cmd_is ["docker-machine"; "start"] cmds
                    | _ => false
                    end) (trace w).

Definition machine_env_out : string :=
  "SET DOCKER_TLS_VERIFY=1" ++ nl ++
  "SET DOCKER_HOST=tcp://192.168.99.100:2376" ++ nl ++
  "SET DOCKER_MACHINE_NAME=default" ++ nl ++
  "REM Run this command to configure your shell:" ++ nl.

Definition spawn_toolbox_win (w : world) (cmds : list string)
    (input : option string) : spawn_reply :=
  let up := machine_started w in
  if cmd_is ["docker"; "--version"] cmds
  then Exited 0 "Docker version 19.03.1, build 74b1e89e8a" EmptyString (files w)
  else if cmd_is ["docker"; "info"] cmds
  then (if up then Exited 0 doc_toolbox EmptyString (files w)
        else Exited 1 EmptyString "error during connect" (files w))
  else if cmd_is ["docker-machine"; "env"] cmds
  then (if up then Exited 0 machine_env_out EmptyString (files w)
        else Exited 1 EmptyString "Error checking TLS connection: Host is not running" (files w))
  else if cmd_is ["docker-machine"; "status"] cmds
  then Exited 0 (if up then "Running" else "Stopped") EmptyString (files w)
  else if cmd_is ["docker-machine"; "ip"] cmds
  then Exited 0 "192.168.99.100" EmptyString (files w)
  else if cmd_is ["VBoxManage"; "list"; "vms"] cmds
  then Exited 0 (dquote ++ "default" ++ dquote ++ " {0a1b2c3d}") EmptyString (files w)
  else if cmd_is ["VBoxManage"; "--version"] cmds
  then Exited 0 "6.1.12r139181" EmptyString (files w)
  else Exited 0 EmptyString EmptyString (files w).

Definition env_toolbox_win : Environment :=
  scripted ("C:" ++ backslash ++ "Users" ++ backslash ++ "a" ++ backslash ++ "project")
    spawn_toolbox_win (Some "n").

Definition program_files : string := "C:" ++ backslash ++ "Program Files".

Definition world_toolbox_win : world :=
  {| environ := {[ "ProgramFiles" := program_files;
                   "PATH" := "C:" ++ backslash ++ "Windows" ]};
     files := {[ program_files ++ backslash ++ "Oracle" ++ backslash ++ "VirtualBox"
                   ++ backslash ++ "VBoxManage.exe" := EmptyString ]};
     trace := [] |}.

(** The status query fails, yet prints a structured document. *)
Definition spawn_info_fails (w : world) (cmds : list string)
    (input : option string) : spawn_reply :=
  if cmd_is ["docker"; "info"] cmds
  then Exited 1 doc_toolbox EmptyString (files w)
  else Exited 0 EmptyString EmptyString (files w).

Definition env_info_fails : Environment :=
  scripted "/home/user/model" spawn_info_fails None.

(** The status query succeeds with a text that is no document. *)
Definition spawn_info_garbled (w : world) (cmds : list string)
    (input : option string) : spawn_reply :=
  if cmd_is ["docker"; "info"] cmds
  then Exited 0 "Containers: 3" EmptyString (files w)
  else Exited 0 EmptyString EmptyString (files w).

Definition env_info_garbled : Environment :=
  scripted "/home/user/model" spawn_info_garbled None.

Definition checked_env : DockerEnv :=
  {| exists_ := Some true; running := None; info := None; is_toolbox := None;
     folder_map := [] |}.

(** A Docker Toolbox object on a Mac whose only share is [/Users], asked
    to run in a directory outside it. *)
Definition toolbox_mac : DockerEnv :=
  {| exists_ := Some true; running := Some true;
     info := Some (JDict [("OperatingSystem", JStr "Boot2Docker 19.03.12 (TCL 10.1)")]);
     is_toolbox := Some true; folder_map := [("/Users", "Users")] |}.

Definition env_mac_outside : Environment :=
  scripted "/Volumes/data/model" (spawn_native 0) None.

(** The mapping of the specification's example. *)
Definition users_path : string := "C:" ++ backslash ++ "Users".
Definition project_path : string :=
  "C:" ++ backslash ++ "Users" ++ backslash ++ "a" ++ backslash ++ "project".

Definition toolbox_win : DockerEnv :=
  {| exists_ := Some true; running := Some true;
     info := Some (JDict [("OperatingSystem", JStr "Boot2Docker 19.03.12 (TCL 10.1)")]);
     is_toolbox := Some true; folder_map := [(users_path, "c_users")] |}.

(** ** Notions used in the statements *)

(** Does the character occur in the string? *)
Fixpoint has_char (c : ascii) (s : string) : bool :=
  match s with
  | EmptyString => false
  | String b s' => Ascii.eqb c b || has_char c s'
  end.

(** The backslash. *)
Definition bs : ascii := "092"%char.

(** [sep + seg] for every segment, in order. *)
Fixpoint join_segments (sep : string) (segs : list string) : string :=
  match segs with
  | [] => EmptyString
  | seg :: rest => String.append sep (String.append seg (join_segments sep rest))
  end.

(** A path component: not empty, and free of separators and colons. *)
Definition plain_segment (seg : string) : bool :=
  nonempty seg && negb (has_char bs seg) && negb (has_char "/" seg)
  && negb (has_char ":" seg).

(** The entries of a run of section lines, blank lines left out; [None]
    when a non-blank line does not match the pattern. *)
Fixpoint entries (body : list string) : option (list (string * string)) :=
  match body with
  | [] => Some []
  | line :: rest =>
      if is_blank line then entries rest
      else match pat_search (strip line), entries rest with
           | Some m, Some es => Some ((sl_host m, sl_name m) :: es)
           | _, _ => None
           end
  end.

(** The number of blank lines among these lines. *)
Definition blank_count (body : list string) : nat :=
  List.length (List.filter is_blank body).

(** None of these lines starts a section. *)
Definition no_header (lines : list string) : bool :=
  forallb (fun l => negb (is_header l)) lines.

(** Two lines of [VBoxManage showvminfo]. *)
Definition entry_users : string :=
  "Name: 'c/Users', Host path: '/c/Users' (machine mapping), writable".
Definition entry_d : string :=
  "Name: 'd', Host path: '/d' (machine mapping), writable".

(** A section whose two entries are separated by a single blank line. *)
Definition vminfo_two_entries : string :=
  "Name: default" ++ nl ++
  "Shared folders:" ++ nl ++
  nl ++
  entry_users ++ nl ++
  nl ++
  entry_d ++ nl.

(** Does the string hold a character that [strip] removes? *)
Fixpoint has_space (s : string) : bool :=
  match s with
  | EmptyString => false
  | String c s' => is_space c || has_space s'
  end.

(** Neither marker file exists. *)
Definition markers_gone (w : world) : Prop :=
  files w !! ".idcheck" = None /\ files w !! ".cid" = None.

(** The world once [.idcheck] has been created. *)
Definition started (w : world) : world :=
  {| environ := environ w; files := <[".idcheck" := EmptyString]> (files w);
     trace := trace w |}.

(** A working directory in which a container has been started. *)
Definition world_running : world :=
  {| environ := ∅;
     files := {[ ".idcheck" := EmptyString; ".cid" := a_container_id ]};
     trace := [] |}.

(** The status query of [check_running]. *)
Definition info_cmd : list string := ["docker"; "info"; "--format"; "{{json .}}"].

(** The object after two probes of a stopped Docker Toolbox. *)
Definition stopped_toolbox : DockerEnv :=
  {| exists_ := Some true; running := Some false;
     info := Some (JDict [("STDOUT", JStr EmptyString);
                          ("STDERR", JStr "error during connect")]);
     is_toolbox := Some true; folder_map := [] |}.

(** Nothing can be started on this machine. *)
Definition env_no_docker : Environment :=
  scripted "/home/user/model"
    (fun _ _ _ => SpawnError "[Errno 2] No such file or directory") None.

(** The prompt of [volume_path]. *)
Definition share_prompt {P : Platform} (path : string) : string :=
  "    Do you want drive " ++ fst (os_path_splitdrive path) ++ " to be shared (Y/[N])?".

(** The share of the example, answered with yes and with no. *)
Definition env_answer (answer : string) : Environment :=
  scripted project_path (spawn_native 0) (Some answer).

(** A Toolbox object that shares another drive only. *)
Definition toolbox_win_d : DockerEnv :=
  {| exists_ := Some true; running := Some true;
     info := Some (JDict [("OperatingSystem", JStr "Boot2Docker 19.03.12 (TCL 10.1)")]);
     is_toolbox := Some true;
     folder_map := [("D:" ++ backslash ++ "data", "d_data")] |}.

(** Every [exit] the computation can take has status 1. *)
Definition exits_with_one {S A : Type} (m : Eff S A) : Prop :=
  forall s c, fst (m s) = SysExit c -> c = 1%Z.

(** Runs of separators in a path. *)

(** [k] times the character [c]. *)
Fixpoint sep_run (c : ascii) (k : nat) : string :=
  match k with
  | O => EmptyString
  | S k' => String c (sep_run c k')
  end.

(** Half of [k], rounded up: what one pass over pairs leaves of a run of
    [k] slashes. *)
Definition half_up (k : nat) : nat := Nat.div2 (S k).

(** Segments, each behind a run of separators: for [(k, seg)] the
    separator [f k] times, then the segment. *)
Fixpoint join_runs (c : ascii) (f : nat -> nat) (segs : list (nat * string)) : string :=
  match segs with
  | [] => EmptyString
  | (k, seg) :: rest =>
      String.append (sep_run c (f k)) (String.append seg (join_runs c f rest))
  end.

(** A piece of a path between slashes: not empty and without slash. *)
Definition slash_free (seg : string) : bool :=
  nonempty seg && negb (has_char "/" seg).

(** The markers of a run, by what becomes of the container process. *)

(** The world when the process started by [cmd] has ended and left the
    files [f]. *)
Definition ended (w : world) (cmd : list string) (f : gmap string string) : world :=
  {| environ := environ w; files := f; trace := trace w ++ [EvSpawn cmd None] |}.

(** What a run that starts the container with [cmd] in the world [w]
    does about the markers, by what becomes of the process:
    - it cannot be started: [OSError], and [.idcheck], just created, stays;
    - it ends without a [.cid]: [IOError], and the files stay as the
      process left them;
    - it ends with a [.cid] but has removed [.idcheck]: [OSError] from
      [os.remove], and the files stay as the process left them;
    - it ends with both markers there: the run returns and both markers
      are deleted, whatever the exit status. *)
Definition marker_rules {E : Environment} (cmd : list string) (w : world)
    (r : outcome unit * world) : Prop :=
  (forall msg,
      spawn (started w) cmd None = SpawnError msg ->
      r = (Raise OSError, ended w cmd (<[".idcheck" := EmptyString]> (files w))))
  /\ (forall rc out err f,
         spawn (started w) cmd None = Exited rc out err f ->
         f !! ".cid" = None ->
         r = (Raise IOError, ended w cmd f))
  /\ (forall rc out err f,
         spawn (started w) cmd None = Exited rc out err f ->
         is_Some (f !! ".cid") -> f !! ".idcheck" = None ->
         r = (Raise OSError, ended w cmd f))
  /\ (forall rc out err f,
         spawn (started w) cmd None = Exited rc out err f ->
         is_Some (f !! ".cid") -> is_Some (f !! ".idcheck") ->
         r = (Ret tt, ended w cmd (delete ".cid" (delete ".idcheck" f)))).

(** The world after the image update of [run_waiwera], in which the
    start marker is created; [None] when [docker pull] cannot be
    started. *)
Definition updated {E : Environment} (a : run_args) (w : world) : option world :=
  if noupdate a then Some w
  else match spawn w (["docker"; "pull"] ++ image_ref a)%list None with
       | Exited _ _ _ f => Some (ended w (["docker"; "pull"] ++ image_ref a)%list f)
       | SpawnError _ => None
       end.

(** The world after the image update of [waiwera_docker]. *)
Definition pulled (a : run_args) (w : world) : world :=
  if noupdate a then w
  else {| environ := environ w; files := files w;
          trace := trace w ++ [EvSystem ("docker pull " ++ hd EmptyString (image_ref a))] |}.

(** The directory [waiwera_docker] mounts. *)
Definition docker_path {P : Platform} {E : Environment} : string :=
  if String.eqb sys_platform "win32" then convert_path_nt_to_posix os_getcwd
  else os_getcwd.

(** ** Further notions used in the statements *)

(** The number of characters at which [re.split(' |=', line)] cuts. *)
Fixpoint cut_count (line : string) : nat :=
  match line with
  | EmptyString => 0
  | String c s => (if Ascii.eqb c " "%char || Ascii.eqb c "="%char then 1 else 0)
                  + cut_count s
  end.

(** A Windows machine with VirtualBox where [VBOX_MSI_INSTALL_PATH] is
    set and [ProgramFiles] is not. *)
Definition world_no_program_files : world :=
  {| environ := {[ "VBOX_MSI_INSTALL_PATH" := program_files ++ backslash ++ "Oracle"
                                               ++ backslash ++ "VirtualBox";
                   "PATH" := "C:" ++ backslash ++ "Windows" ]};
     files := files world_toolbox_win;
     trace := [] |}.

(** An environment variable names a directory without the tool. *)
Definition world_wrong_dir : world :=
  {| environ := {[ "VBOX_MSI_INSTALL_PATH" := "C:" ++ backslash ++ "Tools";
                   "ProgramFiles" := program_files;
                   "PATH" := "C:" ++ backslash ++ "Windows" ]};
     files := files world_toolbox_win;
     trace := [] |}.

(** The separators of [re.split(' |=', line)]. *)
Definition is_cut (c : ascii) : bool := Ascii.eqb c " "%char || Ascii.eqb c "="%char.

(** The query for the active machine in [toolbox_vm]. *)
Definition active_cmd : list string := ["docker-machine"; "active"; "--timeout"; "1"].

(** No machine is running and none is named in the environment. *)
Definition env_no_machine : Environment :=
  scripted "/home/user/model"
    (fun w _ _ => Exited 1 EmptyString "No active host found" (files w)) None.

(** The machine is named in the environment. *)
Definition world_named_machine : world :=
  {| environ := {[ "DOCKER_MACHINE_NAME" := "dev" ]}; files := ∅; trace := [] |}.

(** The test of [convert_path_vbox_share] for one share: the host path
    with a trailing separator is a prefix of the path with one, in lower
    case on Windows. *)
Definition share_matches {P : Platform} (m path : string) : bool :=
  let pp := os_path_join path EmptyString in
  let mm := os_path_join m EmptyString in
  let win := String.eqb sys_platform "win32" in
  startswith (if win then lower pp else pp) (if win then lower mm else mm).

(** A Toolbox object on a Mac with two nested shares. *)
Definition toolbox_nested : DockerEnv :=
  {| exists_ := Some true; running := Some true;
     info := Some (JDict [("OperatingSystem", JStr "Boot2Docker 19.03.12 (TCL 10.1)")]);
     is_toolbox := Some true;
     folder_map := [("/Users", "Users"); ("/Users/ann/models", "models")] |}.

(** The same run with other pass-through arguments. *)
Definition with_args (a : run_args) (args : list string) : run_args :=
  {| waiwera_args := args; image := image a; repo := repo a; tag := tag a;
     num_processors := num_processors a; interactive := interactive a;
     noupdate := noupdate a |}.

(** The same run with another number of processors. *)
Definition with_np (a : run_args) (n : option string) : run_args :=
  {| waiwera_args := waiwera_args a; image := image a; repo := repo a; tag := tag a;
     num_processors := n; interactive := interactive a; noupdate := noupdate a |}.

(** The update command of [run_waiwera]. *)
Definition pull_cmd (a : run_args) : list string :=
  (["docker"; "pull"] ++ image_ref a)%list.

(** An interactive run with a number of processors and an argument. *)
Definition shell_args : run_args :=
  {| waiwera_args := ["-l"; EmptyString]; image := None; repo := REPO; tag := TAG;
     num_processors := Some "4"; interactive := true; noupdate := false |}.

(** The registry cannot be reached: the update fails, the run works. *)
Definition spawn_offline (w : world) (cmds : list string)
    (input : option string) : spawn_reply :=
  if cmd_is ["docker"; "pull"] cmds
  then Exited 1 EmptyString "Error response from daemon: net/http: timeout" (files w)
  else spawn_native 0 w cmds input.

Definition env_offline : Environment :=
  scripted "/home/user/model" spawn_offline None.

(** The version query of [check_exists]. *)
Definition version_cmd : list string := ["docker"; "--version"].

(** The object a constructor without check leaves. *)
Definition unchecked (toolbox : option bool) (fm : list (string * string)) : DockerEnv :=
  {| exists_ := None; running := None; info := None; is_toolbox := toolbox;
     folder_map := fm |}.

(** The apostrophe that delimits the fields of a shared-folder line. *)
Definition apostrophe : ascii := "'"%char.

(** A line of the shared-folder section as [VBoxManage showvminfo]
    prints it. *)
Definition share_entry (n h c : string) : string :=
  "Name: '" ++ n ++ "', Host path: '" ++ h ++ "' " ++ c.

(** A name or host path of such a line: not empty, on one line and
    without apostrophe. *)
Definition field_ok (s : string) : bool :=
  nonempty s && negb (has_char apostrophe s) && negb (has_char newline s).

(** The remark behind the host path: not empty, on one line and not
    ending in white space. *)
Definition comment_ok (c : string) : bool :=
  nonempty c && negb (has_char newline c) && String.eqb (rstrip c) c.

Definition share_ok (s : string * string * string) : bool :=
  let '(n, h, c) := s in field_ok n && field_ok h && comment_ok c.

(** Every line with its line end. *)
Fixpoint unlines (lines : list string) : string :=
  match lines with
  | [] => EmptyString
  | l :: rest => l ++ nl ++ unlines rest
  end.

Definition entry_of (s : string * string * string) : string :=
  let '(n, h, c) := s in share_entry n h c.

(** The section for these shares: the header, an empty line, one line
    per share and an empty line. *)
Definition shared_folders_section (shares : list (string * string * string)) : string :=
  unlines ("Shared folders:" :: EmptyString :: map entry_of shares ++ [EmptyString])%list.

(** What [parse_vminfo] is to return for these shares. *)
Definition host_and_name (s : string * string * string) : string * string :=
  let '(n, h, _) := s in (h, n).

(** None of these lines holds a line end. *)
Definition single_lines (lines : list string) : bool :=
  forallb (fun l => negb (has_char newline l)) lines.

(** The remark VirtualBox prints behind a share of the machine. *)
Definition machine_mapping : string := "(machine mapping), writable".

(** The share of a Docker Toolbox machine on a Mac. *)
Definition mac_shares : list (string * string * string) :=
  [("Users", "/Users", machine_mapping)].

(** A Docker Toolbox object that knows the name of its machine. *)
Definition toolbox_named : DockerEnv :=
  {| exists_ := Some true; running := Some true;
     info := Some (JDict [("Name", JStr "default");
                          ("OperatingSystem", JStr "Boot2Docker 19.03.12 (TCL 10.1)")]);
     is_toolbox := Some true; folder_map := [] |}.

(** VBoxManage answers for the machine with the section of [mac_shares]
    between two other lines; nothing else can be run. *)
Definition spawn_showvminfo (w : world) (cmds : list string)
    (input : option string) : spawn_reply :=
  if cmd_is ["vboxmanage"; "showvminfo"] cmds
  then Exited 0 (unlines ["Name:            default"]
                 ++ shared_folders_section mac_shares
                 ++ "VRDE:            disabled" ++ nl)
         EmptyString (files w)
  else Exited 1 EmptyString EmptyString (files w).

Definition env_showvminfo : Environment :=
  scripted "/Users/a/model" spawn_showvminfo None.

(** A section without empty line behind the header, followed by the
    next item of the report. *)
Definition vminfo_stray_line : string :=
  "Shared folders:" ++ nl ++ entry_d ++ nl ++ nl ++ "VRDE: disabled".

(** The programs the launcher is written to start. *)
Definition tools : list string :=
  ["docker"; "docker-machine"; "VBoxManage"; "vboxmanage"].

(** A command line whose program is one of them. *)
Definition tool_cmd (cmds : list string) : bool :=
  match cmds with
  | [] => false
  | c :: _ => existsb (String.eqb c) tools
  end.

(** An action on the outside world of one of three kinds: a child
    process of one of the tools, a command line for the shell that begins
    with [docker] and a space, or an action that starts no program. *)
Definition tool_event (e : event) : bool :=
  match e with
  | EvSpawn cmds _ => tool_cmd cmds
  | EvSystem cmd => String.prefix "docker " cmd
  | EvRmtree _ | EvSleep _ | EvRawInput _ => true
  end.

(** The computation only adds actions of this kind to the trace, which is
    read off the state by [tr]. *)
Definition tools_only {S A : Type} (tr : S -> list event) (m : Eff S A) : Prop :=
  forall s, exists l,
    tr (snd (m s)) = (tr s ++ l)%list /\ forallb tool_event l = true.

(** The trace in the state of a method. *)
Definition trace_of (s : DockerEnv * world) : list event := trace (snd s).

(** The value of [PROXY_ENV] that [repair_win_toolbox] builds from the
    proxy variables that are set in this environment. *)
Definition proxy_env (env : gmap string string) : string :=
  let set k := bool_decide (is_Some (env !! k)) in
  let p1 := if set "HTTP_PROXY"
            then EmptyString ++ "--engine-env HTTP_PROXY=%HTTP_PROXY%"
            else EmptyString in
  let p2 := if set "HTTPS_PROXY"
            then p1 ++ "--engine-env HTTPS_PROXY=%HTTPS_PROXY%" else p1 in
  if set "NO_PROXY" then p2 ++ "--engine-env NO_PROXY=%NO_PROXY%" else p2.

(** The command that creates the machine again. *)
Definition create_cmd (env : gmap string string) (vm : string) : list string :=
  (["docker-machine"; "create"; "-d"; "virtualbox"]
     ++ split_char " "%char (proxy_env env) ++ [vm])%list.

(** Docker Toolbox on Windows whose machine VirtualBox no longer lists. *)
Definition spawn_lost_machine (w : world) (cmds : list string)
    (input : option string) : spawn_reply :=
  if cmd_is ["VBoxManage"; "list"; "vms"] cmds
  then Exited 0 EmptyString EmptyString (files w)
  else spawn_toolbox_win w cmds input.

Definition env_lost_machine : Environment :=
  scripted ("C:" ++ backslash ++ "Users" ++ backslash ++ "a" ++ backslash ++ "project")
    spawn_lost_machine (Some "n").

Definition home_path : string := backslash ++ "Users" ++ backslash ++ "a".

(** The same machine behind a proxy for both protocols. *)
Definition world_behind_proxy : world :=
  {| environ := {[ "ProgramFiles" := program_files;
                   "PATH" := "C:" ++ backslash ++ "Windows";
                   "HOMEDRIVE" := "C:";
                   "HOMEPATH" := home_path;
                   "HTTP_PROXY" := "http://proxy:3128";
                   "HTTPS_PROXY" := "http://proxy:3128" ]};
     files := {[ program_files ++ backslash ++ "Oracle" ++ backslash ++ "VirtualBox"
                   ++ backslash ++ "VBoxManage.exe" := EmptyString ]};
     trace := [] |}.

(** The pass-through arguments as they reach the command line. *)
Definition passed_args (a : run_args) : list string :=
  filter (fun c => nonempty c = true) (waiwera_args a).

(** * Properties *)

Local Arguments String.append !_ _ : simpl nomatch.

(** ** Equations of the string operations *)

Lemma prefix_nil (s : string) : String.prefix EmptyString s = true.
Proof. destruct s; reflexivity. Qed.

Lemma prefix_cons (a b : ascii) (p s : string) :
  String.prefix (String a p) (String b s) = Ascii.eqb a b && String.prefix p s.
Proof.
  simpl. destruct (ascii_dec a b) as [->|Hne].
  - now rewrite Ascii.eqb_refl.
  - apply Ascii.eqb_neq in Hne. now rewrite Hne.
Qed.

Lemma append_nil_r (s : string) : String.append s EmptyString = s.
Proof. induction s as [|c s IH]; simpl; [reflexivity | now rewrite IH]. Qed.

Lemma append_assoc (s t u : string) :
  String.append (String.append s t) u = String.append s (String.append t u).
Proof. induction s as [|c s IH]; simpl; [reflexivity | now rewrite IH]. Qed.

Lemma length_append (s t : string) :
  String.length (String.append s t) = String.length s + String.length t.
Proof. induction s as [|c s IH]; simpl; [reflexivity | now rewrite IH]. Qed.

(** Skipping [k] characters is dropping them. *)
Lemma replace_from_skip (old new : string) (k : nat) (s : string) :
  replace_from old new k s = replace old new (py_drop k s).
Proof.
  revert k. induction s as [|c s IH]; intros [|k]; try reflexivity.
  simpl. apply IH.
Qed.

Lemma replace_nil (old new : string) : replace old new EmptyString = EmptyString.
Proof. reflexivity. Qed.

Lemma replace_miss (old new : string) (c : ascii) (s : string) :
  String.prefix old (String c s) = false ->
  replace old new (String c s) = String c (replace old new s).
Proof. intros Hp. unfold replace. cbn [replace_from]. now rewrite Hp. Qed.

Lemma replace_hit (old new : string) (c : ascii) (s : string) :
  String.prefix old (String c s) = true ->
  replace old new (String c s)
  = String.append new (replace old new (py_drop (String.length old - 1) s)).
Proof.
  intros Hp. unfold replace at 1. cbn [replace_from]. rewrite Hp.
  now rewrite replace_from_skip.
Qed.

(** Replacing a single character works character by character. *)
Lemma replace_char_cons (a : ascii) (new : string) (c : ascii) (s : string) :
  replace (String a EmptyString) new (String c s)
  = String.append (if Ascii.eqb a c then new else String c EmptyString)
      (replace (String a EmptyString) new s).
Proof.
  destruct (Ascii.eqb a c) eqn:Hac.
  - rewrite replace_hit; [reflexivity|].
    now rewrite prefix_cons, Hac, prefix_nil.
  - rewrite replace_miss; [reflexivity|].
    now rewrite prefix_cons, Hac.
Qed.

Lemma replace_char_app (a : ascii) (new s t : string) :
  replace (String a EmptyString) new (String.append s t)
  = String.append (replace (String a EmptyString) new s)
      (replace (String a EmptyString) new t).
Proof.
  induction s as [|c s IH]; [reflexivity|].
  cbn [String.append]. rewrite !replace_char_cons, IH.
  now rewrite append_assoc.
Qed.

Lemma has_char_app (c : ascii) (s t : string) :
  has_char c (String.append s t) = has_char c s || has_char c t.
Proof.
  induction s as [|b s IH]; [reflexivity|].
  simpl. now rewrite IH, orb_assoc.
Qed.

Lemma has_char_drop (c : ascii) (k : nat) (s : string) :
  has_char c s = false -> has_char c (py_drop k s) = false.
Proof.
  revert k. induction s as [|b s IH]; intros [|k] Hs; try assumption.
  simpl in *. apply orb_false_elim in Hs as [_ Hs]. now apply IH.
Qed.

Lemma replace_char_absent (a : ascii) (new s : string) :
  has_char a s = false -> replace (String a EmptyString) new s = s.
Proof.
  induction s as [|c s IH]; [reflexivity|].
  simpl. intros Hs. apply orb_false_elim in Hs as [Hac Hs].
  rewrite replace_char_cons, Hac, IH by assumption. reflexivity.
Qed.

(** A replacement brings in no character that is neither in the text nor
    in the replacement. *)
Lemma replace_keeps_absent (c : ascii) (old new : string) (s : string) :
  has_char c new = false -> has_char c s = false ->
  has_char c (replace old new s) = false.
Proof.
  intros Hnew.
  remember (String.length s) as n eqn:Hn. revert s Hn.
  induction n as [n IH] using lt_wf_ind. intros [|b s] Hn Hs; [reflexivity|].
  destruct (String.prefix old (String b s)) eqn:Hp.
  - rewrite replace_hit by assumption. rewrite has_char_app, Hnew. simpl.
    simpl in Hs. apply orb_false_elim in Hs as [_ Hs].
    apply (IH (String.length (py_drop (String.length old - 1) s))); try reflexivity.
    + subst n. simpl.
      assert (Hle : forall k t, String.length (py_drop k t) <= String.length t).
      { intros k t. revert k. induction t as [|x t IHt]; intros [|k]; simpl; auto.
        all: try (specialize (IHt k); lia). }
      specialize (Hle (String.length old - 1) s). lia.
    + now apply has_char_drop.
  - rewrite replace_miss by assumption. simpl in *.
    apply orb_false_elim in Hs as [Hcb Hs]. rewrite Hcb. simpl.
    apply (IH (String.length s)); subst; simpl; auto.
Qed.

(** The replaced character is gone when the replacement does not have it. *)
Lemma replace_char_removes (a : ascii) (new s : string) :
  has_char a new = false ->
  has_char a (replace (String a EmptyString) new s) = false.
Proof.
  intros Hnew. induction s as [|c s IH]; [reflexivity|].
  rewrite replace_char_cons, has_char_app, IH, orb_false_r.
  destruct (Ascii.eqb a c) eqn:Hac; [assumption|].
  simpl. now rewrite Hac.
Qed.

(** Without an occurrence there is nothing to replace. *)
Lemma replace_absent (old new s : string) :
  contains old s = false -> replace old new s = s.
Proof.
  induction s as [|c s IH]; [reflexivity|].
  simpl. intros H. apply orb_false_elim in H as [Hp Hc].
  rewrite replace_miss by assumption. now rewrite IH.
Qed.

Lemma length_drop (k : nat) (s : string) :
  String.length (py_drop k s) = String.length s - k.
Proof.
  revert k. induction s as [|c s IH]; intros [|k]; simpl; auto.
Qed.

Lemma prefix_length (p s : string) :
  String.prefix p s = true -> String.length p <= String.length s.
Proof.
  revert s. induction p as [|a p IH]; intros [|b s]; simpl; try lia; try discriminate.
  destruct (ascii_dec a b); [|discriminate]. intros Hp. apply IH in Hp. lia.
Qed.

(** A replacement by a shorter text never lengthens the string, and
    shortens it when there is an occurrence. *)
Lemma replace_length_le (old new s : string) :
  String.length new <= String.length old -> old <> EmptyString ->
  String.length (replace old new s) <= String.length s.
Proof.
  intros Hlen Hold.
  remember (String.length s) as n eqn:Hn. revert s Hn.
  induction n as [n IH] using lt_wf_ind. intros [|b s] Hn; [simpl; lia|].
  assert (Hpos : 1 <= String.length old) by (destruct old; [congruence | simpl; lia]).
  destruct (String.prefix old (String b s)) eqn:Hp.
  - rewrite replace_hit by assumption. rewrite length_append.
    pose proof (prefix_length _ _ Hp) as Hps. simpl in Hps.
    assert (Hlt : String.length (py_drop (String.length old - 1) s) < n)
      by (rewrite length_drop; subst n; simpl; lia).
    pose proof (IH _ Hlt _ eq_refl) as Hle.
    rewrite length_drop in Hle. subst n. simpl. lia.
  - rewrite replace_miss by assumption. subst n. simpl.
    pose proof (IH (String.length s) ltac:(simpl; lia) s eq_refl). lia.
Qed.

Lemma replace_length_lt (old new s : string) :
  String.length new < String.length old ->
  contains old s = true ->
  String.length (replace old new s) < String.length s.
Proof.
  intros Hlen.
  assert (Hold : old <> EmptyString) by (intros ->; simpl in Hlen; lia).
  induction s as [|b s IH]; intros Hc.
  - destruct old; [contradiction | discriminate].
  - destruct (String.prefix old (String b s)) eqn:Hp.
    + rewrite replace_hit by assumption. rewrite length_append.
      pose proof (prefix_length _ _ Hp) as Hps. simpl in Hps.
      pose proof (replace_length_le old new (py_drop (String.length old - 1) s)
                    ltac:(lia) Hold) as Hle.
      rewrite length_drop in Hle. simpl. lia.
    + rewrite replace_miss by assumption. cbn [contains] in Hc.
      rewrite Hp in Hc. apply IH in Hc. simpl in *. lia.
Qed.

Lemma replace_fixed_iff (old new s : string) :
  String.length new < String.length old ->
  replace old new s = s <-> contains old s = false.
Proof.
  intros Hlen. split.
  - intros Heq. destruct (contains old s) eqn:Hc; [|reflexivity].
    pose proof (replace_length_lt old new s Hlen Hc) as Hlt.
    rewrite Heq in Hlt. lia.
  - apply replace_absent.
Qed.

(** ** The Windows-to-POSIX rewrites *)

(** C10 (as amended): the method is the module-level function followed by
    one more pass that replaces ["//"] by ["/"] behind the leading slash;
    the two agree exactly on the paths whose rewritten form has no
    doubled slash. *)
Theorem nt_to_posix_method_vs_function (path : string) :
  method_convert_path_nt_to_posix path
  = String.append "/" (replace "//" "/" (py_drop 1 (convert_path_nt_to_posix path)))
  /\ (method_convert_path_nt_to_posix path = convert_path_nt_to_posix path
      <-> contains "//" (py_drop 1 (convert_path_nt_to_posix path)) = false).
Proof.
  split; [reflexivity|].
  unfold method_convert_path_nt_to_posix, convert_path_nt_to_posix. simpl.
  rewrite <- (replace_fixed_iff "//" "/") by (simpl; lia).
  split; intros Heq; congruence.
Qed.

(** C10, refuted as stated: on a path with a doubled backslash the two
    functions differ. *)
Lemma nt_to_posix_functions_differ :
  method_convert_path_nt_to_posix ("C:" ++ backslash ++ backslash ++ "data")
  <> convert_path_nt_to_posix ("C:" ++ backslash ++ backslash ++ "data").
Proof. vm_compute. discriminate. Qed.

Lemma plain_segment_inv (seg : string) :
  plain_segment seg = true ->
  (exists c t, seg = String c t /\ Ascii.eqb "/" c = false)
  /\ has_char bs seg = false /\ has_char "/" seg = false /\ has_char ":" seg = false.
Proof.
  unfold plain_segment. intros H.
  repeat (apply andb_prop in H as [H ?]).
  repeat match goal with Hn : negb _ = true |- _ => apply negb_true_iff in Hn end.
  repeat split; try assumption.
  destruct seg as [|c t]; [discriminate|]. exists c, t. split; [reflexivity|].
  match goal with Hs : has_char "/" _ = false |- _ =>
    cbn [has_char] in Hs; now apply orb_false_elim in Hs as [? _] end.
Qed.

Lemma backslashes_to_slashes (segs : list string) :
  forallb plain_segment segs = true ->
  replace backslash "/" (join_segments backslash segs) = join_segments "/" segs.
Proof.
  induction segs as [|seg rest IH]; [reflexivity|].
  simpl. intros H. apply andb_prop in H as [Hseg Hrest].
  apply plain_segment_inv in Hseg as (_ & Hb & _ & _).
  specialize (IH Hrest). unfold backslash, bs in *. cbn [String.append].
  rewrite replace_char_cons, Ascii.eqb_refl, replace_char_app.
  rewrite (replace_char_absent _ "/" seg Hb), IH. reflexivity.
Qed.

Lemma join_has_no_colon (segs : list string) :
  forallb plain_segment segs = true ->
  has_char ":" (join_segments "/" segs) = false.
Proof.
  induction segs as [|seg rest IH]; [reflexivity|].
  simpl. intros H. apply andb_prop in H as [Hseg Hrest].
  apply plain_segment_inv in Hseg as (_ & _ & _ & Hc).
  now rewrite has_char_app, Hc, (IH Hrest).
Qed.

Lemma contains_after_plain (seg t : string) :
  has_char "/" seg = false ->
  contains "//" (String.append seg t) = contains "//" t.
Proof.
  induction seg as [|c seg IH]; [reflexivity|].
  cbn [has_char]. intros H. apply orb_false_elim in H as [Hc Hs].
  cbn [String.append contains]. rewrite prefix_cons, Hc. cbn [andb orb]. now apply IH.
Qed.

Lemma join_has_no_double_slash (segs : list string) :
  forallb plain_segment segs = true ->
  contains "//" (join_segments "/" segs) = false.
Proof.
  induction segs as [|seg rest IH]; [reflexivity|].
  simpl forallb. intros H. apply andb_prop in H as [Hseg Hrest].
  apply plain_segment_inv in Hseg as ((c & t & -> & Hc) & _ & Hs & _).
  cbn [join_segments String.append contains].
  rewrite !prefix_cons, Hc. cbn [andb orb]. rewrite andb_false_r. cbn [orb].
  cbn [has_char] in Hs. apply orb_false_elim in Hs as [_ Hs].
  rewrite contains_after_plain by assumption. now apply IH.
Qed.

Lemma backslash_run (k : nat) (s : string) :
  replace backslash "/" (String.append (sep_run bs k) s)
  = String.append (sep_run "/" k) (replace backslash "/" s).
Proof.
  induction k as [|k IH]; [reflexivity|].
  cbn [sep_run String.append]. unfold backslash, bs in *.
  rewrite replace_char_cons, Ascii.eqb_refl, IH. reflexivity.
Qed.

Lemma backslash_runs (segs : list (nat * string)) (t : nat) :
  forallb (fun ks => plain_segment (snd ks)) segs = true ->
  replace backslash "/" (String.append (join_runs bs (fun k => k) segs) (sep_run bs t))
  = String.append (join_runs "/" (fun k => k) segs) (sep_run "/" t).
Proof.
  induction segs as [|[k seg] rest IH].
  - intros _. cbn [join_runs String.append].
    rewrite <- (append_nil_r (sep_run bs t)), backslash_run.
    now rewrite replace_nil, append_nil_r.
  - cbn [forallb snd]. intros H. apply andb_prop in H as [Hseg Hrest].
    apply plain_segment_inv in Hseg as (_ & Hb & _ & _).
    cbn [join_runs]. rewrite !append_assoc, backslash_run.
    unfold backslash, bs in *. rewrite replace_char_app.
    rewrite (replace_char_absent _ "/" seg Hb), (IH Hrest). reflexivity.
Qed.

Lemma has_char_run (a c : ascii) (k : nat) :
  Ascii.eqb a c = false -> has_char a (sep_run c k) = false.
Proof. intros H. induction k as [|k IH]; [reflexivity|]. cbn. now rewrite H. Qed.

Lemma runs_have_no_colon (segs : list (nat * string)) (t : nat) :
  forallb (fun ks => plain_segment (snd ks)) segs = true ->
  has_char ":" (String.append (join_runs "/" (fun k => k) segs) (sep_run "/" t)) = false.
Proof.
  induction segs as [|[k seg] rest IH].
  - intros _. now apply has_char_run.
  - cbn [forallb snd]. intros H. apply andb_prop in H as [Hseg Hrest].
    apply plain_segment_inv in Hseg as (_ & _ & _ & Hc).
    cbn [join_runs]. rewrite !append_assoc.
    rewrite (has_char_app _ (sep_run "/" k)), (has_char_app _ seg), Hc, (IH Hrest).
    now rewrite has_char_run.
Qed.

(** One pass over a run of [k] slashes leaves half of them, rounded up,
    when something else than a slash follows. *)
Lemma squeeze_run (k : nat) (t : string) :
  String.prefix "/" t = false ->
  replace "//" "/" (String.append (sep_run "/" k) t)
  = String.append (sep_run "/" (half_up k)) (replace "//" "/" t).
Proof.
  intros Ht.
  assert (H : forall n,
             (replace "//" "/" (String.append (sep_run "/" n) t)
              = String.append (sep_run "/" (half_up n)) (replace "//" "/" t))
             /\ (replace "//" "/" (String.append (sep_run "/" (S n)) t)
                 = String.append (sep_run "/" (half_up (S n))) (replace "//" "/" t))).
  { induction n as [|n [IH1 IH2]].
    - split; [reflexivity|]. cbn [sep_run String.append].
      rewrite replace_miss; [reflexivity|].
      now rewrite prefix_cons, Ascii.eqb_refl.
    - split; [exact IH2|]. cbn [sep_run String.append].
      rewrite replace_hit by now rewrite !prefix_cons, !Ascii.eqb_refl, prefix_nil.
      cbn [String.length Nat.sub py_drop]. rewrite IH1. reflexivity. }
  apply H.
Qed.

Lemma squeeze_plain (seg t : string) :
  has_char "/" seg = false ->
  replace "//" "/" (String.append seg t) = String.append seg (replace "//" "/" t).
Proof.
  induction seg as [|c seg IH]; [reflexivity|]. cbn [has_char].
  intros H. apply orb_false_elim in H as [Hc Hs]. cbn [String.append].
  rewrite replace_miss by now rewrite prefix_cons, Hc.
  now rewrite IH.
Qed.

Lemma squeeze_runs (segs : list (nat * string)) (t : nat) :
  forallb (fun ks => slash_free (snd ks)) segs = true ->
  replace "//" "/" (String.append (join_runs "/" (fun k => k) segs) (sep_run "/" t))
  = String.append (join_runs "/" half_up segs) (sep_run "/" (half_up t)).
Proof.
  induction segs as [|[k seg] rest IH].
  - intros _. cbn [join_runs String.append].
    rewrite <- (append_nil_r (sep_run "/" t)), squeeze_run by reflexivity.
    now rewrite replace_nil, append_nil_r.
  - cbn [forallb snd]. intros H. apply andb_prop in H as [Hseg Hrest].
    unfold slash_free in Hseg. apply andb_prop in Hseg as [Hne Hs].
    apply negb_true_iff in Hs. destruct seg as [|c s]; [discriminate|].
    assert (Hc : Ascii.eqb "/" c = false).
    { cbn [has_char] in Hs. now apply orb_false_elim in Hs as [? _]. }
    cbn [join_runs]. rewrite !append_assoc.
    rewrite squeeze_run by (cbn [String.append]; now rewrite prefix_cons, Hc).
    rewrite squeeze_plain by assumption. now rewrite (IH Hrest).
Qed.

Lemma plain_segments_slash_free (segs : list (nat * string)) :
  forallb (fun ks => plain_segment (snd ks)) segs = true ->
  forallb (fun ks => slash_free (snd ks)) segs = true.
Proof.
  induction segs as [|[k seg] rest IH]; [reflexivity|].
  cbn [forallb snd]. intros H. apply andb_prop in H as [Hseg Hrest].
  rewrite (IH Hrest), andb_true_r. unfold plain_segment in Hseg. unfold slash_free.
  repeat (apply andb_prop in Hseg as [Hseg ?]).
  now apply andb_true_intro.
Qed.

(** The pass over doubled slashes on any path, by the runs of slashes of
    the path once its backslashes are slashes and its colons are gone. *)
Lemma slash_pass_by_runs (path seg0 : string) (segs : list (nat * string)) (t : nat) :
  has_char "/" seg0 = false ->
  forallb (fun ks => slash_free (snd ks)) segs = true ->
  replace ":" EmptyString (replace backslash "/" path)
  = String.append seg0 (String.append (join_runs "/" (fun k => k) segs) (sep_run "/" t)) ->
  method_convert_path_nt_to_posix path
  = String "/" (String.append seg0
                  (String.append (join_runs "/" half_up segs) (sep_run "/" (half_up t)))).
Proof.
  intros H0 Hsegs Hq. unfold method_convert_path_nt_to_posix. rewrite Hq.
  cbn [String.append]. f_equal.
  rewrite squeeze_plain by assumption. now rewrite squeeze_runs.
Qed.

Lemma drive_path_runs (d : ascii) (segs : list (nat * string)) (t : nat) :
  is_sep d = false -> Ascii.eqb ":" d = false ->
  forallb (fun ks => plain_segment (snd ks)) segs = true ->
  method_convert_path_nt_to_posix
    (String d (String ":" (String.append (join_runs bs (fun k => k) segs) (sep_run bs t))))
  = String "/" (String d (String.append (join_runs "/" half_up segs)
                                         (sep_run "/" (half_up t)))).
Proof.
  intros Hd Hcolon Hsegs.
  unfold is_sep in Hd. apply orb_false_elim in Hd as [Hslash Hback].
  rewrite Ascii.eqb_sym in Hslash. rewrite Ascii.eqb_sym in Hback.
  unfold method_convert_path_nt_to_posix. simpl String.append. f_equal.
  pose proof (backslash_runs segs t Hsegs) as Hjoin.
  unfold backslash, bs in *. rewrite !replace_char_cons.
  rewrite Hback. simpl String.append. rewrite Hjoin.
  rewrite !replace_char_cons, Hcolon, Ascii.eqb_refl. simpl String.append.
  rewrite replace_char_absent by now apply runs_have_no_colon.
  rewrite replace_miss by now rewrite prefix_cons, Hslash.
  now rewrite squeeze_runs by now apply plain_segments_slash_free.
Qed.

(** C7 (as amended): the rewrite turns every backslash into a slash,
    removes every colon, replaces each doubled slash found in one pass
    from left to right by a single one, and puts a slash in front.  So
    the result has neither backslash nor colon; a run of [k] separators
    is left as a run of [k] over two, rounded up (one pass, not a
    repetition until none is left); and a drive path [d:\seg1\...\segn]
    keeps the drive letter as it is and yields [/d/seg1/.../segn]. *)
Theorem nt_to_posix_rewrite (path : string) (d : ascii) (segs : list string) :
  is_sep d = false -> Ascii.eqb ":" d = false ->
  forallb plain_segment segs = true ->
  (exists r, method_convert_path_nt_to_posix path = String "/" r
             /\ has_char bs r = false /\ has_char ":" r = false)
  /\ method_convert_path_nt_to_posix
       (String d (String ":" (join_segments backslash segs)))
     = String "/" (String d (join_segments "/" segs))
  /\ method_convert_path_nt_to_posix
       ("C:" ++ backslash ++ "data" ++ backslash ++ "run") = "/C/data/run"
  /\ (forall seg0 runs t,
        has_char "/" seg0 = false ->
        forallb (fun ks => slash_free (snd ks)) runs = true ->
        replace ":" EmptyString (replace backslash "/" path)
        = seg0 ++ join_runs "/" (fun k => k) runs ++ sep_run "/" t ->
        method_convert_path_nt_to_posix path
        = "/" ++ seg0 ++ join_runs "/" half_up runs ++ sep_run "/" (half_up t))
  /\ (forall runs t,
        forallb (fun ks => plain_segment (snd ks)) runs = true ->
        method_convert_path_nt_to_posix
          (String d (String ":" (join_runs bs (fun k => k) runs ++ sep_run bs t)))
        = String "/" (String d (join_runs "/" half_up runs ++ sep_run "/" (half_up t)))).
Proof.
  intros Hd Hcolon Hsegs. split; [|split; [|split; [|split]]].
  - eexists. split; [reflexivity|]. split.
    + apply replace_keeps_absent; [reflexivity|].
      apply replace_keeps_absent; [reflexivity|].
      now apply replace_char_removes.
    + apply replace_keeps_absent; [reflexivity|].
      now apply replace_char_removes.
  - pose proof Hd as Hd'.
    unfold is_sep in Hd. apply orb_false_elim in Hd as [Hslash Hback].
    rewrite Ascii.eqb_sym in Hslash. rewrite Ascii.eqb_sym in Hback.
    unfold method_convert_path_nt_to_posix. simpl String.append. f_equal.
    pose proof (backslashes_to_slashes segs Hsegs) as Hjoin.
    unfold backslash, bs in *. rewrite !replace_char_cons.
    rewrite Hback. simpl String.append. rewrite Hjoin.
    rewrite !replace_char_cons, Hcolon, Ascii.eqb_refl. simpl String.append.
    rewrite replace_char_absent by now apply join_has_no_colon.
    apply replace_absent. cbn [contains]. rewrite prefix_cons, Hslash. simpl.
    now apply join_has_no_double_slash.
  - reflexivity.
  - intros seg0 runs t. apply slash_pass_by_runs.
  - intros runs t. now apply drive_path_runs.
Qed.

Lemma nt_to_posix_rewrite_witness :
  method_convert_path_nt_to_posix
    (String "D" (String ":" (join_segments backslash ["models"; "run 1"])))
  = "/D/models/run 1"
  /\ method_convert_path_nt_to_posix
       ("C:" ++ backslash ++ backslash ++ "data"
             ++ backslash ++ backslash ++ backslash ++ "run" ++ backslash)
     = "/C/data//run/"
  /\ method_convert_path_nt_to_posix "a///b" = "/a//b".
Proof.
  split; [|split].
  - exact (proj1 (proj2 (nt_to_posix_rewrite EmptyString "D"%char ["models"; "run 1"]
                           eq_refl eq_refl eq_refl))).
  - exact (proj2 (proj2 (proj2 (proj2
             (nt_to_posix_rewrite EmptyString "C"%char [] eq_refl eq_refl eq_refl))))
             [(2, "data"); (3, "run")] 1 eq_refl).
  - exact (proj1 (proj2 (proj2 (proj2
             (nt_to_posix_rewrite "a///b" "C"%char [] eq_refl eq_refl eq_refl))))
             "a" [(3, "b")] 0 eq_refl eq_refl eq_refl).
Defined.

(** C7, refuted as stated: the drive letter is neither stripped nor
    lowered. *)
Lemma nt_to_posix_keeps_drive_case :
  method_convert_path_nt_to_posix ("C:" ++ backslash ++ "data" ++ backslash ++ "run")
  <> "/c/data/run".
Proof. vm_compute. discriminate. Qed.

(** The pass over doubled slashes is a single one. *)
Example nt_to_posix_triple_slash :
  method_convert_path_nt_to_posix "a///b" = "/a//b".
Proof. reflexivity. Qed.

(** ** The shared-folder parser *)

Lemma rstrip_nonempty (c : ascii) (s : string) :
  is_space c = false -> rstrip (String c s) <> EmptyString.
Proof.
  intros Hc. cbn [rstrip]. destruct (rstrip s); [rewrite Hc|]; discriminate.
Qed.

Lemma blank_is_no_header (line : string) :
  is_blank line = true -> is_header line = false.
Proof.
  unfold is_blank, is_header, startswith, strip. intros Hb.
  destruct line as [|c s]; [reflexivity|].
  destruct (String.prefix "Shared folders:" (String c s)) eqn:Hp; [|reflexivity].
  exfalso. rewrite prefix_cons in Hp. apply andb_prop in Hp as [Hc _].
  apply Ascii.eqb_eq in Hc. subst c. cbn [lstrip] in Hb.
  change (is_space "S") with false in Hb. cbv iota in Hb.
  pose proof (rstrip_nonempty "S" s eq_refl) as Hne.
  destruct (rstrip (String "S" s)); [congruence | discriminate].
Qed.

(** Outside a section, lines that are not a header are passed over. *)
Lemma parse_lines_outside (lines rest : list string)
    (maps : list (string * string)) (e : nat) :
  no_header lines = true ->
  parse_lines (lines ++ rest) maps false e = parse_lines rest maps false e.
Proof.
  induction lines as [|l lines IH]; [reflexivity|].
  cbn [no_header forallb]. intros H. apply andb_prop in H as [Hl Hrest].
  apply negb_true_iff in Hl. cbn [app parse_lines]. rewrite Hl. now apply IH.
Qed.

Lemma parse_lines_outside_all (lines : list string)
    (maps : list (string * string)) (e : nat) :
  no_header lines = true -> parse_lines lines maps false e = Some maps.
Proof.
  intros H. rewrite <- (app_nil_r lines). now rewrite parse_lines_outside.
Qed.

(** Inside a section, as long as fewer than two blank lines have been
    counted, every line is either counted or appended. *)
Lemma parse_lines_inside (body rest : list string)
    (maps : list (string * string)) (e : nat) :
  no_header body = true ->
  e + blank_count body < 2 ->
  parse_lines (body ++ rest) maps true e
  = match entries body with
    | Some es => parse_lines rest (maps ++ es) true (e + blank_count body)
    | None => None
    end.
Proof.
  revert maps e. induction body as [|l body IH]; intros maps e Hh Hlt.
  - cbn. now rewrite app_nil_r, Nat.add_0_r.
  - cbn [no_header forallb] in Hh. apply andb_prop in Hh as [Hl Hbody].
    apply negb_true_iff in Hl. cbn [app parse_lines entries]. rewrite Hl.
    unfold blank_count in *. cbn [List.filter] in *.
    destruct (is_blank l) eqn:Hb.
    + cbn [List.length] in *.
      assert (e = 0) by lia. subst e. cbn [Nat.eqb negb].
      rewrite IH by (assumption || lia).
      destruct (entries body); [|reflexivity]. f_equal. 
    + destruct (pat_search (strip l)) as [m|]; [|reflexivity].
      assert (He : (e =? 2)%nat = false) by (apply Nat.eqb_neq; lia).
      rewrite He. cbn [negb]. rewrite IH by (assumption || lia).
      destruct (entries body) as [es|]; [|reflexivity].
      now rewrite <- app_assoc.
Qed.

Lemma parse_lines_section (pre body post : list string) (h b : string)
    (es : list (string * string)) :
  no_header pre = true -> no_header body = true -> no_header post = true ->
  is_header h = true -> contains "<none>" h = false ->
  blank_count body = 1 -> is_blank b = true ->
  entries body = Some es ->
  parse_lines (pre ++ h :: body ++ b :: post) [] false 0 = Some es.
Proof.
  intros Hpre Hbody Hpost Hh Hnone Hcount Hb Hes.
  rewrite parse_lines_outside by assumption.
  cbn [parse_lines]. rewrite Hh, Hnone.
  rewrite parse_lines_inside by (assumption || lia).
  rewrite Hes, Hcount. cbn [parse_lines app Nat.add].
  rewrite (blank_is_no_header b Hb), Hb. cbn [Nat.eqb negb].
  now apply parse_lines_outside_all.
Qed.

Lemma parse_lines_none_marker (pre post : list string) (h : string) :
  no_header pre = true -> is_header h = true -> contains "<none>" h = true ->
  parse_lines (pre ++ h :: post) [] false 0 = Some [].
Proof.
  intros Hpre Hh Hnone. rewrite parse_lines_outside by assumption.
  cbn [parse_lines]. now rewrite Hh, Hnone.
Qed.

Lemma parse_lines_single_entry (pre post : list string) (h entry b1 b2 : string)
    (m : share_line) :
  no_header pre = true -> no_header post = true ->
  is_header h = true -> contains "<none>" h = false ->
  is_header entry = false -> is_blank entry = false ->
  pat_search (strip entry) = Some m ->
  is_blank b1 = true -> is_blank b2 = true ->
  parse_lines (pre ++ h :: entry :: b1 :: b2 :: post) [] false 0
  = Some [(sl_host m, sl_name m)].
Proof.
  intros Hpre Hpost Hh Hnone Hhe Hbe Hm Hb1 Hb2.
  apply (parse_lines_section pre [entry; b1] post h b2); try assumption.
  - cbn. now rewrite Hhe, (blank_is_no_header b1 Hb1).
  - unfold blank_count. cbn. now rewrite Hbe, Hb1.
  - cbn. now rewrite Hbe, Hb1, Hm.
Qed.

(** C8 (as amended): entries are appended from the lines after the first
    header until two blank lines have been counted since then, adjacent
    or not; a first header with the none marker gives the empty mapping,
    as does an input without header, and one entry followed by two blank
    lines gives exactly that entry. *)
Theorem parse_vminfo_section_rules :
  (forall vminfo pre body post h b es,
      split_char newline vminfo = (pre ++ h :: body ++ b :: post)%list ->
      no_header pre = true -> no_header body = true -> no_header post = true ->
      is_header h = true -> contains "<none>" h = false ->
      blank_count body = 1 -> is_blank b = true ->
      entries body = Some es ->
      parse_vminfo vminfo = Some es)
  /\ (forall vminfo pre post h,
         split_char newline vminfo = (pre ++ h :: post)%list ->
         no_header pre = true -> is_header h = true ->
         contains "<none>" h = true ->
         parse_vminfo vminfo = Some [])
  /\ (forall vminfo,
         no_header (split_char newline vminfo) = true ->
         parse_vminfo vminfo = Some [])
  /\ (forall vminfo pre post h entry b1 b2 m,
         split_char newline vminfo = (pre ++ h :: entry :: b1 :: b2 :: post)%list ->
         no_header pre = true -> no_header post = true ->
         is_header h = true -> contains "<none>" h = false ->
         is_header entry = false -> is_blank entry = false ->
         pat_search (strip entry) = Some m ->
         is_blank b1 = true -> is_blank b2 = true ->
         parse_vminfo vminfo = Some [(sl_host m, sl_name m)]).
Proof.
  unfold parse_vminfo. repeat split.
  - intros vminfo pre body post h b es ->. apply parse_lines_section.
  - intros vminfo pre post h ->. apply parse_lines_none_marker.
  - intros vminfo. apply parse_lines_outside_all.
  - intros vminfo pre post h entry b1 b2 m ->. apply parse_lines_single_entry.
Qed.

Lemma parse_vminfo_section_rules_witness :
  parse_vminfo vminfo_two_entries = Some [("/c/Users", "c/Users")]
  /\ parse_vminfo ("Shared folders:" ++ nl ++ entry_d ++ nl ++ nl ++ nl)
     = Some [("/d", "d")].
Proof.
  destruct parse_vminfo_section_rules as (Hsection & _ & _ & Hsingle). split.
  - apply (Hsection vminfo_two_entries ["Name: default"] [EmptyString; entry_users]
             [entry_d; EmptyString] "Shared folders:" EmptyString);
      reflexivity.
  - apply (Hsingle _ [] [EmptyString] "Shared folders:" entry_d EmptyString EmptyString
             {| sl_name := "d"; sl_host := "/d";
                sl_comment := "(machine mapping), writable" |});
      reflexivity.
Defined.

(** C8, refuted as stated: with one blank line between two entries no two
    blank lines are adjacent, yet the second entry is dropped. *)
Lemma parse_vminfo_counts_all_blanks :
  parse_vminfo vminfo_two_entries = Some [("/c/Users", "c/Users")]
  /\ spec_parse_vminfo vminfo_two_entries
     = Some [("/c/Users", "c/Users"); ("/d", "d")]
  /\ parse_vminfo vminfo_two_entries <> spec_parse_vminfo vminfo_two_entries.
Proof. vm_compute. repeat split. discriminate. Qed.

(** ** Reading the container id *)

Lemma lstrip_plain (s : string) : has_space s = false -> lstrip s = s.
Proof.
  destruct s as [|c s]; [reflexivity|]. cbn [has_space lstrip].
  intros H. apply orb_false_elim in H as [Hc _]. now rewrite Hc.
Qed.

Lemma rstrip_plain (s : string) : has_space s = false -> rstrip s = s.
Proof.
  induction s as [|c s IH]; [reflexivity|]. cbn [has_space rstrip].
  intros H. apply orb_false_elim in H as [Hc Hs]. rewrite (IH Hs), Hc.
  now destruct s.
Qed.

Lemma rstrip_plain_newline (s : string) :
  has_space s = false -> rstrip (String.append s nl) = s.
Proof.
  induction s as [|c s IH]; [reflexivity|]. cbn [has_space rstrip String.append].
  intros H. apply orb_false_elim in H as [Hc Hs]. rewrite (IH Hs), Hc.
  now destruct s.
Qed.

Lemma newline_is_space (c : ascii) : Ascii.eqb c newline = true -> is_space c = true.
Proof. intros H. apply Ascii.eqb_eq in H. now subst c. Qed.

Lemma readline_plain (s t : string) :
  has_space s = false ->
  readline s = s /\ readline (String.append s (String.append nl t)) = String.append s nl.
Proof.
  induction s as [|c s IH]; [split; reflexivity|]. cbn [has_space].
  intros H. apply orb_false_elim in H as [Hc Hs]. destruct (IH Hs) as [IH1 IH2].
  cbn [String.append readline].
  destruct (Ascii.eqb c newline) eqn:Hn.
  - apply newline_is_space in Hn. congruence.
  - now rewrite IH1, IH2.
Qed.

(** A marker that holds an identifier, with or without a line end,
    yields the first [CID_LEN] characters of the identifier. *)
Lemma cid_of_identifier (ident : string) :
  has_space ident = false ->
  cid_of ident = py_take CID_LEN ident
  /\ cid_of (String.append ident nl) = py_take CID_LEN ident.
Proof.
  intros H. unfold cid_of, strip. split.
  - rewrite (proj1 (readline_plain ident EmptyString H)).
    now rewrite lstrip_plain, rstrip_plain.
  - pose proof (proj2 (readline_plain ident EmptyString H)) as Hr.
    change (String.append nl EmptyString) with nl in Hr. rewrite Hr.
    destruct ident as [|c s]; [reflexivity|].
    cbn [has_space] in H. apply orb_false_elim in H as [Hc Hs].
    cbn [String.append lstrip]. rewrite Hc.
    change (String c (String.append s nl)) with (String.append (String c s) nl).
    rewrite rstrip_plain_newline; [reflexivity|]. cbn [has_space]. now rewrite Hc, Hs.
Qed.

(** ** Laws of the monad *)

(** Reduce the redexes an unfolded computation leaves behind. *)
Ltac eff_step := cbv beta iota; cbn [files trace environ fst snd].

Lemma bind_ret_inv {S A B : Type} (m : Eff S A) (k : A -> Eff S B)
    (s s' : S) (b : B) :
  bind m k s = (Ret b, s') ->
  exists a s1, m s = (Ret a, s1) /\ k a s1 = (Ret b, s').
Proof.
  unfold bind. destruct (m s) as [[a|e|c] s1]; intros H; try discriminate.
  now exists a, s1.
Qed.

Lemma lift_inv {A : Type} (m : W A) (d d' : DockerEnv) (w w' : world)
    (r : outcome A) :
  lift m (d, w) = (r, (d', w')) -> d' = d /\ m w = (r, w').
Proof.
  unfold lift. cbn [fst snd]. destruct (m w) as [r0 w0]. intros H.
  inversion H. now subst.
Qed.

Section Markers.
Context {P : Platform} {E : Environment}.

(** ** The interrupt handler *)

(** C2: with a marker that holds an identifier, the handler issues one
    [docker kill] for the first twelve characters of the identifier,
    removes the marker and exits with status 1; without a marker it
    exits with status 1 and does nothing else. *)
Theorem signal_handler_kills_once (w : world) (ident c : string) :
  has_space ident = false ->
  c = ident \/ c = String.append ident nl ->
  (files w !! ".cid" = Some c ->
   signal_handler w
   = (SysExit 1,
      {| environ := environ w;
         files := delete ".cid" (files w);
         trace := trace w ++ [EvSystem ("docker kill " ++ py_take CID_LEN ident)] |}))
  /\ (files w !! ".cid" = None -> signal_handler w = (SysExit 1, w)).
Proof.
  intros Hident Hc. split; intros Hfile.
  - assert (Hcid : cid_of c = py_take CID_LEN ident).
    { destruct (cid_of_identifier ident Hident) as [H1 H2].
      destruct Hc as [-> | ->]; assumption. }
    destruct w as [env fs tr]. cbn [files trace environ] in *.
    cbv beta iota delta [signal_handler bind isfile read_file system get_world
                           log os_remove sys_exit ret].
    eff_step. rewrite Hfile. rewrite bool_decide_eq_true_2 by eauto.
    eff_step. rewrite ?Hfile, Hcid. eff_step. rewrite ?Hfile. reflexivity.
  - destruct w as [env fs tr]. cbn [files trace environ] in *.
    cbv beta iota delta [signal_handler bind isfile sys_exit ret].
    eff_step. rewrite Hfile.
    rewrite bool_decide_eq_false_2 by (intros [? ?]; discriminate).
    reflexivity.
Qed.

(** ** The marker files of a run *)

Lemma launch_returns (cmd : list string) (w : world) (rc : Z)
    (out err : string) (f : gmap string string) :
  spawn (started w) cmd None = Exited rc out err f ->
  is_Some (f !! ".cid") -> is_Some (f !! ".idcheck") ->
  launch cmd w
  = (Ret tt, {| environ := environ w;
                files := delete ".cid" (delete ".idcheck" f);
                trace := trace w ++ [EvSpawn cmd None] |}).
Proof.
  intros Hs [c Hc] [i Hi].
  destruct w as [env fs tr]. unfold started in Hs. cbn [files trace environ] in *.
  cbv beta iota delta [launch bind create_file popen_wait get_world log
                         set_files read_file os_remove ret].
  eff_step. rewrite Hs. eff_step. rewrite Hc. eff_step. rewrite Hi. eff_step.
  rewrite lookup_delete_ne by discriminate. now rewrite Hc.
Qed.

Lemma launch_clean (cmd : list string) (w w' : world) :
  launch cmd w = (Ret tt, w') -> markers_gone w'.
Proof.
  destruct w as [env fs tr].
  cbv beta iota delta [launch bind create_file popen_wait get_world log
                         set_files read_file os_remove ret raise].
  eff_step.
  destruct (spawn _ cmd None) as [msg | rc out err f]; eff_step; [discriminate|].
  destruct (f !! ".cid") as [c|] eqn:Hc; eff_step; [|discriminate].
  destruct (f !! ".idcheck") as [i|] eqn:Hi; eff_step; [|discriminate].
  destruct (delete ".idcheck" f !! ".cid") as [c'|] eqn:Hc'; eff_step; [|discriminate].
  intros H. inversion H; subst. unfold markers_gone. cbn [files]. split.
  - rewrite lookup_delete_ne by discriminate. apply lookup_delete_eq.
  - apply lookup_delete_eq.
Qed.

Lemma run_waiwera_clean (a : run_args) (s s' : DockerEnv * world) :
  run_waiwera a s = (Ret tt, s') -> markers_gone (snd s').
Proof.
  unfold run_waiwera. intros H.
  apply bind_ret_inv in H as (cp & s1 & _ & H).
  apply bind_ret_inv in H as (u & s2 & _ & H).
  destruct s2 as [d2 w2], s' as [d' w'].
  apply lift_inv in H as [_ H]. exact (launch_clean _ _ _ H).
Qed.

Lemma waiwera_docker_clean (a : run_args) (w w' : world) :
  waiwera_docker a w = (Ret tt, w') -> markers_gone w'.
Proof.
  unfold waiwera_docker. intros H.
  apply bind_ret_inv in H as (u & w1 & _ & H). exact (launch_clean _ _ _ H).
Qed.

Lemma launch_marker_rules (cmd : list string) (w : world) :
  marker_rules cmd w (launch cmd w).
Proof.
  destruct w as [env fs tr]. unfold marker_rules, started, ended.
  cbn [files trace environ].
  repeat split.
  - intros msg Hs.
    cbv beta iota delta [launch bind create_file popen_wait get_world log
                           set_files read_file os_remove ret raise].
    eff_step. rewrite Hs. reflexivity.
  - intros rc out err f Hs Hc.
    cbv beta iota delta [launch bind create_file popen_wait get_world log
                           set_files read_file os_remove ret raise].
    eff_step. rewrite Hs. eff_step. rewrite Hc. reflexivity.
  - intros rc out err f Hs [c Hc] Hi.
    cbv beta iota delta [launch bind create_file popen_wait get_world log
                           set_files read_file os_remove ret raise].
    eff_step. rewrite Hs. eff_step. rewrite Hc. eff_step. rewrite Hi. reflexivity.
  - intros rc out err f Hs [c Hc] [i Hi].
    cbv beta iota delta [launch bind create_file popen_wait get_world log
                           set_files read_file os_remove ret raise].
    eff_step. rewrite Hs. eff_step. rewrite Hc. eff_step. rewrite Hi. eff_step.
    rewrite lookup_delete_ne by discriminate. now rewrite Hc.
Qed.

(** After the translation of the working directory and the image update,
    [run_waiwera] is the launch of its command line. *)
Lemma run_waiwera_reaches_launch (a : run_args) (d d1 : DockerEnv) (w w1 w2 : world)
    (cp : option string) :
  volume_path None (d, w) = (Ret cp, (d1, w1)) ->
  updated a w1 = Some w2 ->
  run_waiwera a (d, w) = lift (launch (run_cmd cp a)) (d1, w2).
Proof.
  intros Hvol Hupd. unfold run_waiwera.
  unfold bind at 1. rewrite Hvol. unfold updated in Hupd.
  destruct (noupdate a); cbn [negb].
  - inversion Hupd; subst. reflexivity.
  - destruct w1 as [env fs tr]. unfold ended in Hupd. cbn [environ files trace] in Hupd.
    cbv beta iota delta [bind lift popen_wait get_world log set_files ret raise].
    eff_step.
    destruct (spawn _ (["docker"; "pull"] ++ image_ref a)%list None)
      as [msg | rc out err f]; [discriminate|].
    inversion Hupd; subst. reflexivity.
Qed.

Lemma waiwera_docker_reaches_launch (a : run_args) (w : world) :
  waiwera_docker a w = launch (docker_cmd docker_path a) (pulled a w).
Proof.
  unfold waiwera_docker, pulled, docker_path. destruct (noupdate a); cbn [negb].
  - reflexivity.
  - destruct w as [env fs tr].
    cbv beta iota delta [bind system get_world log ret]. reflexivity.
Qed.

Lemma run_waiwera_marker_rules (a : run_args) (d d1 : DockerEnv) (w w1 w2 : world)
    (cp : option string) :
  volume_path None (d, w) = (Ret cp, (d1, w1)) ->
  updated a w1 = Some w2 ->
  fst (snd (run_waiwera a (d, w))) = d1
  /\ marker_rules (run_cmd cp a) w2
       (fst (run_waiwera a (d, w)), snd (snd (run_waiwera a (d, w)))).
Proof.
  intros Hvol Hupd. rewrite (run_waiwera_reaches_launch a d d1 w w1 w2 cp Hvol Hupd).
  pose proof (launch_marker_rules (run_cmd cp a) w2) as H.
  unfold lift. cbn [fst snd]. destruct (launch (run_cmd cp a) w2) as [r w'].
  cbn [fst snd]. now split.
Qed.

(** C1 (as amended): when a run returns, neither marker is left, and it
    returns whenever the process could be started and both markers are
    there when it ends, whatever its exit status.  When it raises, the
    markers created so far stay: [.idcheck] when the process cannot be
    started, and the files as the process left them when it has written
    no [.cid] (or has removed [.idcheck]).  This holds of the launch that
    the two functions share, of [run_waiwera] once the working directory
    is translated and the image updated, and of [waiwera_docker]. *)
Theorem markers_removed_on_return :
  (forall cmd w rc out err f,
      spawn (started w) cmd None = Exited rc out err f ->
      is_Some (f !! ".cid") -> is_Some (f !! ".idcheck") ->
      exists w', launch cmd w = (Ret tt, w') /\ markers_gone w')
  /\ (forall a s s', run_waiwera a s = (Ret tt, s') -> markers_gone (snd s'))
  /\ (forall a w w', waiwera_docker a w = (Ret tt, w') -> markers_gone w')
  /\ (forall cmd w, marker_rules cmd w (launch cmd w))
  /\ (forall a d d1 w w1 w2 cp,
         volume_path None (d, w) = (Ret cp, (d1, w1)) ->
         updated a w1 = Some w2 ->
         fst (snd (run_waiwera a (d, w))) = d1
         /\ marker_rules (run_cmd cp a) w2
              (fst (run_waiwera a (d, w)), snd (snd (run_waiwera a (d, w)))))
  /\ (forall a w,
         marker_rules (docker_cmd docker_path a) (pulled a w) (waiwera_docker a w)).
Proof.
  split; [|split; [|split; [|split; [|split]]]].
  - intros cmd w rc out err f Hs Hc Hi. eexists. split.
    + now apply (launch_returns cmd w rc out err f).
    + eapply launch_clean. now apply (launch_returns cmd w rc out err f).
  - apply run_waiwera_clean.
  - apply waiwera_docker_clean.
  - apply launch_marker_rules.
  - intros a d d1 w w1 w2 cp. apply run_waiwera_marker_rules.
  - intros a w. rewrite waiwera_docker_reaches_launch. apply launch_marker_rules.
Qed.
End Markers.

Lemma signal_handler_kills_once_witness :
  @signal_handler (env_native 0) world_running
  = (SysExit 1,
     {| environ := ∅;
        files := delete ".cid" (files world_running);
        trace := [EvSystem "docker kill 3f4e8c1d2a9b"] |}).
Proof.
  apply (proj1 (@signal_handler_kills_once (env_native 0) world_running
                  a_container_id a_container_id eq_refl (or_introl eq_refl))).
  reflexivity.
Defined.

Lemma markers_removed_on_return_witness :
  markers_gone
    (snd (snd (@run_waiwera (posix_platform "linux2") (env_native 3) batch_args
                 (native_env, empty_world))))
  /\ (let r := @run_waiwera (posix_platform "linux2") env_refused batch_args
                 (native_env, empty_world) in
      (fst r, snd (snd r))
      = (Raise IOError,
         ended empty_world (run_cmd (Some "/home/user/model") batch_args)
           {[ ".idcheck" := EmptyString ]})).
Proof.
  split.
  - apply (proj1 (proj2 (@markers_removed_on_return (posix_platform "linux2")
                           (env_native 3))) batch_args (native_env, empty_world)).
    vm_compute. reflexivity.
  - destruct (proj1 (proj2 (proj2 (proj2 (proj2
                (@markers_removed_on_return (posix_platform "linux2") env_refused)))))
                batch_args native_env native_env empty_world empty_world empty_world
                (Some "/home/user/model") eq_refl eq_refl) as (_ & _ & Hnocid & _).
    apply (Hnocid 125%Z EmptyString "docker: Error response from daemon."
             {[ ".idcheck" := EmptyString ]}); reflexivity.
Defined.

(** C1, refuted as stated: when the engine refuses the run without
    writing a container id, the call raises and [.idcheck] stays. *)
Lemma refused_run_leaves_start_marker :
  let r := @run_waiwera (posix_platform "linux2") env_refused batch_args
             (native_env, empty_world) in
  fst r = Raise IOError /\ files (snd (snd r)) !! ".idcheck" = Some EmptyString.
Proof. vm_compute. split; reflexivity. Qed.

(** ** The probe *)

Lemma dict_get_in (key : string) (d : list (string * json)) :
  existsb (fun kv => String.eqb (fst kv) key) d
  = match dict_get key d with Some _ => true | None => false end.
Proof.
  induction d as [|[k v] d IH]; [reflexivity|].
  cbn [existsb dict_get fst]. destruct (String.eqb k key); [reflexivity | exact IH].
Qed.

(** Reduce what is left of an unfolded method. *)
Ltac obj_step :=
  cbv beta iota;
  cbn [fst snd exists_ running info is_toolbox folder_map truthy negb
       files trace environ].

Section Probe.
Context {P : Platform} {E : Environment}.

(** C3 (as amended): let [(ok, out, err)] be the reply of the status
    query, made once the version check is done.  If [out] does not parse,
    [check_running] sets the mode to Toolbox whatever [ok] is (it returns
    [False] when the query failed and raises [KeyError] when it
    succeeded).  If [out] parses to a dictionary without [ServerErrors]
    whose [OperatingSystem] contains [boot2docker] in any case, and the
    query succeeded, the mode is Toolbox and [running] is true.  If the
    dictionary has [ServerErrors], [running] is false. *)
Theorem probe_classification (d : DockerEnv) (w w1 : world) (e ok : bool)
    (out err : string) :
  exists_ d = Some e ->
  call info_cmd None w = (Ret (ok, out, err), w1) ->
  (json_loads out = None ->
   exists d', check_running true (d, w)
              = (if ok then Raise (KeyError "OperatingSystem") else Ret (Some false),
                 (d', w1))
              /\ is_toolbox d' = Some true /\ running d' = Some ok)
  /\ (forall dct os,
         json_loads out = Some (JDict dct) ->
         dict_get "ServerErrors" dct = None ->
         dict_get "OperatingSystem" dct = Some (JStr os) ->
         contains "boot2docker" (lower os) = true ->
         ok = true ->
         exists d', check_running true (d, w) = (Ret (Some true), (d', w1))
                    /\ is_toolbox d' = Some true /\ running d' = Some true)
  /\ (forall dct,
         json_loads out = Some (JDict dct) ->
         dict_get "ServerErrors" dct <> None ->
         exists d', check_running true (d, w) = (Ret (Some false), (d', w1))
                    /\ running d' = Some false).
Proof.
  intros He Hcall.
  assert (Hl : lift (call info_cmd None) (d, w) = (Ret (ok, out, err), (d, w1))).
  { unfold lift. cbn [fst snd]. now rewrite Hcall. }
  unfold info_cmd in Hl.
  cbv beta iota delta [check_running bind get_self ret put_self set_running
    set_info set_is_toolbox raise py_in py_getitem py_lower].
  cbn [fst snd exists_ running info is_toolbox folder_map].
  rewrite He. obj_step. rewrite Hl. obj_step.
  split; [|split].
  - intros Hj. rewrite Hj. obj_step.
    destruct ok; obj_step; cbn [existsb dict_get fst String.eqb Ascii.eqb Bool.eqb orb];
      obj_step; eexists; repeat split.
  - intros dct os Hj Hse Hos Hb ->. rewrite Hj. obj_step.
    rewrite dict_get_in, Hse. obj_step. rewrite Hos. obj_step.
    rewrite Hb. obj_step. eexists; repeat split.
  - intros dct Hj Hse. rewrite Hj. obj_step.
    destruct ok; obj_step.
    + rewrite dict_get_in.
      destruct (dict_get "ServerErrors" dct) eqn:Hg; [|contradiction].
      obj_step. eexists; repeat split.
    + eexists; repeat split.
Qed.
End Probe.

Lemma probe_classification_witness :
  exists d',
    @check_running (posix_platform "linux2") env_info_garbled true
      (checked_env, empty_world)
    = (Raise (KeyError "OperatingSystem"),
       (d', {| environ := ∅; files := ∅; trace := [EvSpawn info_cmd None] |}))
    /\ is_toolbox d' = Some true /\ running d' = Some true.
Proof.
  apply (proj1 (@probe_classification (posix_platform "linux2") env_info_garbled
                  checked_env empty_world _ true true "Containers: 3" EmptyString
                  eq_refl eq_refl)).
  reflexivity.
Defined.

(** C3, refuted as stated: a structured reply with the Boot2Docker
    descriptor and no error field, from a query that exits with a
    failure, leaves the mode undetermined and [running] false. *)
Lemma failed_query_is_not_classified :
  let r := @check_running (posix_platform "linux2") env_info_fails true
             (checked_env, empty_world) in
  fixture_loads doc_toolbox
  = Some (JDict [("OperatingSystem", JStr "Boot2Docker 19.03.12 (TCL 10.1)")])
  /\ contains "boot2docker" (lower "Boot2Docker 19.03.12 (TCL 10.1)") = true
  /\ fst r = Ret (Some false)
  /\ running (fst (snd r)) = Some false
  /\ is_toolbox (fst (snd r)) = None.
Proof. vm_compute. repeat split. Qed.

(** ** The repair of Docker Toolbox *)

Section Repair.
Context {P : Platform} {E : Environment}.

(** C4, the code at the failing path: no repair step probes again, so
    once [running] is false the aggressive repair can only end in
    failure, whatever the repair achieved. *)
Theorem aggressive_repair_never_ready (d : DockerEnv) (w : world) :
  truthy (running d) = false ->
  exists o w',
    aggressive_repair (d, w) = (o, (d, w'))
    /\ o <> Ret tt
    /\ (forall w2,
           String.eqb sys_platform "win32" = true ->
           repair_win_toolbox d w = (Ret tt, w2) ->
           o = Raise (Exception_ "Error, unable to repair Docker Toolbox!")
           /\ w' = w2).
Proof.
  intros Hrun.
  cbv beta iota delta [aggressive_repair bind get_self ret raise lift].
  obj_step.
  destruct (String.eqb sys_platform "win32") eqn:Hwin; obj_step.
  - destruct (repair_win_toolbox d w) as [[[]|e|c] w2] eqn:Hrep; obj_step.
    + rewrite Hrun. obj_step. eexists _, _. split; [reflexivity|].
      split; [discriminate|]. intros w3 _ Heq. now inversion Heq.
    + eexists _, _. split; [reflexivity|]. split; [discriminate|].
      intros w3 _ Heq. discriminate.
    + eexists _, _. split; [reflexivity|]. split; [discriminate|].
      intros w3 _ Heq. discriminate.
  - rewrite Hrun. obj_step. eexists _, _. split; [reflexivity|].
    split; [discriminate|]. intros w2 Hf. discriminate.
Qed.
End Repair.

Lemma aggressive_repair_never_ready_witness :
  exists o w',
    @aggressive_repair nt_platform env_toolbox_win (stopped_toolbox, world_toolbox_win)
    = (o, (stopped_toolbox, w'))
    /\ o <> Ret tt
    /\ (forall w2,
           String.eqb (@sys_platform nt_platform) "win32" = true ->
           @repair_win_toolbox nt_platform env_toolbox_win stopped_toolbox
             world_toolbox_win = (Ret tt, w2) ->
           o = Raise (Exception_ "Error, unable to repair Docker Toolbox!")
           /\ w' = w2).
Proof.
  apply (@aggressive_repair_never_ready nt_platform env_toolbox_win
           stopped_toolbox world_toolbox_win).
  reflexivity.
Defined.

(** The failing run: the machine is stopped, the repair starts it, the
    engine would now answer, and the constructor still gives up. *)
Lemma repaired_toolbox_is_rejected :
  let r := @DockerEnv_init nt_platform env_toolbox_win true None []
             (blank, world_toolbox_win) in
  fst r = Raise (Exception_ "Error, unable to repair Docker Toolbox!")
  /\ In (EvSpawn ["docker-machine"; "start"] None) (trace (snd (snd r)))
  /\ @call env_toolbox_win info_cmd None (snd (snd r))
     = (Ret (true, doc_toolbox, EmptyString),
        {| environ := environ (snd (snd r)); files := files (snd (snd r));
           trace := trace (snd (snd r)) ++ [EvSpawn info_cmd None] |}).
Proof. vm_compute. repeat split. tauto. Qed.

(** The repair is entered although the version query has failed: the
    result of [check_exists] is not looked at. *)
Lemma absent_docker_enters_repair :
  let r := @DockerEnv_init (posix_platform "linux2") env_no_docker true None []
             (blank, empty_world) in
  exists_ (fst (snd r)) = Some false
  /\ In (EvSpawn ["docker-machine"; "env"; "--shell=cmd"] None) (trace (snd (snd r)))
  /\ fst r = Raise (Exception_ "Error, unable to repair Docker Toolbox!").
Proof. vm_compute. repeat split. tauto. Qed.

(** ** Launching with an unresolved mount source *)

Lemma unresolved_volume_argument (a : run_args) :
  In "None:/data" (run_cmd None a).
Proof.
  unfold run_cmd. apply list_elem_of_In. apply list_elem_of_filter. split; [reflexivity|].
  apply list_elem_of_In. cbn [format_path]. cbn. tauto.
Qed.

Section Unresolved.
Context {P : Platform} {E : Environment}.

Lemma launch_trace (cmd : list string) (w : world) :
  trace (snd (launch cmd w)) = (trace w ++ [EvSpawn cmd None])%list.
Proof.
  destruct w as [env fs tr].
  cbv beta iota delta [launch bind create_file popen_wait get_world log
                         set_files read_file os_remove ret raise].
  eff_step.
  destruct (spawn _ cmd None) as [msg | rc out err f]; eff_step; [reflexivity|].
  destruct (f !! ".cid") as [c|]; eff_step; [|reflexivity].
  destruct (f !! ".idcheck") as [i|]; eff_step; [|reflexivity].
  destruct (delete ".idcheck" f !! ".cid") as [c'|]; eff_step; reflexivity.
Qed.

(** C6, the code at the failing inputs: in Toolbox mode, when no share
    is a prefix of the working directory, [run_waiwera] still starts
    [docker run], with the volume [None:/data] -- away from Windows
    directly, on Windows after the user has declined to share the
    drive. *)
Theorem unresolved_mount_is_launched (a : run_args) (d : DockerEnv) (w : world) :
  truthy (is_toolbox d) = true ->
  convert_path_vbox_share d os_getcwd = None ->
  noupdate a = true ->
  In "None:/data" (run_cmd None a)
  /\ (String.eqb sys_platform "win32" = false ->
      exists r w',
        run_waiwera a (d, w) = (r, (d, w'))
        /\ trace w' = (trace w ++ [EvSpawn (run_cmd None a) None])%list)
  /\ (forall answer,
         String.eqb sys_platform "win32" = true ->
         raw_input w (share_prompt os_getcwd) = Some answer ->
         contains "y" (lower answer) = false ->
         exists r w',
           run_waiwera a (d, w) = (r, (d, w'))
           /\ trace w' = (trace w ++ [EvRawInput (share_prompt os_getcwd);
                                      EvSpawn (run_cmd None a) None])%list).
Proof.
  intros Htb Hconv Hnoup. split; [apply unresolved_volume_argument|]. split.
  - intros Hwin.
    cbv beta iota delta [run_waiwera volume_path bind get_self ret lift].
    obj_step. rewrite Htb, Hconv, Hwin, Hnoup. obj_step.
    pose proof (launch_trace (run_cmd None a) w) as Ht.
    destruct (launch (run_cmd None a) w) as [r w']. eexists _, _. split; [reflexivity|].
    exact Ht.
  - intros answer Hwin Hans Hno.
    cbv beta iota delta [run_waiwera volume_path bind get_self get_world ret lift log].
    obj_step. rewrite Htb, Hconv, Hwin. obj_step.
    unfold share_prompt in Hans. rewrite Hans, Hno. obj_step. rewrite Hnoup. obj_step.
    match goal with |- context [launch ?c ?w0] =>
      pose proof (launch_trace c w0) as Ht; destruct (launch c w0) as [r w'] end.
    eexists _, _. split; [reflexivity|]. cbn [trace snd] in Ht. rewrite Ht.
    now rewrite <- app_assoc.
Qed.
End Unresolved.

(** The failing run on a Mac: the working directory is outside the only
    share, and the container is started on the volume [None:/data]. *)
Lemma mac_outside_share_is_launched :
  let r := @run_waiwera (posix_platform "darwin") env_mac_outside batch_args
             (toolbox_mac, empty_world) in
  @convert_path_vbox_share (posix_platform "darwin") toolbox_mac "/Volumes/data/model"
  = None
  /\ fst r = Ret tt
  /\ trace (snd (snd r))
     = [EvSpawn ["docker"; "run"; "--cidfile"; ".cid"; "--rm"; "--volume";
                 "None:/data"; "--workdir"; "/data"; "waiwera/waiwera:latest";
                 "mpiexec"; "-np"; "2"; "/opt/waiwera/build/waiwera";
                 "model.json"] None].
Proof. vm_compute. repeat split. Qed.

Lemma unresolved_mount_is_launched_witness :
  exists r w',
    @run_waiwera (posix_platform "darwin") env_mac_outside batch_args
      (toolbox_mac, empty_world) = (r, (toolbox_mac, w'))
    /\ trace w' = [EvSpawn (run_cmd None batch_args) None].
Proof.
  apply (proj1 (proj2 (@unresolved_mount_is_launched (posix_platform "darwin")
                         env_mac_outside batch_args toolbox_mac empty_world
                         eq_refl eq_refl eq_refl))).
  reflexivity.
Defined.

(** ** Path translation *)

(** C9 (as amended): unless the user has to be asked -- Toolbox mode on
    Windows with no matching share -- the translation is a function of
    the path, the object and the platform alone: it gives the same
    result in any two environments and worlds and changes neither the
    object nor the world.  On Windows, with the share [C:\Users] named
    [c_users], the path [C:\Users\a\project] becomes
    [/c_users/a/project]. *)
Theorem volume_path_deterministic (P : Platform) (E1 E2 : Environment)
    (d : DockerEnv) (path : string) (w1 w2 : world) :
  (truthy (is_toolbox d) = true ->
   String.eqb sys_platform "win32" = true ->
   convert_path_vbox_share d path <> None) ->
  (exists r,
      @volume_path P E1 (Some path) (d, w1) = (r, (d, w1))
      /\ @volume_path P E2 (Some path) (d, w2) = (r, (d, w2)))
  /\ @volume_path nt_platform E1 (Some project_path) (toolbox_win, w1)
     = (Ret (Some "/c_users/a/project"), (toolbox_win, w1)).
Proof.
  intros Hask. split; [|reflexivity].
  cbv beta iota delta [volume_path bind get_self get_world ret lift log raise
                         nt_to_posix_opt].
  obj_step.
  destruct (truthy (is_toolbox d)) eqn:Htb; obj_step.
  - destruct (convert_path_vbox_share d path) as [p|] eqn:Hconv; obj_step.
    + destruct (String.eqb sys_platform "win32"); obj_step; eexists; split; reflexivity.
    + destruct (String.eqb sys_platform "win32") eqn:Hwin; obj_step.
      * exfalso. now apply Hask.
      * eexists; split; reflexivity.
  - destruct (String.eqb sys_platform "win32"); obj_step; eexists; split; reflexivity.
Qed.

Lemma volume_path_deterministic_witness :
  exists r,
    @volume_path nt_platform (env_answer "y") (Some project_path)
      (toolbox_win, empty_world) = (r, (toolbox_win, empty_world))
    /\ @volume_path nt_platform (env_answer "n") (Some project_path)
         (toolbox_win, world_running) = (r, (toolbox_win, world_running)).
Proof.
  refine (proj1 (volume_path_deterministic nt_platform (env_answer "y")
                   (env_answer "n") toolbox_win project_path empty_world
                   world_running _)).
  intros _ _. vm_compute. discriminate.
Defined.

(** C9, refuted as stated: the example of the specification comes out as
    [/c_users/a/project], the share lookup on its own keeps the
    backslashes of the remainder, and where the user is asked the answer
    decides the result. *)
Lemma translation_of_the_example :
  fst (@volume_path nt_platform (env_answer "n") (Some project_path)
         (toolbox_win, empty_world))
  = Ret (Some "/c_users/a/project")
  /\ @convert_path_vbox_share nt_platform toolbox_win project_path
     = Some ("c_users/" ++ backslash ++ "a" ++ backslash ++ "project")
  /\ fst (@volume_path nt_platform (env_answer "n") (Some project_path)
            (toolbox_win, empty_world))
     <> Ret (Some "c_users/a/project")
  /\ @convert_path_vbox_share nt_platform toolbox_win project_path
     <> Some "c_users/a/project"
  /\ fst (@volume_path nt_platform (env_answer "n") (Some project_path)
            (toolbox_win_d, empty_world)) = Ret None
  /\ fst (@volume_path nt_platform (env_answer "y") (Some project_path)
            (toolbox_win_d, empty_world))
     = Raise (NameError "toolbox_conf_share_win").
Proof. vm_compute. repeat split; discriminate. Qed.

(** ** The exit status of the wrapper *)

Create HintDb exits.

Lemma ex_ret {S A : Type} (a : A) : exits_with_one (@ret S A a).
Proof. intros s c H. discriminate. Qed.

Lemma ex_raise {S A : Type} (e : exn) : exits_with_one (@raise S A e).
Proof. intros s c H. discriminate. Qed.

Lemma ex_exit {S A : Type} : exits_with_one (@sys_exit S A 1).
Proof. intros s c H. now inversion H. Qed.

Lemma ex_bind {S A B : Type} (m : Eff S A) (k : A -> Eff S B) :
  exits_with_one m -> (forall a, exits_with_one (k a)) ->
  exits_with_one (bind m k).
Proof.
  intros Hm Hk s c. unfold bind. specialize (Hm s).
  destruct (m s) as [[a|e|c'] s1]; cbn [fst] in *.
  - apply Hk.
  - discriminate.
  - intros H. inversion H; subst. now apply Hm.
Qed.

Lemma ex_lift {A : Type} (m : W A) : exits_with_one m -> exits_with_one (lift m).
Proof.
  intros Hm [d w] c. unfold lift. cbn [fst snd]. specialize (Hm w).
  destruct (m w) as [r w']. cbn [fst] in *. exact (Hm c).
Qed.

(** An action that is a single step never exits. *)
Ltac ex_prim :=
  intros ? ? ;
  repeat match goal with
         | |- context [match ?x with _ => _ end] => destruct x
         end;
  cbn [fst]; discriminate.

Lemma ex_get_self : exits_with_one get_self.
Proof. unfold get_self. ex_prim. Qed.
Lemma ex_put_self (d : DockerEnv) : exits_with_one (put_self d).
Proof. unfold put_self. ex_prim. Qed.
Lemma ex_log (e : event) : exits_with_one (log e).
Proof. unfold log. ex_prim. Qed.
Lemma ex_set_files (f : gmap string string) : exits_with_one (set_files f).
Proof. unfold set_files. ex_prim. Qed.
Lemma ex_get_world : exits_with_one get_world.
Proof. unfold get_world. ex_prim. Qed.
Lemma ex_env_has (k : string) : exits_with_one (env_has k).
Proof. unfold env_has. ex_prim. Qed.
Lemma ex_env_get (k : string) : exits_with_one (env_get k).
Proof. unfold env_get. ex_prim. Qed.
Lemma ex_env_set (k v : string) : exits_with_one (env_set k v).
Proof. unfold env_set. ex_prim. Qed.
Lemma ex_isfile (p : string) : exits_with_one (isfile p).
Proof. unfold isfile. ex_prim. Qed.
Lemma ex_create_file (p : string) : exits_with_one (create_file p).
Proof. unfold create_file. ex_prim. Qed.
Lemma ex_read_file (p : string) : exits_with_one (read_file p).
Proof. unfold read_file. ex_prim. Qed.
Lemma ex_os_remove (p : string) : exits_with_one (os_remove p).
Proof. unfold os_remove. ex_prim. Qed.

#[local] Hint Resolve ex_get_self ex_put_self ex_log ex_set_files ex_get_world
  ex_env_has ex_env_get ex_env_set ex_isfile ex_create_file ex_read_file
  ex_os_remove : exits.

(** Walk through a computation built from [bind], branches and actions
    already known to exit with 1 only. *)
Ltac ex_walk :=
  repeat match goal with
         | |- exits_with_one (bind _ _) => apply ex_bind; [| intros ?]
         | |- exits_with_one (ret _) => apply ex_ret
         | |- exits_with_one (raise _) => apply ex_raise
         | |- exits_with_one (sys_exit 1) => apply ex_exit
         | |- exits_with_one (lift _) => apply ex_lift
         | |- exits_with_one (match ?x with _ => _ end) => destruct x
         | |- exits_with_one _ => solve [auto with exits]
         end.

Section ExitStatus.
Context {P : Platform} {E : Environment}.

Lemma ex_set_exists v : exits_with_one (set_exists v).
Proof. unfold set_exists. ex_walk. Qed.
Lemma ex_set_running v : exits_with_one (set_running v).
Proof. unfold set_running. ex_walk. Qed.
Lemma ex_set_info v : exits_with_one (set_info v).
Proof. unfold set_info. ex_walk. Qed.
Lemma ex_set_is_toolbox v : exits_with_one (set_is_toolbox v).
Proof. unfold set_is_toolbox. ex_walk. Qed.
Lemma ex_set_folder_map v : exits_with_one (set_folder_map v).
Proof. unfold set_folder_map. ex_walk. Qed.
Hint Resolve ex_set_exists ex_set_running ex_set_info ex_set_is_toolbox
  ex_set_folder_map : exits.

Lemma ex_popen_wait cmds input : exits_with_one (popen_wait cmds input).
Proof. unfold popen_wait. ex_walk. Qed.
Lemma ex_call cmds input : exits_with_one (call cmds input).
Proof. unfold call. ex_walk. Qed.
Hint Resolve ex_popen_wait ex_call : exits.

Lemma ex_check_output cmds : exits_with_one (check_output cmds).
Proof. unfold check_output. ex_walk. Qed.
Lemma ex_subprocess_call cmds : exits_with_one (subprocess_call cmds).
Proof. unfold subprocess_call. ex_walk. Qed.
Lemma ex_need_arg v : exits_with_one (need_arg v).
Proof. unfold need_arg. ex_walk. Qed.
Lemma ex_call_vm cmds vm input : exits_with_one (call_vm cmds vm input).
Proof. unfold call_vm. ex_walk. Qed.
Hint Resolve ex_check_output ex_subprocess_call ex_need_arg ex_call_vm : exits.

Lemma ex_add_to_path d : exits_with_one (add_to_path d).
Proof. unfold add_to_path. ex_walk. Qed.
Hint Resolve ex_add_to_path : exits.

Lemma ex_check_tool name pth exe cmds dflt :
  exits_with_one (check_tool name pth exe cmds dflt).
Proof. unfold check_tool. ex_walk. Qed.
Hint Resolve ex_check_tool : exits.

Lemma ex_find_vboxmanage : exits_with_one _find_vboxmanage.
Proof. unfold _find_vboxmanage. ex_walk. Qed.

Lemma ex_py_in {S : Type} key v : exits_with_one (@py_in S key v).
Proof. unfold py_in. ex_walk. Qed.
Lemma ex_py_getitem {S : Type} key v : exits_with_one (@py_getitem S key v).
Proof. unfold py_getitem. ex_walk. Qed.
Lemma ex_py_lower {S : Type} v : exits_with_one (@py_lower S v).
Proof. unfold py_lower. ex_walk. Qed.
Hint Resolve ex_find_vboxmanage ex_py_in ex_py_getitem ex_py_lower : exits.

Lemma ex_toolbox_vm self : exits_with_one (toolbox_vm self).
Proof. unfold toolbox_vm. ex_walk. Qed.

Lemma ex_update_env_lines lines : exits_with_one (update_env_lines lines).
Proof. induction lines as [|l lines IH]; cbn [update_env_lines]; ex_walk. Qed.
Hint Resolve ex_toolbox_vm ex_update_env_lines : exits.

Lemma ex_update_env : exits_with_one update_env.
Proof. unfold update_env. ex_walk. Qed.
Lemma ex_system cmd : exits_with_one (system cmd).
Proof. unfold system. ex_walk. Qed.
Lemma ex_rmtree p : exits_with_one (rmtree p).
Proof. unfold rmtree. ex_walk. Qed.
Lemma ex_add_proxy k t : exits_with_one (add_proxy k t).
Proof. unfold add_proxy. ex_walk. Qed.
Hint Resolve ex_update_env ex_system ex_rmtree ex_add_proxy : exits.

Lemma ex_repair_win_toolbox self : exits_with_one (repair_win_toolbox self).
Proof. unfold repair_win_toolbox. ex_walk. Qed.
Lemma ex_get_vbox_share self : exits_with_one (get_vbox_share self).
Proof. unfold get_vbox_share. ex_walk. Qed.
Hint Resolve ex_repair_win_toolbox ex_get_vbox_share : exits.

Lemma ex_check_exists : exits_with_one check_exists.
Proof. unfold check_exists. ex_walk. Qed.
Hint Resolve ex_check_exists : exits.

Lemma ex_check_running verbose : exits_with_one (check_running verbose).
Proof. unfold check_running. ex_walk. Qed.
Hint Resolve ex_check_running : exits.

Lemma ex_aggressive_repair : exits_with_one aggressive_repair.
Proof. unfold aggressive_repair. ex_walk. Qed.
Hint Resolve ex_aggressive_repair : exits.

Lemma ex_DockerEnv_init check toolbox fm :
  exits_with_one (DockerEnv_init check toolbox fm).
Proof. unfold DockerEnv_init. ex_walk. Qed.

Lemma ex_nt_to_posix_opt {S : Type} v : exits_with_one (@nt_to_posix_opt S v).
Proof. unfold nt_to_posix_opt. ex_walk. Qed.
Hint Resolve ex_DockerEnv_init ex_nt_to_posix_opt : exits.

Lemma ex_volume_path path : exits_with_one (volume_path path).
Proof. unfold volume_path. ex_walk. Qed.
Lemma ex_launch cmd : exits_with_one (launch cmd).
Proof. unfold launch. ex_walk. Qed.
Hint Resolve ex_volume_path ex_launch : exits.

Lemma ex_run_waiwera a : exits_with_one (run_waiwera a).
Proof. unfold run_waiwera. ex_walk. Qed.
Lemma ex_waiwera_docker a : exits_with_one (waiwera_docker a).
Proof. unfold waiwera_docker. ex_walk. Qed.
Hint Resolve ex_run_waiwera ex_waiwera_docker : exits.

Lemma ex_main a : exits_with_one (main a).
Proof.
  intros w c. unfold main.
  pose proof (ex_bind (DockerEnv_init true None []) (fun _ => run_waiwera a)
                (ex_DockerEnv_init _ _ _) (fun _ => ex_run_waiwera a) (blank, w) c) as H.
  destruct (bind _ _ (blank, w)) as [r s]. exact H.
Qed.

Lemma signal_handler_exits (w : world) : fst (signal_handler w) = SysExit 1.
Proof.
  destruct w as [env fs tr].
  cbv beta iota delta [signal_handler bind isfile read_file system get_world
                         log os_remove sys_exit ret].
  eff_step. destruct (fs !! ".cid") as [c|] eqn:Hc.
  - rewrite bool_decide_eq_true_2 by eauto. eff_step.
    rewrite Hc. eff_step. rewrite Hc. reflexivity.
  - rewrite bool_decide_eq_false_2 by (intros [? ?]; discriminate). reflexivity.
Qed.

End ExitStatus.


(** * Further properties of the launcher *)

(** ** Child processes and tools *)

Section Tools.
Context {P : Platform} {E : Environment}.

(** X1: [call] never raises.  It reports success exactly when the
    process could be started and exited with status 0; when it could not
    be started the output is empty, the error text is the message of the
    exception, and no file has changed. *)
Theorem call_never_raises (cmds : list string) (input : option string) (w : world) :
  exists ok out err w',
    call cmds input w = (Ret (ok, out, err), w')
    /\ trace w' = (trace w ++ [EvSpawn cmds input])%list
    /\ environ w' = environ w
    /\ (ok = true <-> exists o e f, spawn w cmds input = Exited 0 o e f)
    /\ (forall msg, spawn w cmds input = SpawnError msg ->
                    ok = false /\ out = EmptyString /\ err = msg
                    /\ files w' = files w).
Proof.
  destruct w as [env fs tr].
  cbv beta iota delta [call bind get_world log set_files ret]. eff_step.
  destruct (spawn _ cmds input) as [msg | rc out err f] eqn:Hs; eff_step.
  - eexists _, _, _, _. split; [reflexivity|]. repeat split; try reflexivity.
    + discriminate.
    + intros (o & e & f & H). discriminate.
    + now inversion H.
  - eexists _, _, _, _. split; [reflexivity|]. repeat split; try reflexivity.
    + intros H. apply Z.eqb_eq in H. subst rc. eauto.
    + intros (o & e & f' & H). now inversion H.
    + discriminate.
    + discriminate.
    + discriminate.
    + discriminate.
Qed.

(** X2: when the executable is a file in the directory that is searched
    -- the one named by the environment variable if it is set, the
    default one otherwise -- and the version command succeeds,
    [check_tool] appends that directory to [PATH] and returns [True]. *)
Theorem check_tool_extends_path (name pth_env exe_name : string)
    (cmds : list string) (default_pth dir path out err : string)
    (f : gmap string string) (w : world) :
  dir = match environ w !! pth_env with Some d => d | None => default_pth end ->
  is_Some (files w !! os_path_join dir exe_name) ->
  environ w !! "PATH" = Some path ->
  spawn {| environ := <["PATH" := path ++ os_pathsep ++ dir]> (environ w);
           files := files w; trace := trace w |} cmds None
  = Exited 0 out err f ->
  check_tool name pth_env exe_name cmds default_pth w
  = (Ret true,
     {| environ := <["PATH" := path ++ os_pathsep ++ dir]> (environ w);
        files := f;
        trace := trace w ++ [EvSpawn cmds None] |}).
Proof.
  intros Hdir Hfile Hpath Hspawn. destruct w as [env fs tr].
  cbn [environ files trace] in *.
  cbv beta iota delta [check_tool bind env_has env_get isfile add_to_path env_set
                         check_output popen_wait get_world log set_files ret raise].
  eff_step.
  destruct (env !! pth_env) as [d|] eqn:Hvar; subst dir.
  - rewrite bool_decide_eq_true_2 by eauto.
    repeat progress (eff_step; rewrite ?Hvar).
    rewrite bool_decide_eq_true_2 by assumption.
    repeat progress (eff_step; rewrite ?Hpath, ?Hspawn). reflexivity.
  - rewrite bool_decide_eq_false_2 by (intros [? ?]; discriminate). eff_step.
    rewrite bool_decide_eq_true_2 by assumption.
    repeat progress (eff_step; rewrite ?Hpath, ?Hspawn). reflexivity.
Qed.

(** X3: when the environment variable is set and the executable is not
    in the directory it names, [check_tool] raises at once: the default
    directory is not tried and nothing is run. *)
Theorem check_tool_ignores_default (name pth_env exe_name : string)
    (cmds : list string) (default_pth dir : string) (w : world) :
  environ w !! pth_env = Some dir ->
  files w !! os_path_join dir exe_name = None ->
  check_tool name pth_env exe_name cmds default_pth w
  = (Raise (Exception_ ("Failed to find " ++ name)), w).
Proof.
  intros Hvar Hfile. destruct w as [env fs tr]. cbn [environ files trace] in *.
  cbv beta iota delta [check_tool bind env_has env_get isfile add_to_path env_set
                         check_output popen_wait get_world log set_files ret raise].
  eff_step. rewrite bool_decide_eq_true_2 by eauto.
  repeat progress (eff_step; rewrite ?Hvar, ?Hfile).
  rewrite bool_decide_eq_false_2 by (intros [? ?]; discriminate).
  eff_step. reflexivity.
Qed.

(** X4: away from Windows [_find_vboxmanage] does nothing; on Windows it
    reads [ProgramFiles] before anything else, so without that variable
    it raises [KeyError] even where [VBOX_MSI_INSTALL_PATH] names the
    installation. *)
Theorem find_vboxmanage_needs_program_files (w : world) :
  (String.eqb sys_platform "win32" = false -> _find_vboxmanage w = (Ret tt, w))
  /\ (String.eqb sys_platform "win32" = true ->
      environ w !! "ProgramFiles" = None ->
      _find_vboxmanage w = (Raise (KeyError "ProgramFiles"), w)).
Proof.
  split.
  - intros Hwin. unfold _find_vboxmanage. now rewrite Hwin.
  - intros Hwin Hpf. destruct w as [env fs tr]. cbn [environ] in *.
    unfold _find_vboxmanage. rewrite Hwin.
    cbv beta iota delta [bind env_get]. eff_step. now rewrite Hpf.
Qed.
End Tools.

Lemma check_tool_extends_path_witness :
  exists w',
    @check_tool nt_platform env_toolbox_win "VirtualBox: VBoxManage"
      "VBOX_MSI_INSTALL_PATH" "VBoxManage.exe" ["VBoxManage"; "--version"]
      (program_files ++ backslash ++ "Oracle" ++ backslash ++ "VirtualBox")
      world_toolbox_win = (Ret true, w')
    /\ environ w' !! "PATH"
       = Some ("C:" ++ backslash ++ "Windows;" ++ program_files ++ backslash
               ++ "Oracle" ++ backslash ++ "VirtualBox").
Proof.
  eexists. split.
  - apply (@check_tool_extends_path nt_platform env_toolbox_win
             "VirtualBox: VBoxManage" "VBOX_MSI_INSTALL_PATH" "VBoxManage.exe"
             ["VBoxManage"; "--version"]
             (program_files ++ backslash ++ "Oracle" ++ backslash ++ "VirtualBox")
             (program_files ++ backslash ++ "Oracle" ++ backslash ++ "VirtualBox")
             ("C:" ++ backslash ++ "Windows") "6.1.12r139181" EmptyString
             (files world_toolbox_win) world_toolbox_win);
      try reflexivity.
    vm_compute. eauto.
  - vm_compute. reflexivity.
Defined.

Lemma check_tool_ignores_default_witness :
  @check_tool nt_platform env_toolbox_win "VirtualBox: VBoxManage"
    "VBOX_MSI_INSTALL_PATH" "VBoxManage.exe" ["VBoxManage"; "--version"]
    (program_files ++ backslash ++ "Oracle" ++ backslash ++ "VirtualBox")
    world_wrong_dir
  = (Raise (Exception_ "Failed to find VirtualBox: VBoxManage"), world_wrong_dir).
Proof.
  apply (@check_tool_ignores_default nt_platform env_toolbox_win
           "VirtualBox: VBoxManage" "VBOX_MSI_INSTALL_PATH" "VBoxManage.exe"
           ["VBoxManage"; "--version"]
           (program_files ++ backslash ++ "Oracle" ++ backslash ++ "VirtualBox")
           ("C:" ++ backslash ++ "Tools") world_wrong_dir);
    reflexivity.
Defined.

Lemma find_vboxmanage_needs_program_files_witness :
  @_find_vboxmanage nt_platform env_toolbox_win world_no_program_files
  = (Raise (KeyError "ProgramFiles"), world_no_program_files)
  /\ @_find_vboxmanage (posix_platform "darwin") env_toolbox_win world_no_program_files
     = (Ret tt, world_no_program_files).
Proof.
  split.
  - apply (proj2 (@find_vboxmanage_needs_program_files nt_platform env_toolbox_win
                    world_no_program_files)); reflexivity.
  - apply (proj1 (@find_vboxmanage_needs_program_files (posix_platform "darwin")
                    env_toolbox_win world_no_program_files)); reflexivity.
Defined.

(** ** The machine name and the environment of the machine *)

Lemma split_on_length (s : string) :
  List.length (split_on is_cut s) = S (cut_count s).
Proof.
  induction s as [|c s IH]; [reflexivity|].
  cbn [split_on cut_count]. fold (is_cut c).
  destruct (is_cut c); cbn [List.length].
  - now rewrite IH.
  - destruct (split_on is_cut s) as [|x xs]; cbn [List.length] in *; lia.
Qed.

Lemma split_on_plain (s : string) :
  cut_count s = 0 -> split_on is_cut s = [s].
Proof.
  induction s as [|c s IH]; [reflexivity|].
  cbn [split_on cut_count]. fold (is_cut c). destruct (is_cut c); [discriminate|].
  intros H. now rewrite IH.
Qed.

Lemma split_on_field (s t : string) (c : ascii) :
  cut_count s = 0 -> is_cut c = true ->
  split_on is_cut (String.append s (String c t)) = s :: split_on is_cut t.
Proof.
  intros Hs Hc. induction s as [|b s IH].
  - cbn [String.append split_on]. now rewrite Hc.
  - cbn [cut_count] in Hs. fold (is_cut b) in Hs.
    cbn [String.append split_on]. destruct (is_cut b); [discriminate|].
    now rewrite IH.
Qed.

Section Machine.
Context {P : Platform} {E : Environment}.

(** X5: [toolbox_vm] takes the name from [self.info] whenever there is
    one: the [Name] field, or [default] without it, and neither the
    environment nor [docker-machine] is consulted.  Without [self.info]
    the variable [DOCKER_MACHINE_NAME] decides when it is set ([default]
    if it is empty), and only otherwise [docker-machine active] is run,
    whose output is returned as it is printed. *)
Theorem toolbox_vm_precedence (self : DockerEnv) (w : world) :
  (forall dct, info self = Some (JDict dct) ->
     toolbox_vm self w
     = (Ret (match dict_get "Name" dct with Some v => v | None => JStr "default" end), w))
  /\ (forall n, info self = None -> environ w !! "DOCKER_MACHINE_NAME" = Some n ->
        toolbox_vm self w = (Ret (JStr (if nonempty n then n else "default")), w))
  /\ (forall rc out err f,
        info self = None -> environ w !! "DOCKER_MACHINE_NAME" = None ->
        spawn w active_cmd None = Exited rc out err f ->
        toolbox_vm self w
        = (Ret (JStr (if (rc =? 0)%Z then out else "default")),
           {| environ := environ w; files := f;
              trace := trace w ++ [EvSpawn active_cmd None] |})).
Proof.
  destruct w as [env fs tr]. cbn [environ files trace]. split; [|split].
  - intros dct Hinfo. unfold toolbox_vm. rewrite Hinfo.
    cbv beta iota delta [bind py_in py_getitem ret]. eff_step.
    rewrite dict_get_in. destruct (dict_get "Name" dct); reflexivity.
  - intros n Hinfo Hvar. unfold toolbox_vm. rewrite Hinfo.
    cbv beta iota delta [bind env_has env_get ret]. eff_step.
    rewrite Hvar. rewrite bool_decide_eq_true_2 by eauto.
    repeat progress (eff_step; rewrite ?Hvar). now destruct n.
  - intros rc out err f Hinfo Hvar Hspawn. unfold toolbox_vm. rewrite Hinfo.
    cbv beta iota delta [bind env_has env_get call get_world log set_files ret].
    eff_step. rewrite Hvar.
    rewrite bool_decide_eq_false_2 by (intros [? ?]; discriminate).
    unfold active_cmd in Hspawn.
    repeat progress (eff_step; rewrite ?Hspawn).
    now destruct (rc =? 0)%Z.
Qed.

(** X6: in the loop of [update_env] a line that starts with [SET] must be
    cut at exactly two places by spaces and equal signs: [SET k=v] sets
    [os.environ[k]] to [v], any other number of cuts -- a value with a
    space in it, say -- raises [ValueError], and the lines before it
    stay applied.  Lines that do not start with [SET] are passed over. *)
Theorem update_env_lines_cut (rest : list string) (w : world) :
  (forall k v, cut_count k = 0 -> cut_count v = 0 ->
     update_env_lines (("SET " ++ k ++ "=" ++ v) :: rest) w
     = update_env_lines rest
         {| environ := <[k := v]> (environ w); files := files w; trace := trace w |})
  /\ (forall line, startswith line "SET" = true -> cut_count line <> 2 ->
        update_env_lines (line :: rest) w = (Raise ValueError, w))
  /\ (forall line, startswith line "SET" = false ->
        update_env_lines (line :: rest) w = update_env_lines rest w).
Proof.
  destruct w as [env fs tr]. cbn [environ files trace]. split; [|split].
  - intros k v Hk Hv. cbn [update_env_lines].
    assert (Hstart : startswith ("SET " ++ k ++ "=" ++ v) "SET" = true) by reflexivity.
    rewrite Hstart. fold is_cut.
    change ("SET " ++ k ++ "=" ++ v)
      with (String.append "SET" (String " " (String.append k (String "=" v)))).
    rewrite split_on_field by reflexivity.
    rewrite split_on_field by (assumption || reflexivity).
    rewrite split_on_plain by assumption. cbn [tl].
    cbv beta iota delta [bind env_set]. eff_step. reflexivity.
  - intros line Hstart Hcut. cbn [update_env_lines]. rewrite Hstart. fold is_cut.
    pose proof (split_on_length line) as Hlen.
    destruct (split_on is_cut line) as [|f0 [|f1 [|f2 [|f3 fs']]]];
      cbn [tl List.length] in *; try reflexivity.
    exfalso. apply Hcut. lia.
  - intros line Hstart. cbn [update_env_lines]. rewrite Hstart.
    cbv beta iota delta [bind ret]. reflexivity.
Qed.

(** X7: when [docker-machine env --shell=cmd] fails, [update_env]
    returns without raising and leaves [os.environ] as it was; the
    second query is not made. *)
Theorem update_env_failure_is_silent (w : world) :
  (forall o e f, spawn w ["docker-machine"; "env"; "--shell=cmd"] None
                 <> Exited 0 o e f) ->
  exists w', update_env w = (Ret tt, w')
             /\ environ w' = environ w
             /\ trace w' = (trace w ++ [EvSpawn ["docker-machine"; "env"; "--shell=cmd"]
                                          None])%list.
Proof.
  intros Hfail. destruct w as [env fs tr].
  cbv beta iota delta [update_env bind call get_world log set_files ret]. eff_step.
  destruct (spawn _ _ None) as [msg | rc out err f] eqn:Hs; eff_step.
  - eexists. repeat split.
  - destruct (rc =? 0)%Z eqn:Hrc.
    + apply Z.eqb_eq in Hrc. subst rc. now specialize (Hfail out err f).
    + eff_step. eexists. repeat split.
Qed.
End Machine.

Lemma update_env_failure_is_silent_witness :
  exists w', @update_env env_no_machine world_wrong_dir = (Ret tt, w')
             /\ environ w' = environ world_wrong_dir
             /\ trace w' = [EvSpawn ["docker-machine"; "env"; "--shell=cmd"] None].
Proof.
  apply (@update_env_failure_is_silent env_no_machine world_wrong_dir).
  intros o e f. vm_compute. discriminate.
Defined.

Lemma update_env_lines_cut_witness :
  @update_env_lines [ "SET DOCKER_HOST=tcp://192.168.99.100:2376" ] empty_world
  = (Ret tt, {| environ := {[ "DOCKER_HOST" := "tcp://192.168.99.100:2376" ]};
                files := ∅; trace := [] |})
  /\ @update_env_lines
       [ "SET DOCKER_CERT_PATH=C:\Users\Ann Lee\.docker\machine\machines\default" ]
       empty_world
     = (Raise ValueError, empty_world).
Proof.
  destruct (update_env_lines_cut [] empty_world) as (Hset & Hbad & _). split.
  - exact (eq_trans (Hset "DOCKER_HOST" "tcp://192.168.99.100:2376" eq_refl eq_refl)
             eq_refl).
  - apply Hbad; [reflexivity | vm_compute; discriminate].
Defined.

Lemma toolbox_vm_precedence_witness :
  @toolbox_vm env_no_machine stopped_toolbox world_wrong_dir
  = (Ret (JStr "default"), world_wrong_dir)
  /\ @toolbox_vm env_no_machine blank world_named_machine
     = (Ret (JStr "dev"), world_named_machine).
Proof.
  split.
  - exact (proj1 (@toolbox_vm_precedence env_no_machine stopped_toolbox world_wrong_dir)
             _ eq_refl).
  - exact (proj1 (proj2 (@toolbox_vm_precedence env_no_machine blank
                           world_named_machine)) "dev" eq_refl eq_refl).
Defined.

(** ** Shares and paths *)

Lemma py_drop_app (s t : string) :
  py_drop (String.length s) (String.append s t) = t.
Proof. induction s as [|c s IH]; [reflexivity | exact IH]. Qed.

Lemma prefix_app (s t u : string) :
  String.prefix (String.append s t) (String.append s u) = String.prefix t u.
Proof.
  induction s as [|c s IH]; [reflexivity|].
  cbn [String.append]. now rewrite prefix_cons, Ascii.eqb_refl, IH.
Qed.

Lemma prefix_self (s : string) : String.prefix s s = true.
Proof.
  induction s as [|c s IH]; [reflexivity|]. now rewrite prefix_cons, Ascii.eqb_refl.
Qed.

Lemma vbox_share_search_none {P : Platform} (path : string) (l : list (string * string)) :
  vbox_share_search path l = None
  <-> forallb (fun e => negb (share_matches (fst e) path)) l = true.
Proof.
  induction l as [|[m share] l IH]; [easy|].
  cbn [vbox_share_search forallb fst]. fold (share_matches m path).
  destruct (share_matches m path); cbn [negb andb]; [easy | exact IH].
Qed.

Section Shares.
Context {P : Platform}.

Lemma vbox_share_last (self : DockerEnv) (path : string)
    (l : list (string * string)) (m share : string) :
  folder_map self = (l ++ [(m, share)])%list ->
  share_matches m path = true ->
  convert_path_vbox_share self path
  = Some (share ++ "/" ++ py_drop (String.length m) path).
Proof.
  intros Hmap Hmatch. unfold convert_path_vbox_share.
  rewrite Hmap, rev_app_distr. cbn [rev app vbox_share_search].
  fold (share_matches m path). now rewrite Hmatch.
Qed.

(** X8: the shares are tried from the last one of [folder_map] backwards:
    when the last share matches, the path is translated through it
    whatever the earlier shares are, and the result is [None] exactly
    when no share matches. *)
Theorem vbox_share_last_entry_wins (self : DockerEnv) (path : string) :
  (forall l m share,
      folder_map self = (l ++ [(m, share)])%list ->
      share_matches m path = true ->
      convert_path_vbox_share self path
      = Some (share ++ "/" ++ py_drop (String.length m) path))
  /\ (convert_path_vbox_share self path = None
      <-> forallb (fun e => negb (share_matches (fst e) path)) (folder_map self) = true).
Proof.
  split.
  - apply vbox_share_last.
  - unfold convert_path_vbox_share. rewrite vbox_share_search_none.
    rewrite forallb_forall, forallb_forall. split; intros H x Hx; apply H.
    + now apply in_rev in Hx.
    + now apply in_rev.
Qed.
End Shares.

Lemma posix_join_empty (a : string) :
  a <> EmptyString ->
  String.eqb (py_drop (String.length a - 1) a) "/" = false ->
  posix_join a EmptyString = String.append a "/".
Proof.
  intros Hne Hlast. unfold posix_join. cbn [String.prefix].
  destruct a as [|c a]; [contradiction|].
  cbn [String.eqb]. cbn [String.length Nat.sub] in *. rewrite Nat.sub_0_r in *.
  rewrite Hlast. reflexivity.
Qed.

Lemma posix_join_empty_cases (a : string) :
  posix_join a EmptyString = a \/ posix_join a EmptyString = String.append a "/".
Proof.
  unfold posix_join. cbn [String.prefix].
  destruct (String.eqb a EmptyString || _); [left | right]; [|reflexivity].
  destruct a; [reflexivity|]. now rewrite append_nil_r.
Qed.

(** X9: with POSIX paths a share whose host path [m] is not empty and
    does not end in a slash matches [m] itself and what lies below it,
    and no sibling whose name only begins like [m]: it matches [m + rest]
    exactly when [rest] is empty or begins with a slash. *)
Theorem posix_share_matches_whole_components (name m rest : string) :
  String.eqb name "win32" = false ->
  m <> EmptyString ->
  String.eqb (py_drop (String.length m - 1) m) "/" = false ->
  @share_matches (posix_platform name) m (String.append m rest)
  = match rest with
    | EmptyString => true
    | String c _ => Ascii.eqb c "/"
    end.
Proof.
  intros Hname Hne Hlast. unfold share_matches.
  cbn [sys_platform os_path_join posix_platform]. rewrite Hname.
  rewrite (posix_join_empty m Hne Hlast). unfold startswith.
  destruct rest as [|c r].
  - rewrite append_nil_r, (posix_join_empty m Hne Hlast). apply prefix_self.
  - assert (Hpp : exists r', posix_join (String.append m (String c r)) EmptyString
                             = String.append m (String c r')).
    { destruct (posix_join_empty_cases (String.append m (String c r))) as [-> | ->].
      - now exists r.
      - exists (String.append r "/"). now rewrite append_assoc. }
    destruct Hpp as [r' ->]. rewrite prefix_app, prefix_cons, prefix_nil.
    rewrite andb_true_r. apply Ascii.eqb_sym.
Qed.

Lemma posix_share_matches_whole_components_witness :
  @share_matches (posix_platform "darwin") "/Users" "/Users2/ann" = false
  /\ @share_matches (posix_platform "darwin") "/Users" "/Users/ann" = true.
Proof.
  split.
  - exact (posix_share_matches_whole_components "darwin" "/Users" "2/ann" eq_refl
             ltac:(discriminate) eq_refl).
  - exact (posix_share_matches_whole_components "darwin" "/Users" "/ann" eq_refl
             ltac:(discriminate) eq_refl).
Defined.

Lemma vbox_share_last_entry_wins_witness :
  @convert_path_vbox_share (posix_platform "darwin") toolbox_nested
    "/Users/ann/models/run1"
  = Some "models//run1".
Proof.
  exact (proj1 (@vbox_share_last_entry_wins (posix_platform "darwin") toolbox_nested
                  "/Users/ann/models/run1")
           [("/Users", "Users")] "/Users/ann/models" "models" eq_refl eq_refl).
Defined.

(** ** From the share to the mount source on Windows *)

Lemma replace_past_plain (s t : string) :
  has_char "/" s = false ->
  replace "//" "/" (String.append s t) = String.append s (replace "//" "/" t).
Proof.
  induction s as [|c s IH]; [reflexivity|].
  cbn [has_char]. intros H. apply orb_false_elim in H as [Hc Hs].
  cbn [String.append]. rewrite replace_miss.
  - now rewrite IH.
  - now rewrite prefix_cons, Hc.
Qed.

Lemma nt_to_posix_of_share (share : string) (segs : list string) :
  plain_segment share = true -> segs <> [] ->
  forallb plain_segment segs = true ->
  method_convert_path_nt_to_posix
    (share ++ "/" ++ join_segments backslash segs)
  = "/" ++ share ++ join_segments "/" segs.
Proof.
  intros Hshare Hne Hsegs.
  apply plain_segment_inv in Hshare as (_ & Hsb & Hss & Hsc).
  unfold method_convert_path_nt_to_posix. f_equal.
  pose proof (backslashes_to_slashes segs Hsegs) as Hjoin.
  unfold backslash, bs in *.
  rewrite !replace_char_app, (replace_char_absent _ "/" share Hsb), Hjoin.
  change (replace (String "092" EmptyString) "/" "/") with "/".
  rewrite (replace_char_absent ":" EmptyString share Hsc).
  rewrite (replace_char_absent ":" EmptyString (join_segments "/" segs))
    by now apply join_has_no_colon.
  change (replace ":" EmptyString "/") with "/".
  rewrite replace_past_plain by assumption. f_equal.
  destruct segs as [|seg rest]; [contradiction|].
  cbn [join_segments forallb] in *. apply andb_prop in Hsegs as [Hseg Hrest].
  apply plain_segment_inv in Hseg as (_ & _ & Hs & _).
  cbn [String.append].
  rewrite replace_hit by (now rewrite !prefix_cons, prefix_nil).
  cbn [String.length Nat.sub py_drop String.append]. f_equal.
  apply replace_absent. rewrite contains_after_plain by assumption.
  now apply join_has_no_double_slash.
Qed.

Section WindowsShare.
Context {P : Platform} {E : Environment}.

(** X10: on Windows in Toolbox mode, a path that lies below the host
    path of the last share is translated to [/share/seg1/.../segn]: the
    remainder keeps its leading backslash after the lookup, and the pass
    over doubled slashes of the POSIX rewrite is what joins the share
    name and the remainder with a single slash. *)
Theorem windows_toolbox_mount_source (self : DockerEnv) (w : world)
    (l : list (string * string)) (m share : string) (segs : list string) :
  String.eqb sys_platform "win32" = true ->
  truthy (is_toolbox self) = true ->
  folder_map self = (l ++ [(m, share)])%list ->
  share_matches m (m ++ join_segments backslash segs) = true ->
  plain_segment share = true -> segs <> [] ->
  forallb plain_segment segs = true ->
  convert_path_vbox_share self (m ++ join_segments backslash segs)
  = Some (share ++ "/" ++ join_segments backslash segs)
  /\ volume_path (Some (m ++ join_segments backslash segs)) (self, w)
     = (Ret (Some ("/" ++ share ++ join_segments "/" segs)), (self, w)).
Proof.
  intros Hwin Htb Hmap Hmatch Hshare Hne Hsegs.
  pose proof (vbox_share_last self _ l m share Hmap Hmatch) as Hconv.
  rewrite py_drop_app in Hconv. split; [exact Hconv|].
  cbv beta iota delta [volume_path bind get_self ret nt_to_posix_opt].
  obj_step. rewrite Htb, Hconv, Hwin. obj_step.
  now rewrite nt_to_posix_of_share.
Qed.
End WindowsShare.

Lemma windows_toolbox_mount_source_witness :
  @volume_path nt_platform env_toolbox_win (Some project_path) (toolbox_win, empty_world)
  = (Ret (Some "/c_users/a/project"), (toolbox_win, empty_world)).
Proof.
  exact (proj2 (@windows_toolbox_mount_source nt_platform env_toolbox_win toolbox_win
                  empty_world [] users_path "c_users" ["a"; "project"]
                  eq_refl eq_refl eq_refl eq_refl eq_refl ltac:(discriminate) eq_refl)).
Defined.

(** ** The command line of a run *)

Lemma nonempty_volume (cp : option string) :
  nonempty (format_path cp ++ ":" ++ "/data") = true.
Proof. destruct cp as [[|c s]|]; reflexivity. Qed.

(** X11: the command line of [run_waiwera] holds no empty string; the
    pass-through arguments come last, in their order, those that are
    empty left out; and an interactive run does not depend on the number
    of processors: it runs [/bin/bash], to which the arguments are
    handed. *)
Theorem run_cmd_shape (cp : option string) (a : run_args) :
  Forall (fun c => c <> EmptyString) (run_cmd cp a)
  /\ run_cmd cp a
     = (run_cmd cp (with_args a []) ++ filter (fun c => nonempty c = true) (waiwera_args a))%list
  /\ (interactive a = true ->
      forall n,
        run_cmd cp (with_np a n)
        = (["docker"; "run"; "--cidfile"; ".cid"; "--rm"; "--volume";
            (format_path cp ++ ":" ++ "/data")%string; "--interactive"; "--tty"]
             ++ filter (fun c => nonempty c = true) (image_ref a)
             ++ ["/bin/bash"]
             ++ filter (fun c => nonempty c = true) (waiwera_args a))%list).
Proof.
  split; [|split].
  - unfold run_cmd. apply Forall_forall. intros c Hc.
    apply list_elem_of_filter in Hc as [Hc _].
    now destruct c.
  - unfold run_cmd. cbn [with_args waiwera_args interactive image_ref image repo tag
                           np_args num_processors].
    rewrite !app_assoc. rewrite (filter_app _ _ (waiwera_args a)).
    now rewrite app_nil_r.
  - intros Hint n. unfold run_cmd.
    cbn [with_np waiwera_args interactive]. rewrite Hint.
    change (image_ref (with_np a n)) with (image_ref a).
    pose proof (nonempty_volume cp) as Hvol.
    repeat (rewrite filter_cons; cbn [nonempty]).
    rewrite !filter_app.
    repeat (rewrite filter_cons; cbn [nonempty]).
    rewrite filter_nil.
    repeat (destruct (decide _); try congruence); reflexivity.
Qed.

Section Interrupt.
Context {P : Platform} {E : Environment}.

(** X12: whatever the state of the working directory, the interrupt
    handler exits with status 1, leaves no [.cid] behind and touches
    nothing else: the start marker [.idcheck] of an interrupted run and
    [os.environ] stay as they are. *)
Theorem signal_handler_keeps_start_marker (w : world) :
  exists w',
    signal_handler w = (SysExit 1, w')
    /\ files w' = delete ".cid" (files w)
    /\ files w' !! ".idcheck" = files w !! ".idcheck"
    /\ environ w' = environ w.
Proof.
  destruct w as [env fs tr].
  cbv beta iota delta [signal_handler bind isfile read_file system get_world
                         log os_remove sys_exit ret].
  eff_step. destruct (fs !! ".cid") as [c|] eqn:Hc.
  - rewrite bool_decide_eq_true_2 by eauto.
    repeat progress (eff_step; rewrite ?Hc).
    eexists. split; [reflexivity|]. cbn [files environ]. repeat split.
    now rewrite lookup_delete_ne.
  - rewrite bool_decide_eq_false_2 by (intros [? ?]; discriminate). eff_step.
    eexists. split; [reflexivity|]. cbn [files environ]. repeat split.
    symmetry. now apply delete_id.
Qed.

(** X13: the image update of [run_waiwera] is best effort as far as its
    exit status goes: whatever status [docker pull] exits with, the run
    goes on to the launch.  If [docker pull] cannot be started at all,
    [run_waiwera] raises [OSError] before any marker is created. *)
Theorem image_update_status_is_ignored (a : run_args) (d d1 : DockerEnv)
    (w w1 : world) (cp : option string) :
  volume_path None (d, w) = (Ret cp, (d1, w1)) ->
  noupdate a = false ->
  (forall rc out err f,
      spawn w1 (pull_cmd a) None = Exited rc out err f ->
      run_waiwera a (d, w)
      = lift (launch (run_cmd cp a))
          (d1, {| environ := environ w1; files := f;
                  trace := trace w1 ++ [EvSpawn (pull_cmd a) None] |}))
  /\ (forall msg,
         spawn w1 (pull_cmd a) None = SpawnError msg ->
         run_waiwera a (d, w)
         = (Raise OSError,
            (d1, {| environ := environ w1; files := files w1;
                    trace := trace w1 ++ [EvSpawn (pull_cmd a) None] |}))).
Proof.
  intros Hvol Hnoup. destruct w1 as [env1 fs1 tr1]. cbn [environ files trace].
  assert (Hrun : run_waiwera a (d, w)
                 = bind (if negb (noupdate a)
                         then bind (lift (popen_wait (pull_cmd a) None)) (fun _ => ret tt)
                         else ret tt)
                     (fun _ => lift (launch (run_cmd cp a)))
                     (d1, {| environ := env1; files := fs1; trace := tr1 |})).
  { unfold run_waiwera at 1. unfold bind at 1. now rewrite Hvol. }
  rewrite Hrun, Hnoup. cbn [negb]. split.
  - intros rc out err f Hs.
    cbv beta iota delta [bind lift popen_wait get_world log set_files ret].
    obj_step. rewrite Hs. obj_step. reflexivity.
  - intros msg Hs.
    cbv beta iota delta [bind lift popen_wait get_world log set_files ret raise].
    obj_step. rewrite Hs. obj_step. reflexivity.
Qed.
End Interrupt.

Lemma image_update_status_is_ignored_witness :
  @run_waiwera (posix_platform "linux2") env_offline shell_args (native_env, empty_world)
  = (Ret tt,
     (native_env,
      {| environ := ∅; files := ∅;
         trace := [EvSpawn ["docker"; "pull"; "waiwera/waiwera:latest"] None;
                   EvSpawn ["docker"; "run"; "--cidfile"; ".cid"; "--rm"; "--volume";
                            "/home/user/model:/data"; "--interactive"; "--tty";
                            "waiwera/waiwera:latest"; "/bin/bash"; "-l"] None] |})).
Proof.
  rewrite (proj1 (@image_update_status_is_ignored (posix_platform "linux2") env_offline
                    shell_args native_env native_env empty_world empty_world
                    (Some "/home/user/model") eq_refl eq_refl)
             1%Z EmptyString "Error response from daemon: net/http: timeout" ∅ eq_refl).
  vm_compute. reflexivity.
Defined.

Lemma run_cmd_shape_witness :
  run_cmd (Some "/home/user/model") (with_np shell_args None)
  = ["docker"; "run"; "--cidfile"; ".cid"; "--rm"; "--volume";
     "/home/user/model:/data"; "--interactive"; "--tty";
     "waiwera/waiwera:latest"; "/bin/bash"; "-l"].
Proof.
  rewrite (proj2 (proj2 (run_cmd_shape (Some "/home/user/model") shell_args))
             eq_refl None).
  reflexivity.
Defined.

(** ** The object after the constructor *)

Lemma get_self_inv (s s1 : DockerEnv * world) (d : DockerEnv) :
  get_self s = (Ret d, s1) -> d = fst s /\ s1 = s.
Proof. unfold get_self. intros H. inversion H. now subst. Qed.

Section Constructor.
Context {P : Platform} {E : Environment}.

(** X14: asked before any version check, and with a [docker --version]
    that fails, [check_running] refuses: it records that Docker does not
    exist, returns [None] and does not issue the status query, so
    [running], [info] and the mode stay as they were. *)
Theorem check_running_refuses_without_docker (verbose : bool) (d : DockerEnv)
    (w : world) :
  exists_ d = None ->
  (forall o e f, spawn w version_cmd None <> Exited 0 o e f) ->
  exists w',
    check_running verbose (d, w)
    = (Ret None,
       ({| exists_ := Some false; running := running d; info := info d;
           is_toolbox := is_toolbox d; folder_map := folder_map d |}, w'))
    /\ trace w' = (trace w ++ [EvSpawn version_cmd None])%list.
Proof.
  intros Hex Hfail. destruct w as [env fs tr]. unfold version_cmd in *.
  cbv beta iota delta [check_running check_exists bind get_self put_self set_exists
                         lift call get_world log set_files ret].
  obj_step. rewrite Hex. obj_step.
  destruct (spawn _ _ None) as [msg | rc out err f] eqn:Hs; obj_step.
  - eexists. split; reflexivity.
  - destruct (rc =? 0)%Z eqn:Hrc.
    + apply Z.eqb_eq in Hrc. subst rc. now specialize (Hfail out err f).
    + obj_step. eexists. split; reflexivity.
Qed.


Lemma aggressive_repair_ret (s s' : DockerEnv * world) :
  aggressive_repair s = (Ret tt, s') -> truthy (running (fst s')) = true.
Proof.
  unfold aggressive_repair. intros H.
  apply bind_ret_inv in H as (d1 & s1 & _ & H).
  apply bind_ret_inv in H as (u & s2 & _ & H).
  apply bind_ret_inv in H as (d2 & s3 & Hget & H).
  apply get_self_inv in Hget as [-> ->].
  destruct (truthy (running (fst s2))) eqn:Hrun; cbn [negb] in H.
  - unfold ret in H. inversion H. now subst.
  - discriminate.
Qed.

Lemma check_block_ret (s s' : DockerEnv * world) :
  (check_exists ;;;
   check_running true ;;;
   d <- get_self ;;
   if negb (truthy (running d)) then
     if truthy (is_toolbox d) then
       lift update_env ;;;
       check_running true ;;;
       d1 <- get_self ;;
       if negb (truthy (running d1)) then aggressive_repair
       else ret tt
     else
       e <- py_getitem "ServerErrors" (info d) ;;
       raise (Exception_ ("Error, Docker is not running: " ++ py_str e))
   else ret tt) s = (Ret tt, s') ->
  truthy (running (fst s')) = true.
Proof.
  intros H.
  apply bind_ret_inv in H as (u1 & s1 & _ & H).
  apply bind_ret_inv in H as (u2 & s2 & _ & H).
  apply bind_ret_inv in H as (d & s3 & Hget & H).
  apply get_self_inv in Hget as [-> ->].
  destruct (truthy (running (fst s2))) eqn:Hrun; cbn [negb] in H.
  - unfold ret in H. inversion H. now subst.
  - destruct (truthy (is_toolbox (fst s2))).
    + apply bind_ret_inv in H as (u3 & s4 & _ & H).
      apply bind_ret_inv in H as (u4 & s5 & _ & H).
      apply bind_ret_inv in H as (d1 & s6 & Hget & H).
      apply get_self_inv in Hget as [-> ->].
      destruct (truthy (running (fst s5))) eqn:Hrun1; cbn [negb] in H.
      * unfold ret in H. inversion H. now subst.
      * now apply aggressive_repair_ret in H.
    + apply bind_ret_inv in H as (e & s4 & _ & H). discriminate.
Qed.

(** X16: a constructor with check that returns has found Docker running:
    on every path on which [__init__] neither raises nor exits,
    [self.running] is true at the end. *)
Theorem checked_constructor_means_running (toolbox : option bool)
    (fm : list (string * string)) (s s' : DockerEnv * world) :
  DockerEnv_init true toolbox fm s = (Ret tt, s') ->
  running (fst s') = Some true.
Proof.
  unfold DockerEnv_init. intros H.
  apply bind_ret_inv in H as (u0 & s0 & _ & H).
  apply bind_ret_inv in H as ([] & s1 & Hcheck & H).
  apply check_block_ret in Hcheck.
  apply bind_ret_inv in H as (d & s2 & Hget & H).
  apply get_self_inv in Hget as [-> ->].
  assert (Hsame : running (fst s') = running (fst s1)).
  { destruct (truthy (is_toolbox (fst s1)) && _).
    - apply bind_ret_inv in H as (fm' & s3 & Hshare & H).
      destruct s1 as [d1 w1], s3 as [d3 w3].
      apply lift_inv in Hshare as [-> _].
      cbv beta iota delta [set_folder_map bind get_self put_self] in H.
      cbn [fst snd] in H. inversion H. reflexivity.
    - unfold ret in H. inversion H. reflexivity. }
  rewrite Hsame. unfold truthy in Hcheck.
  now destruct (running (fst s1)) as [[]|].
Qed.
End Constructor.

Lemma check_running_refuses_without_docker_witness :
  exists w',
    @check_running (posix_platform "linux2") env_no_docker true (blank, empty_world)
    = (Ret None,
       ({| exists_ := Some false; running := None; info := None;
           is_toolbox := None; folder_map := [] |}, w'))
    /\ trace w' = [EvSpawn version_cmd None].
Proof.
  apply (@check_running_refuses_without_docker (posix_platform "linux2")
           env_no_docker true blank empty_world eq_refl).
  intros o e f. vm_compute. discriminate.
Defined.


Lemma checked_constructor_means_running_witness :
  running
    (fst (snd (@DockerEnv_init (posix_platform "linux2") (env_native 0) true None []
                 (blank, empty_world))))
  = Some true.
Proof.
  apply (@checked_constructor_means_running (posix_platform "linux2") (env_native 0)
           None [] (blank, empty_world)).
  vm_compute. reflexivity.
Defined.

(** ** The shared-folder parser on the output of VBoxManage *)

Lemma nonempty_cons (s : string) : nonempty s = true -> exists c s', s = String c s'.
Proof. destruct s as [|c s']; [discriminate | eauto]. Qed.

Lemma prefix_append (s t : string) : String.prefix s (String.append s t) = true.
Proof.
  induction s as [|c s IH]; [apply prefix_nil|].
  cbn [String.append]. now rewrite prefix_cons, Ascii.eqb_refl.
Qed.

(** A lazy group stops at the first place where its literal follows,
    when the rest of the pattern matches there. *)
Lemma lazy_group_plain {A : Type} (lit' : string) (k : string -> option A)
    (acc g rest : string) (r : A) :
  nonempty g = true -> has_char apostrophe g = false ->
  has_char newline g = false -> k rest = Some r ->
  lazy_group (String apostrophe lit') k acc
    (String.append g (String.append (String apostrophe lit') rest))
  = Some (String.append acc g, r).
Proof.
  intros Hne Hap Hnl Hk. revert acc.
  induction g as [|c g IH]; intros acc; [discriminate|].
  cbn [has_char] in Hap, Hnl.
  apply orb_false_elim in Hap as [_ Hap]. apply orb_false_elim in Hnl as [Hc Hnl].
  cbn [String.append lazy_group]. rewrite Ascii.eqb_sym, Hc.
  destruct g as [|d g].
  - cbn [String.append].
    rewrite prefix_cons, Ascii.eqb_refl, prefix_append. cbn [andb String.length py_drop].
    rewrite py_drop_app, Hk. reflexivity.
  - cbn [String.append]. rewrite prefix_cons.
    cbn [has_char] in Hap. apply orb_false_elim in Hap as [Hd Hap'].
    rewrite Hd. cbn [andb].
    specialize (IH eq_refl). cbn [has_char] in IH. rewrite Hd in IH.
    specialize (IH Hap' Hnl (String.append acc (String c EmptyString))).
    cbn [String.append] in IH. rewrite IH, append_assoc. reflexivity.
Qed.

Lemma dot_run_plain (s : string) : has_char newline s = false -> dot_run s = s.
Proof.
  induction s as [|c s IH]; [reflexivity|]. cbn [has_char dot_run].
  intros H. apply orb_false_elim in H as [Hc Hs].
  now rewrite Ascii.eqb_sym, Hc, IH.
Qed.

Lemma greedy_group_plain (c : string) :
  nonempty c = true -> has_char newline c = false -> greedy_group c = Some c.
Proof.
  intros Hne Hnl. unfold greedy_group. rewrite dot_run_plain by assumption.
  now destruct c.
Qed.

Lemma field_ok_inv (s : string) :
  field_ok s = true ->
  nonempty s = true /\ has_char apostrophe s = false /\ has_char newline s = false.
Proof.
  unfold field_ok. intros H. apply andb_prop in H as [H Hnl].
  apply andb_prop in H as [Hne Hap].
  now rewrite negb_true_iff in Hap, Hnl.
Qed.

Lemma pat_match_entry (n h c : string) :
  field_ok n = true -> field_ok h = true ->
  nonempty c = true -> has_char newline c = false ->
  pat_match_here (share_entry n h c)
  = Some {| sl_name := n; sl_host := h; sl_comment := c |}.
Proof.
  intros Hn Hh Hc Hcnl.
  apply field_ok_inv in Hn as (Hn1 & Hn2 & Hn3).
  apply field_ok_inv in Hh as (Hh1 & Hh2 & Hh3).
  unfold pat_match_here, share_entry.
  change (String.prefix "Name: '" ("Name: '" ++ n ++ "', Host path: '" ++ h ++ "' " ++ c))
    with (String.prefix EmptyString (n ++ "', Host path: '" ++ h ++ "' " ++ c)).
  rewrite prefix_nil.
  change (py_drop 7 ("Name: '" ++ n ++ "', Host path: '" ++ h ++ "' " ++ c))
    with (n ++ "', Host path: '" ++ h ++ "' " ++ c).
  rewrite (lazy_group_plain ", Host path: '" _ EmptyString n _ (h, c)); try assumption.
  - reflexivity.
  - exact (lazy_group_plain " " greedy_group EmptyString h c c Hh1 Hh2 Hh3
             (greedy_group_plain c Hc Hcnl)).
Qed.

Lemma pat_search_entry (n h c : string) :
  field_ok n = true -> field_ok h = true ->
  nonempty c = true -> has_char newline c = false ->
  pat_search (share_entry n h c)
  = Some {| sl_name := n; sl_host := h; sl_comment := c |}.
Proof.
  intros Hn Hh Hc Hcnl.
  pose proof (pat_match_entry n h c Hn Hh Hc Hcnl) as Hm.
  unfold share_entry in *.
  change ("Name: '" ++ n ++ "', Host path: '" ++ h ++ "' " ++ c)
    with (String "N" ("ame: '" ++ n ++ "', Host path: '" ++ h ++ "' " ++ c)) in *.
  cbn [pat_search]. now rewrite Hm.
Qed.

(** X17: on a line that VBoxManage prints for a share, with a name and a
    host path free of apostrophes, the pattern of [parse_vminfo] finds
    exactly the three fields. *)
Theorem pat_search_reads_the_fields (n h c : string) :
  field_ok n = true -> field_ok h = true ->
  nonempty c = true -> has_char newline c = false ->
  pat_search (share_entry n h c)
  = Some {| sl_name := n; sl_host := h; sl_comment := c |}.
Proof. apply pat_search_entry. Qed.

Lemma split_line (s t : string) :
  has_char newline s = false ->
  split_char newline (String.append s (String newline t))
  = s :: split_char newline t.
Proof.
  unfold split_char. intros Hs. induction s as [|b s IH].
  - cbn [String.append split_on]. now rewrite Ascii.eqb_refl.
  - cbn [has_char] in Hs. apply orb_false_elim in Hs as [Hb Hs].
    cbn [String.append split_on]. now rewrite Hb, (IH Hs).
Qed.

Lemma split_unlines (lines : list string) (t : string) :
  single_lines lines = true ->
  split_char newline (String.append (unlines lines) t)
  = (lines ++ split_char newline t)%list.
Proof.
  induction lines as [|l lines IH]; [reflexivity|].
  cbn [single_lines forallb]. intros H. apply andb_prop in H as [Hl Hrest].
  apply negb_true_iff in Hl. cbn [unlines app]. unfold nl.
  rewrite !append_assoc. cbn [String.append].
  rewrite split_line by assumption. now rewrite (IH Hrest).
Qed.

Lemma unlines_app (a b : list string) :
  unlines (a ++ b) = String.append (unlines a) (unlines b).
Proof.
  induction a as [|l a IH]; [reflexivity|].
  cbn [app unlines]. now rewrite IH, !append_assoc.
Qed.

Lemma rstrip_app (a c : string) :
  nonempty c = true -> rstrip c = c -> rstrip (String.append a c) = String.append a c.
Proof.
  intros Hne Hc. induction a as [|x a IH]; [exact Hc|].
  cbn [String.append rstrip]. rewrite IH.
  destruct (String.append a c) eqn:Happ; [|reflexivity].
  destruct a; [|discriminate]. cbn [String.append] in Happ. now subst c.
Qed.

Lemma comment_ok_inv (c : string) :
  comment_ok c = true ->
  nonempty c = true /\ has_char newline c = false /\ rstrip c = c.
Proof.
  unfold comment_ok. intros H. apply andb_prop in H as [H Hr].
  apply andb_prop in H as [Hne Hnl]. apply String.eqb_eq in Hr.
  now rewrite negb_true_iff in Hnl.
Qed.

Lemma strip_entry (n h c : string) :
  comment_ok c = true -> strip (share_entry n h c) = share_entry n h c.
Proof.
  intros Hc. apply comment_ok_inv in Hc as (Hne & _ & Hr).
  unfold strip, share_entry.
  change (lstrip ("Name: '" ++ n ++ "', Host path: '" ++ h ++ "' " ++ c))
    with ("Name: '" ++ n ++ "', Host path: '" ++ h ++ "' " ++ c).
  rewrite <- !append_assoc. now apply rstrip_app.
Qed.

Lemma entry_is_a_line (n h c : string) :
  share_ok (n, h, c) = true ->
  is_header (share_entry n h c) = false
  /\ is_blank (share_entry n h c) = false
  /\ has_char newline (share_entry n h c) = false
  /\ pat_search (strip (share_entry n h c))
     = Some {| sl_name := n; sl_host := h; sl_comment := c |}.
Proof.
  cbn [share_ok]. intros H. apply andb_prop in H as [H Hc].
  apply andb_prop in H as [Hn Hh].
  pose proof (strip_entry n h c Hc) as Hs.
  pose proof (comment_ok_inv c Hc) as (Hne & Hnl & _).
  split; [|split; [|split]].
  - reflexivity.
  - unfold is_blank. rewrite Hs. reflexivity.
  - apply field_ok_inv in Hn as (_ & _ & Hn). apply field_ok_inv in Hh as (_ & _ & Hh).
    unfold share_entry. rewrite !has_char_app, Hn, Hh, Hnl. reflexivity.
  - rewrite Hs. now apply pat_search_entry.
Qed.

Lemma entries_of_shares (shares : list (string * string * string)) :
  forallb share_ok shares = true ->
  no_header (map entry_of shares) = true
  /\ single_lines (map entry_of shares) = true
  /\ blank_count (map entry_of shares) = 0
  /\ entries (map entry_of shares) = Some (map host_and_name shares).
Proof.
  induction shares as [|[[n h] c] shares IH]; [easy|].
  cbn [forallb]. intros H. apply andb_prop in H as [Hs Hrest].
  destruct (IH Hrest) as (IH1 & IH2 & IH3 & IH4).
  destruct (entry_is_a_line n h c Hs) as (Hh & Hb & Hnl & Hp).
  unfold blank_count, no_header, single_lines in *.
  cbn [map entry_of forallb entries List.filter].
  rewrite Hh, Hb, Hnl, Hp, IH1, IH2, IH4.
  cbn [negb andb sl_host sl_name host_and_name].
  repeat split; try reflexivity. exact IH3.
Qed.

Lemma parse_vminfo_section_of (shares : list (string * string * string))
    (before : list string) (after : string) :
  forallb share_ok shares = true ->
  single_lines before = true -> no_header before = true ->
  no_header (split_char newline after) = true ->
  parse_vminfo (unlines before ++ shared_folders_section shares ++ after)
  = Some (map host_and_name shares).
Proof.
  intros Hs Hb1 Hb2 Ha.
  destruct (entries_of_shares shares Hs) as (H1 & H2 & H3 & H4).
  set (lines := map entry_of shares) in *.
  unfold parse_vminfo, shared_folders_section. fold lines.
  rewrite split_unlines by assumption.
  rewrite split_unlines.
  2:{ cbn [single_lines forallb]. unfold single_lines in H2.
      rewrite forallb_app, H2. reflexivity. }
  cbn [app].
  rewrite <- app_assoc. cbn [app].
  apply (parse_lines_section before (EmptyString :: lines) (split_char newline after)
           "Shared folders:" EmptyString (map host_and_name shares));
    try assumption; try reflexivity.
  unfold blank_count in *. cbn [List.filter]. change (is_blank EmptyString) with true.
    cbn [List.length]. now rewrite H3.
Qed.

(** X18: round trip.  For the section VBoxManage prints for a list of
    shares, placed between lines that are no headers, [parse_vminfo]
    returns exactly the (host path, name) pairs of these shares, in
    their order. *)
Theorem parse_vminfo_round_trip (shares : list (string * string * string))
    (before : list string) (after : string) :
  forallb share_ok shares = true ->
  single_lines before = true -> no_header before = true ->
  no_header (split_char newline after) = true ->
  parse_vminfo (unlines before ++ shared_folders_section shares ++ after)
  = Some (map host_and_name shares).
Proof. apply parse_vminfo_section_of. Qed.

Lemma has_char_prefix (a : ascii) (p s : string) :
  String.prefix p s = true -> has_char a p = true -> has_char a s = true.
Proof.
  revert s. induction p as [|c p IH]; intros s Hp Ha; [discriminate|].
  destruct s as [|d s]; [discriminate|].
  rewrite prefix_cons in Hp. apply andb_prop in Hp as [Hc Hp].
  apply Ascii.eqb_eq in Hc. subst d. cbn [has_char] in *.
  destruct (Ascii.eqb a c); [reflexivity|]. cbn [orb] in *. now apply IH.
Qed.

Lemma has_char_lstrip (a : ascii) (s : string) :
  has_char a s = false -> has_char a (lstrip s) = false.
Proof.
  induction s as [|c s IH]; [reflexivity|]. cbn [lstrip].
  destruct (is_space c); [|easy].
  cbn [has_char]. intros H. apply orb_false_elim in H as [_ H]. now apply IH.
Qed.

Lemma has_char_rstrip (a : ascii) (s : string) :
  has_char a s = false -> has_char a (rstrip s) = false.
Proof.
  induction s as [|c s IH]; [reflexivity|]. cbn [has_char rstrip].
  intros H. apply orb_false_elim in H as [Hc Hs]. specialize (IH Hs).
  destruct (rstrip s) as [|d r].
  - destruct (is_space c); [reflexivity|]. cbn [has_char]. now rewrite Hc.
  - cbn [has_char] in *. now rewrite Hc, IH.
Qed.

(** A text without apostrophe has no match of the pattern. *)
Lemma pat_search_needs_apostrophe (s : string) :
  has_char apostrophe s = false -> pat_search s = None.
Proof.
  intros Hs.
  assert (Hm : forall t, has_char apostrophe t = false -> pat_match_here t = None).
  { intros t Ht. unfold pat_match_here.
    destruct (String.prefix "Name: '" t) eqn:Hp; [|reflexivity].
    apply (has_char_prefix apostrophe) in Hp; [congruence | reflexivity]. }
  induction s as [|c s IH].
  - reflexivity.
  - cbn [pat_search]. rewrite (Hm _ Hs). cbn [has_char] in Hs.
    apply orb_false_elim in Hs as [_ Hs]. now apply IH.
Qed.

(** X19: inside the section, as long as fewer than two blank lines have
    been counted, a line that is not blank and holds no apostrophe makes
    [parse_vminfo] fail ([ms] is [None], so [ms.groupdict()] raises
    [AttributeError]), whatever the entries read before it. *)
Theorem parse_vminfo_stray_line_raises (vminfo : string)
    (pre body post : list string) (h line : string) (es : list (string * string)) :
  split_char newline vminfo = (pre ++ h :: body ++ line :: post)%list ->
  no_header pre = true -> no_header body = true ->
  is_header h = true -> contains "<none>" h = false ->
  blank_count body < 2 -> entries body = Some es ->
  is_header line = false -> is_blank line = false ->
  has_char apostrophe line = false ->
  parse_vminfo vminfo = None.
Proof.
  intros Hsplit Hpre Hbody Hh Hnone Hcount Hes Hl1 Hl2 Hl3.
  unfold parse_vminfo. rewrite Hsplit.
  rewrite parse_lines_outside by assumption.
  cbn [parse_lines]. rewrite Hh, Hnone.
  rewrite parse_lines_inside by (assumption || lia).
  rewrite Hes. cbn [parse_lines]. rewrite Hl1, Hl2.
  rewrite pat_search_needs_apostrophe; [reflexivity|].
  unfold strip. now apply has_char_rstrip, has_char_lstrip.
Qed.

Section ShareReport.
Context {P : Platform} {E : Environment}.

(** X20: away from Windows, with the machine name in [self.info],
    [get_vbox_share] runs exactly one command,
    [vboxmanage showvminfo <name>].  When that prints the section of a
    list of shares, the result is their (host path, name) pairs in
    order; when it exits with another status than 0 the method raises
    [CalledProcessError]. *)
Theorem get_vbox_share_reads_showvminfo (self : DockerEnv) (w : world)
    (dct : list (string * json)) (vm : string) :
  String.eqb sys_platform "win32" = false ->
  info self = Some (JDict dct) -> dict_get "Name" dct = Some (JStr vm) ->
  (forall shares before after err f,
      forallb share_ok shares = true ->
      single_lines before = true -> no_header before = true ->
      no_header (split_char newline after) = true ->
      spawn w ["vboxmanage"; "showvminfo"; vm] None
      = Exited 0 (unlines before ++ shared_folders_section shares ++ after) err f ->
      get_vbox_share self w
      = (Ret (map host_and_name shares),
         {| environ := environ w; files := f;
            trace := trace w ++ [EvSpawn ["vboxmanage"; "showvminfo"; vm] None] |}))
  /\ (forall rc out err f,
        rc <> 0%Z ->
        spawn w ["vboxmanage"; "showvminfo"; vm] None = Exited rc out err f ->
        get_vbox_share self w
        = (Raise CalledProcessError,
           {| environ := environ w; files := f;
              trace := trace w ++ [EvSpawn ["vboxmanage"; "showvminfo"; vm] None] |})).
Proof.
  intros Hplat Hinfo Hname. destruct w as [env fs tr]. cbn [environ files trace].
  assert (Hin : existsb (fun kv => String.eqb (fst kv) "Name") dct = true)
    by now rewrite dict_get_in, Hname.
  split.
  - intros shares before after err f Hs Hb1 Hb2 Ha Hspawn.
    pose proof (parse_vminfo_section_of shares before after Hs Hb1 Hb2 Ha) as Hparse.
    unfold get_vbox_share, toolbox_vm, _find_vboxmanage. rewrite Hinfo, Hplat.
    cbv beta iota delta [bind py_in py_getitem need_arg as_arg check_output
                           popen_wait get_world log set_files ret raise].
    eff_step. rewrite Hin. eff_step. rewrite Hname.
    repeat progress (eff_step; rewrite ?Hspawn).
    cbn [Z.eqb]. rewrite Hparse. reflexivity.
  - intros rc out err f Hrc Hspawn.
    unfold get_vbox_share, toolbox_vm, _find_vboxmanage. rewrite Hinfo, Hplat.
    cbv beta iota delta [bind py_in py_getitem need_arg as_arg check_output
                           popen_wait get_world log set_files ret raise].
    eff_step. rewrite Hin. eff_step. rewrite Hname.
    repeat progress (eff_step; rewrite ?Hspawn).
    apply Z.eqb_neq in Hrc. rewrite Hrc. reflexivity.
Qed.
End ShareReport.

Lemma pat_search_reads_the_fields_witness :
  pat_search (share_entry "c/Users" "/c/Users" machine_mapping)
  = Some {| sl_name := "c/Users"; sl_host := "/c/Users"; sl_comment := machine_mapping |}.
Proof.
  apply (pat_search_reads_the_fields "c/Users" "/c/Users" machine_mapping);
    reflexivity.
Defined.

Lemma parse_vminfo_round_trip_witness :
  parse_vminfo (unlines ["Name: default"]
                ++ shared_folders_section
                     [("c/Users", "/c/Users", machine_mapping);
                      ("d", "/d", machine_mapping)]
                ++ "VRDE: disabled" ++ nl)
  = Some [("/c/Users", "c/Users"); ("/d", "d")].
Proof.
  apply (parse_vminfo_round_trip
           [("c/Users", "/c/Users", machine_mapping); ("d", "/d", machine_mapping)]
           ["Name: default"] ("VRDE: disabled" ++ nl));
    reflexivity.
Defined.

Lemma parse_vminfo_stray_line_raises_witness :
  parse_vminfo vminfo_stray_line = None.
Proof.
  apply (parse_vminfo_stray_line_raises vminfo_stray_line [] [entry_d; EmptyString] []
           "Shared folders:" "VRDE: disabled" [("/d", "d")]);
    try reflexivity.
  vm_compute. lia.
Defined.

Lemma get_vbox_share_reads_showvminfo_witness :
  @get_vbox_share (posix_platform "darwin") env_showvminfo toolbox_named empty_world
  = (Ret [("/Users", "Users")],
     {| environ := ∅; files := ∅;
        trace := [EvSpawn ["vboxmanage"; "showvminfo"; "default"] None] |}).
Proof.
  apply (proj1 (@get_vbox_share_reads_showvminfo (posix_platform "darwin")
                  env_showvminfo toolbox_named empty_world _ "default"
                  eq_refl eq_refl eq_refl)
           mac_shares ["Name:            default"] ("VRDE:            disabled" ++ nl)
           EmptyString ∅);
    reflexivity.
Defined.

(** ** The programs the launcher starts *)

Create HintDb tools.

Lemma to_ret {S A : Type} (tr : S -> list event) (a : A) : tools_only tr (@ret S A a).
Proof. intros s. exists []. now rewrite app_nil_r. Qed.

Lemma to_raise {S A : Type} (tr : S -> list event) (e : exn) :
  tools_only tr (@raise S A e).
Proof. intros s. exists []. now rewrite app_nil_r. Qed.

Lemma to_exit {S A : Type} (tr : S -> list event) (c : Z) :
  tools_only tr (@sys_exit S A c).
Proof. intros s. exists []. now rewrite app_nil_r. Qed.

Lemma to_bind {S A B : Type} (tr : S -> list event) (m : Eff S A) (k : A -> Eff S B) :
  tools_only tr m -> (forall a, tools_only tr (k a)) -> tools_only tr (bind m k).
Proof.
  intros Hm Hk s. unfold bind. destruct (Hm s) as (l1 & H1 & F1).
  destruct (m s) as [[a|e|c] s1]; cbn [snd] in *; try (exists l1; now split).
  destruct (Hk a s1) as (l2 & H2 & F2). exists (l1 ++ l2)%list.
  rewrite H2, H1, app_assoc, forallb_app, F1, F2. now split.
Qed.

Lemma to_lift {A : Type} (m : W A) : tools_only trace m -> tools_only trace_of (lift m).
Proof.
  intros Hm [d w]. unfold lift, trace_of. cbn [fst snd]. destruct (Hm w) as (l & H & F).
  destruct (m w) as [r w']. cbn [snd] in *. now exists l.
Qed.

(** A single step that leaves the trace as it is. *)
Ltac to_prim :=
  intros ?; exists [];
  repeat match goal with
         | |- context [match ?x with _ => _ end] => destruct x
         end;
  now rewrite app_nil_r.

Lemma to_get_self : tools_only trace_of get_self.
Proof. unfold get_self. to_prim. Qed.
Lemma to_put_self (d : DockerEnv) : tools_only trace_of (put_self d).
Proof. unfold put_self. to_prim. Qed.
Lemma to_set_files (f : gmap string string) : tools_only trace (set_files f).
Proof. unfold set_files. to_prim. Qed.
Lemma to_get_world : tools_only trace get_world.
Proof. unfold get_world. to_prim. Qed.
Lemma to_env_has (k : string) : tools_only trace (env_has k).
Proof. unfold env_has. to_prim. Qed.
Lemma to_env_get (k : string) : tools_only trace (env_get k).
Proof. unfold env_get. to_prim. Qed.
Lemma to_env_set (k v : string) : tools_only trace (env_set k v).
Proof. unfold env_set. to_prim. Qed.
Lemma to_isfile (p : string) : tools_only trace (isfile p).
Proof. unfold isfile. to_prim. Qed.
Lemma to_create_file (p : string) : tools_only trace (create_file p).
Proof. unfold create_file. to_prim. Qed.
Lemma to_read_file (p : string) : tools_only trace (read_file p).
Proof. unfold read_file. to_prim. Qed.
Lemma to_os_remove (p : string) : tools_only trace (os_remove p).
Proof. unfold os_remove. to_prim. Qed.

Lemma to_log (e : event) : tool_event e = true -> tools_only trace (log e).
Proof.
  intros He w. exists [e]. unfold log. cbn [snd trace forallb]. now rewrite He.
Qed.

#[local] Hint Resolve to_get_self to_put_self to_set_files to_get_world
  to_env_has to_env_get to_env_set to_isfile to_create_file to_read_file
  to_os_remove : tools.

(** Walk through a computation built from [bind], branches and actions
    already known to start the tools only. *)
Ltac to_walk :=
  repeat match goal with
         | |- tools_only _ (bind _ _) => apply to_bind; [| intros ?]
         | |- tools_only _ (ret _) => apply to_ret
         | |- tools_only _ (raise _) => apply to_raise
         | |- tools_only _ (sys_exit _) => apply to_exit
         | |- tools_only _ (lift _) => apply to_lift
         | |- tools_only _ (log _) => apply to_log; first [reflexivity | assumption]
         | |- tools_only _ (match ?x with _ => _ end) => destruct x
         | |- tools_only _ _ => solve [auto with tools]
         end.

Lemma tool_cmd_app (cmds rest : list string) :
  tool_cmd cmds = true -> tool_cmd (cmds ++ rest) = true.
Proof. now destruct cmds. Qed.

Lemma run_cmd_is_docker (cp : option string) (a : run_args) :
  tool_cmd (run_cmd cp a) = true.
Proof.
  unfold run_cmd. cbn [app]. rewrite filter_cons.
  destruct (decide (nonempty "docker" = true)) as [_|H]; [reflexivity | now contradiction H].
Qed.

Lemma docker_cmd_is_docker (cp : string) (a : run_args) :
  tool_cmd (docker_cmd cp a) = true.
Proof.
  unfold docker_cmd. cbn [app]. rewrite filter_cons.
  destruct (decide (nonempty "docker" = true)) as [_|H]; [reflexivity | now contradiction H].
Qed.

Section Programs.
Context {P : Platform} {E : Environment}.

Lemma to_set_exists v : tools_only trace_of (set_exists v).
Proof. unfold set_exists. to_walk. Qed.
Lemma to_set_running v : tools_only trace_of (set_running v).
Proof. unfold set_running. to_walk. Qed.
Lemma to_set_info v : tools_only trace_of (set_info v).
Proof. unfold set_info. to_walk. Qed.
Lemma to_set_is_toolbox v : tools_only trace_of (set_is_toolbox v).
Proof. unfold set_is_toolbox. to_walk. Qed.
Lemma to_set_folder_map v : tools_only trace_of (set_folder_map v).
Proof. unfold set_folder_map. to_walk. Qed.
Hint Resolve to_set_exists to_set_running to_set_info to_set_is_toolbox
  to_set_folder_map : tools.

Lemma to_popen_wait cmds input :
  tool_cmd cmds = true -> tools_only trace (popen_wait cmds input).
Proof. intros H. unfold popen_wait. to_walk. Qed.
Lemma to_call cmds input : tool_cmd cmds = true -> tools_only trace (call cmds input).
Proof. intros H. unfold call. to_walk. Qed.
Lemma to_check_output cmds : tool_cmd cmds = true -> tools_only trace (check_output cmds).
Proof. intros H. unfold check_output. to_walk. now apply to_popen_wait. Qed.
Lemma to_subprocess_call cmds :
  tool_cmd cmds = true -> tools_only trace (subprocess_call cmds).
Proof. intros H. unfold subprocess_call. to_walk. now apply to_popen_wait. Qed.
Lemma to_need_arg v : tools_only trace (need_arg v).
Proof. unfold need_arg. to_walk. Qed.
Lemma to_call_vm cmds vm input :
  tool_cmd cmds = true -> tools_only trace (call_vm cmds vm input).
Proof.
  intros H. unfold call_vm. to_walk. apply to_call. now apply tool_cmd_app.
Qed.
Hint Resolve to_need_arg : tools.
Hint Extern 1 (tools_only _ (popen_wait _ _)) =>
  apply to_popen_wait; reflexivity : tools.
Hint Extern 1 (tools_only _ (call _ _)) => apply to_call; reflexivity : tools.
Hint Extern 1 (tools_only _ (check_output _)) =>
  apply to_check_output; reflexivity : tools.
Hint Extern 1 (tools_only _ (subprocess_call _)) =>
  apply to_subprocess_call; reflexivity : tools.
Hint Extern 1 (tools_only _ (call_vm _ _ _)) => apply to_call_vm; reflexivity : tools.

Lemma to_add_to_path d : tools_only trace (add_to_path d).
Proof. unfold add_to_path. to_walk. Qed.
Hint Resolve to_add_to_path : tools.

Lemma to_check_tool name pth exe cmds dflt :
  tool_cmd cmds = true -> tools_only trace (check_tool name pth exe cmds dflt).
Proof. intros H. unfold check_tool. to_walk; now apply to_check_output. Qed.
Hint Extern 1 (tools_only _ (check_tool _ _ _ _ _)) =>
  apply to_check_tool; reflexivity : tools.

Lemma to_find_vboxmanage : tools_only trace _find_vboxmanage.
Proof. unfold _find_vboxmanage. to_walk. Qed.

Lemma to_py_in {S : Type} (tr : S -> list event) key v : tools_only tr (@py_in S key v).
Proof. unfold py_in. to_walk. Qed.
Lemma to_py_getitem {S : Type} (tr : S -> list event) key v :
  tools_only tr (@py_getitem S key v).
Proof. unfold py_getitem. to_walk. Qed.
Lemma to_py_lower {S : Type} (tr : S -> list event) v : tools_only tr (@py_lower S v).
Proof. unfold py_lower. to_walk. Qed.
Hint Resolve to_find_vboxmanage to_py_in to_py_getitem to_py_lower : tools.

Lemma to_toolbox_vm self : tools_only trace (toolbox_vm self).
Proof. unfold toolbox_vm. to_walk. Qed.

Lemma to_update_env_lines lines : tools_only trace (update_env_lines lines).
Proof. induction lines as [|l lines IH]; cbn [update_env_lines]; to_walk. Qed.
Hint Resolve to_toolbox_vm to_update_env_lines : tools.

Lemma to_update_env : tools_only trace update_env.
Proof. unfold update_env. to_walk. Qed.
Lemma to_system cmd :
  String.prefix "docker " cmd = true -> tools_only trace (system cmd).
Proof. intros H. unfold system. to_walk. Qed.
Lemma to_rmtree p : tools_only trace (rmtree p).
Proof. unfold rmtree. to_walk. Qed.
Lemma to_add_proxy k t : tools_only trace (add_proxy k t).
Proof. unfold add_proxy. to_walk. Qed.
Hint Resolve to_update_env to_rmtree to_add_proxy : tools.
Hint Extern 1 (tools_only _ (system _)) => apply to_system; reflexivity : tools.

Lemma to_repair_win_toolbox self : tools_only trace (repair_win_toolbox self).
Proof. unfold repair_win_toolbox. to_walk. Qed.
Lemma bind_run {S A B : Type} (m : Eff S A) (k : A -> Eff S B) (s s1 : S) (a : A) :
  m s = (Ret a, s1) -> bind m k s = k a s1.
Proof. intros H. unfold bind. now rewrite H. Qed.

Lemma in_bind_left {A B : Type} (m : W A) (k : A -> W B) (e : event) (w : world) :
  (forall a, tools_only trace (k a)) ->
  In e (trace (snd (m w))) -> In e (trace (snd (bind m k w))).
Proof.
  intros Hk Hin. unfold bind. destruct (m w) as [[a|x|c] w1]; cbn [snd] in *; trivial.
  destruct (Hk a w1) as (l & -> & _). apply in_or_app. now left.
Qed.

(** Reduce a step on [os.environ] after an assignment. *)
Ltac env_step :=
  repeat progress
    (eff_step; rewrite ?lookup_insert_eq;
     repeat (rewrite lookup_insert_ne by discriminate);
     rewrite ?bool_decide_eq_true_2 by eauto).

(** X21: when the machine is not among those VirtualBox lists,
    [repair_win_toolbox] removes it and creates it again with the command
    [docker-machine create -d virtualbox], the pieces of [PROXY_ENV] cut
    at spaces, and the machine name.  [PROXY_ENV] has just been assigned, so
    the branch without proxy arguments is never taken: with no proxy
    variable set the command holds one empty argument, and with several
    set their options are joined without a space between them. *)
Theorem repair_create_command (self : DockerEnv) (w w1 w2 : world)
    (vm vms err hd hp : string) (f : gmap string string) :
  _find_vboxmanage w = (Ret tt, w1) ->
  toolbox_vm self w1 = (Ret (JStr vm), w2) ->
  py_str (JStr vm) = vm ->
  spawn w2 ["VBoxManage"; "list"; "vms"] None = Exited 0 vms err f ->
  contains (dquote ++ vm ++ dquote) (strip vms) = false ->
  (forall w', exists rc o e f',
      spawn w' ["docker-machine"; "rm"; "-f"; vm] None = Exited rc o e f') ->
  environ w2 !! "HOMEDRIVE" = Some hd -> environ w2 !! "HOMEPATH" = Some hp ->
  In (EvSpawn (create_cmd (environ w2) vm) None)
     (trace (snd (repair_win_toolbox self w))).
Proof.
  intros Hfind Hvm Hstr Hlist Hmiss Hrm Hhd Hhp.
  unfold repair_win_toolbox.
  rewrite (bind_run _ _ _ _ _ Hfind), (bind_run _ _ _ _ _ Hvm).
  destruct w2 as [env fs tr]. cbn [environ] in *.
  assert (Hout : check_output ["VBoxManage"; "list"; "vms"]
                   {| environ := env; files := fs; trace := tr |}
                 = (Ret vms, {| environ := env; files := f;
                                trace := tr ++ [EvSpawn ["VBoxManage"; "list"; "vms"] None] |})).
  { cbv beta iota delta [check_output popen_wait bind get_world log set_files ret].
    eff_step. rewrite Hlist. reflexivity. }
  rewrite (bind_run _ _ _ _ _ Hout).
  apply in_bind_left; [intros _; to_walk|].
  rewrite Hstr, Hmiss. cbn [negb].
  unfold create_cmd, proxy_env.
  cbv beta iota delta [bind need_arg as_arg subprocess_call popen_wait get_world log
                         set_files ret raise env_get env_has env_set rmtree add_proxy].
  eff_step.
  match goal with
  | |- context [spawn ?w0 ["docker-machine"; "rm"; "-f"; vm] None] =>
      destruct (Hrm w0) as (rc & o & e & f' & Hr); rewrite Hr
  end.
  eff_step. rewrite Hhd. eff_step. rewrite Hhp. eff_step.
  rewrite (lookup_insert_ne env "PROXY_ENV" "HTTP_PROXY") by discriminate.
  destruct (bool_decide (is_Some (env !! "HTTP_PROXY"))); env_step;
    destruct (bool_decide (is_Some (env !! "HTTPS_PROXY"))); env_step;
    destruct (bool_decide (is_Some (env !! "NO_PROXY"))); env_step.
  all: match goal with
       | |- context [spawn ?w0 ?c None] => destruct (spawn w0 c None)
       end.
  all: eff_step; rewrite !in_app_iff; cbn [In]; auto.
Qed.

Lemma to_get_vbox_share self : tools_only trace (get_vbox_share self).
Proof. unfold get_vbox_share. to_walk. Qed.
Hint Resolve to_repair_win_toolbox to_get_vbox_share : tools.

Lemma to_check_exists : tools_only trace_of check_exists.
Proof. unfold check_exists. to_walk. Qed.
Hint Resolve to_check_exists : tools.

Lemma to_check_running verbose : tools_only trace_of (check_running verbose).
Proof. unfold check_running. to_walk. Qed.
Hint Resolve to_check_running : tools.

Lemma to_aggressive_repair : tools_only trace_of aggressive_repair.
Proof. unfold aggressive_repair. to_walk. Qed.
Hint Resolve to_aggressive_repair : tools.

Lemma to_DockerEnv_init check toolbox fm :
  tools_only trace_of (DockerEnv_init check toolbox fm).
Proof. unfold DockerEnv_init. to_walk. Qed.

Lemma to_nt_to_posix_opt {S : Type} (tr : S -> list event) v :
  tools_only tr (@nt_to_posix_opt S v).
Proof. unfold nt_to_posix_opt. to_walk. Qed.
Hint Resolve to_DockerEnv_init to_nt_to_posix_opt : tools.

Lemma to_volume_path path : tools_only trace_of (volume_path path).
Proof. unfold volume_path. to_walk. Qed.
Lemma to_launch cmd : tool_cmd cmd = true -> tools_only trace (launch cmd).
Proof. intros H. unfold launch. to_walk. now apply to_popen_wait. Qed.
Hint Resolve to_volume_path : tools.

Lemma to_run_waiwera a : tools_only trace_of (run_waiwera a).
Proof.
  unfold run_waiwera. to_walk. apply to_launch, run_cmd_is_docker.
Qed.
Lemma to_waiwera_docker a : tools_only trace (waiwera_docker a).
Proof.
  unfold waiwera_docker. to_walk; apply to_launch, docker_cmd_is_docker.
Qed.
Lemma to_signal_handler : tools_only trace signal_handler.
Proof. unfold signal_handler. to_walk. Qed.

(** X22: whatever the platform, the machine and the arguments, a whole
    run of the script, the module-level [waiwera_docker] and the
    interrupt handler only add to the trace of actions, and what they add
    is of three kinds: a child process whose command line begins with
    [docker], [docker-machine], [VBoxManage] or [vboxmanage]; a command
    line handed to the shell that begins with [docker] and a space; or an
    action that starts no program (the removal of a machine directory,
    a pause, a prompt). *)
Theorem launcher_starts_only_its_tools (a : run_args) (w : world) :
  (exists l, trace (snd (main a w)) = (trace w ++ l)%list
             /\ forallb tool_event l = true)
  /\ (exists l, trace (snd (waiwera_docker a w)) = (trace w ++ l)%list
                /\ forallb tool_event l = true)
  /\ (exists l, trace (snd (signal_handler w)) = (trace w ++ l)%list
                /\ forallb tool_event l = true).
Proof.
  split; [|split].
  - unfold main.
    pose proof (to_bind trace_of (DockerEnv_init true None []) (fun _ => run_waiwera a)
                  (to_DockerEnv_init _ _ _) (fun _ => to_run_waiwera a) (blank, w)) as H.
    destruct (bind _ _ (blank, w)) as [r s]. exact H.
  - apply to_waiwera_docker.
  - apply to_signal_handler.
Qed.
End Programs.

Lemma repair_create_command_witness :
  In (EvSpawn ["docker-machine"; "create"; "-d"; "virtualbox"; "--engine-env";
               "HTTP_PROXY=%HTTP_PROXY%--engine-env"; "HTTPS_PROXY=%HTTPS_PROXY%";
               "default"] None)
     (trace (snd (@repair_win_toolbox nt_platform env_lost_machine stopped_toolbox
                    world_behind_proxy))).
Proof.
  pose (w1 := snd (@_find_vboxmanage nt_platform env_lost_machine world_behind_proxy)).
  pose (w2 := snd (@toolbox_vm env_lost_machine stopped_toolbox w1)).
  assert (Hc : create_cmd (environ w2) "default"
               = ["docker-machine"; "create"; "-d"; "virtualbox"; "--engine-env";
                  "HTTP_PROXY=%HTTP_PROXY%--engine-env"; "HTTPS_PROXY=%HTTPS_PROXY%";
                  "default"]) by (vm_compute; reflexivity).
  rewrite <- Hc.
  apply (@repair_create_command nt_platform env_lost_machine stopped_toolbox
           world_behind_proxy w1 w2 "default" EmptyString EmptyString "C:" home_path
           (files w2));
    try (vm_compute; reflexivity).
  intros w'. exists 0%Z, EmptyString, EmptyString, (files w'). reflexivity.
Defined.

(** ** The two launchers side by side *)

Lemma filter_program (pre args : list string) (prog : string) :
  nonempty prog = true ->
  filter (fun c => nonempty c = true) (pre ++ [prog] ++ args)%list
  = (filter (fun c => nonempty c = true) pre
       ++ (prog :: filter (fun c => nonempty c = true) args))%list.
Proof.
  intros H. rewrite !filter_app, filter_cons, filter_nil.
  destruct (decide (nonempty prog = true)); [reflexivity | contradiction].
Qed.

(** X23: the method [run_waiwera] and the module-level [waiwera_docker]
    build the same command line up to the program: in a batch run the
    method starts [WAIWERA_PATH] and the function
    [WAIWERA_PATH/build/waiwera]; in an interactive run the method
    starts [/bin/bash] and the function names no program, so that the
    image's own entry point gets the arguments. *)
Theorem launchers_differ_in_program (cp : string) (a : run_args) :
  exists pre,
    (interactive a = false ->
     run_cmd (Some cp) a = (pre ++ (WAIWERA_PATH :: passed_args a))%list
     /\ docker_cmd cp a
        = (pre ++ ((WAIWERA_PATH ++ "/build/waiwera")%string :: passed_args a))%list)
    /\ (interactive a = true ->
        run_cmd (Some cp) a = (pre ++ ("/bin/bash" :: passed_args a))%list
        /\ docker_cmd cp a = (pre ++ passed_args a)%list).
Proof.
  unfold run_cmd, docker_cmd, passed_args. cbn [format_path].
  destruct (interactive a).
  - eexists. split; [discriminate | intros _]. split.
    + rewrite !app_assoc, <- (app_assoc _ ["/bin/bash"]). apply filter_program. reflexivity.
    + rewrite !app_assoc, filter_app. f_equal. rewrite filter_app.
      rewrite (filter_cons _ EmptyString), filter_nil.
      destruct (decide (nonempty EmptyString = true)); [discriminate|].
      now rewrite app_nil_r.
  - eexists. split; [intros _ | discriminate]. split.
    + rewrite !app_assoc, <- (app_assoc _ [WAIWERA_PATH]). apply filter_program.
      reflexivity.
    + rewrite !app_assoc, <- (app_assoc _ [(WAIWERA_PATH ++ "/build/waiwera")%string]).
      rewrite filter_program by reflexivity. reflexivity.
Qed.

Lemma launchers_differ_in_program_witness :
  exists pre,
    run_cmd (Some "/home/user/model") batch_args
    = (pre ++ [WAIWERA_PATH; "model.json"])%list
    /\ docker_cmd "/home/user/model" batch_args
       = (pre ++ [(WAIWERA_PATH ++ "/build/waiwera")%string; "model.json"])%list.
Proof.
  destruct (launchers_differ_in_program "/home/user/model" batch_args) as (pre & H & _).
  exists pre. exact (H eq_refl).
Defined.
